(** * Dual-account grid bot: order tracker, level state machine, grid executor

    A shallow embedding of the Python sources [data_models.py], [config.py],
    [binance_connector.py], [grid_executor.py] and of the balance check of
    [strategy_controller.py], together with the properties of the
    specification that were checked against them and further properties
    read off the code.

    Conventions of the embedding.

    - [Decimal] values are rationals ([Q]); the operations used by the code
      (comparison, [+], [-], [*], [/], [//], [abs]) are exact on them.  A
      division by a zero [Decimal] raises in Python and is modelled as an
      exception, never as [0].
    - The few places where the code goes through [float] ([math.ceil],
      [math.floor], [int(float(..))]) are modelled on the exact value.
    - A Python [dict] received from the venue is an association list from
      keys to dynamically typed values ([PyVal]); lookup takes the first
      binding of a key.
    - Objects that are mutated through several references (the levels held
      both in [grid_levels] and in the [levels_by_state] buckets) live in
      one store, the list [grid_levels], and are referred to by index.
    - The venue is an arbitrary deterministic state machine [Venue W]; the
      ccxt session under the connector is one too ([Exchange W]).  The
      websocket and asyncio loops of the connector are not modelled. *)

From Stdlib Require Import QArith Qround Qabs Lqa Lia ZArith String Ascii List Bool.
From Stdlib Require Import Sorting.Sorted Permutation.
From stdpp Require Import base list strings.
Import ListNotations.

Local Open Scope Q_scope.
Local Open Scope string_scope.

(** ** Decimal helpers *)

Module Dec.

Definition is_zero (x : Q) : bool := Qeq_bool x 0.

Definition ltb (x y : Q) : bool := negb (Qle_bool y x).
Definition leb (x y : Q) : bool := Qle_bool x y.
Definition gtb (x y : Q) : bool := ltb y x.
Definition geb (x y : Q) : bool := leb y x.

Definition max (x y : Q) : Q := if leb y x then x else y.

(** [x / y] on [Decimal]: raises when [y] is zero. *)
Definition div (x y : Q) : option Q :=
  if is_zero y then None else Some (x / y).

(** [int(x)]: truncation toward zero. *)
Definition trunc (x : Q) : Z :=
  if leb 0 x then Qfloor x else Qceiling x.

(** [x // y] on [Decimal]: the integer part of the quotient, truncated
    toward zero; raises when [y] is zero. *)
Definition floordiv (x y : Q) : option Q :=
  if is_zero y then None else Some (inject_Z (trunc (x / y))).

End Dec.

(** ** Dynamically typed venue payloads *)

#[local] Set Warnings "-register-all".

Inductive PyVal : Type :=
| PyNone
| PyBool (b : bool)
| PyStr (s : string)
| PyNum (q : Q)
| PyList (l : list PyVal)
| PyDict (d : list (string * PyVal)).

Definition PyDictT : Type := list (string * PyVal).

Module Py.

(** [key in d] and [d.get(key, default)] *)
Fixpoint lookup (key : string) (d : PyDictT) : option PyVal :=
  match d with
  | [] => None
  | (k, v) :: d' => if String.eqb k key then Some v else lookup key d'
  end.

Definition contains (key : string) (d : PyDictT) : bool :=
  match lookup key d with Some _ => true | None => false end.

Definition get (key : string) (default : PyVal) (d : PyDictT) : PyVal :=
  match lookup key d with Some v => v | None => default end.

(** Truth value of an object in a condition. *)
Definition truthy (v : PyVal) : bool :=
  match v with
  | PyNone => false
  | PyBool b => b
  | PyStr s => negb (String.eqb s "")
  | PyNum q => negb (Dec.is_zero q)
  | PyList l => match l with [] => false | _ => true end
  | PyDict d => match d with [] => false | _ => true end
  end.

(** [str.upper] on ASCII text. *)
Definition upper_ascii (c : ascii) : ascii :=
  let n := nat_of_ascii c in
  if (97 <=? n)%nat && (n <=? 122)%nat then ascii_of_nat (n - 32) else c.

Fixpoint upper (s : string) : string :=
  match s with
  | EmptyString => EmptyString
  | String c s' => String (upper_ascii c) (upper s')
  end.

(** [v.upper()]: only strings have the method, anything else raises
    [AttributeError]. *)
Definition upper_method (v : PyVal) : option string :=
  match v with
  | PyStr s => Some (upper s)
  | _ => None
  end.

(** [status in [...]] for a list of string literals. *)
Definition str_in (s : string) (l : list string) : bool :=
  existsb (String.eqb s) l.

End Py.

(** [Decimal(str(v))] for a payload value.  Numbers stand for themselves;
    a string is read as a decimal literal (optional sign, digits with an
    optional fractional part, optional exponent); everything else — and any
    other text — makes the constructor raise [InvalidOperation] ([None]). *)
Module DecimalParse.

Definition digit_of (c : ascii) : option Z :=
  let n := nat_of_ascii c in
  if (48 <=? n)%nat && (n <=? 57)%nat then Some (Z.of_nat (n - 48)) else None.

(** Reads the longest run of digits: accumulated value, number of digits
    read, and the rest of the input. *)
Fixpoint digits (acc : Z) (count : nat) (s : string) : Z * nat * string :=
  match s with
  | String c s' =>
      match digit_of c with
      | Some d => digits (10 * acc + d) (S count) s'
      | None => (acc, count, s)
      end
  | EmptyString => (acc, count, s)
  end.

Definition sign (s : string) : bool * string :=
  match s with
  | String "-" s' => (true, s')
  | String "+" s' => (false, s')
  | _ => (false, s)
  end.

Definition pow10 (e : Z) : Q :=
  if (0 <=? e)%Z then inject_Z (10 ^ e) else / inject_Z (10 ^ (- e)).

Definition exponent (s : string) : option Z :=
  match s with
  | EmptyString => Some 0%Z
  | String c s' =>
      if Ascii.eqb c "e" || Ascii.eqb c "E" then
        let '(neg, s1) := sign s' in
        match digits 0 0 s1 with
        | (_, O, _) => None
        | (e, _, EmptyString) => Some (if neg then (- e)%Z else e)
        | _ => None
        end
      else None
  end.

Definition parse (s : string) : option Q :=
  let '(neg, s1) := sign s in
  let '(ip, n1, s2) := digits 0 0 s1 in
  let '(m, n2, s3) :=
    match s2 with
    | String "." s2' => digits ip 0 s2'
    | _ => (ip, O, s2)
    end in
  match (n1 + n2)%nat with
  | O => None
  | _ =>
      match exponent s3 with
      | None => None
      | Some e =>
          let v := inject_Z m * pow10 (e - Z.of_nat n2) in
          Some (if neg then - v else v)
      end
  end.

End DecimalParse.

Definition Decimal_str (v : PyVal) : option Q :=
  match v with
  | PyNum q => Some q
  | PyStr s => DecimalParse.parse s
  | _ => None
  end.

(** ** data_models.py *)

Inductive TradeType := BUY | SELL.
Inductive OrderType := LIMIT | LIMIT_MAKER | MARKET.
Inductive PositionAction := OPEN | CLOSE.

Inductive GridLevelStates :=
| NOT_ACTIVE
| OPEN_ORDER_PLACED
| OPEN_ORDER_FILLED
| CLOSE_ORDER_PLACED
| COMPLETE.

Definition GridLevelStates_eqb (a b : GridLevelStates) : bool :=
  match a, b with
  | NOT_ACTIVE, NOT_ACTIVE
  | OPEN_ORDER_PLACED, OPEN_ORDER_PLACED
  | OPEN_ORDER_FILLED, OPEN_ORDER_FILLED
  | CLOSE_ORDER_PLACED, CLOSE_ORDER_PLACED
  | COMPLETE, COMPLETE => true
  | _, _ => false
  end.

Record TradingRule := {
  min_price_increment : Q;
  min_base_amount_increment : Q;
  min_notional_size : Q;
  min_order_size : Q
}.


Module OrderCandidate.

Record t := {
  order_type : OrderType;
  order_side : TradeType;
  amount : Q;
  (** [None] is [Decimal("NaN")], the default price (a market order) *)
  price : option Q;
  position_action : PositionAction
}.

End OrderCandidate.

Module GridExecutorConfig.

(** The fields the executor reads ([id], [timestamp] and [trading_pair]
    only appear in log lines). *)
Record t := {
  side : TradeType;
  start_price : Q;
  end_price : Q;
  total_amount_quote : Q;
  max_open_orders : Z;
  min_spread_between_orders : Q;
  min_order_amount_quote : Q;
  order_type : OrderType;
  order_frequency : Z;
  activation_bounds : option Q;
  safe_extra_spread : Q;
  take_profit_pct : Q;
  leverage : Z
}.

End GridExecutorConfig.

Module TrackedOrder.

Record t := {
  order_id : option string;
  client_order_id : PyVal;
  order_type : option OrderType;
  price : Q;
  amount : Q;
  is_done : bool;
  is_filled : bool;
  executed_amount_base : Q;
  executed_amount_quote : Q;
  cum_fees_quote : Q;
  raw_info : PyDictT
}.

Definition set_flags (filled done : bool) (o : t) : t :=
  {| order_id := order_id o; client_order_id := client_order_id o;
     order_type := order_type o; price := price o; amount := amount o;
     is_done := done; is_filled := filled;
     executed_amount_base := executed_amount_base o;
     executed_amount_quote := executed_amount_quote o;
     cum_fees_quote := cum_fees_quote o; raw_info := raw_info o |}.

Definition set_client_order_id (c : PyVal) (o : t) : t :=
  {| order_id := order_id o; client_order_id := c;
     order_type := order_type o; price := price o; amount := amount o;
     is_done := is_done o; is_filled := is_filled o;
     executed_amount_base := executed_amount_base o;
     executed_amount_quote := executed_amount_quote o;
     cum_fees_quote := cum_fees_quote o; raw_info := raw_info o |}.

Definition set_executed_amount_base (q : Q) (o : t) : t :=
  {| order_id := order_id o; client_order_id := client_order_id o;
     order_type := order_type o; price := price o; amount := amount o;
     is_done := is_done o; is_filled := is_filled o;
     executed_amount_base := q;
     executed_amount_quote := executed_amount_quote o;
     cum_fees_quote := cum_fees_quote o; raw_info := raw_info o |}.

Definition set_executed_amount_quote (q : Q) (o : t) : t :=
  {| order_id := order_id o; client_order_id := client_order_id o;
     order_type := order_type o; price := price o; amount := amount o;
     is_done := is_done o; is_filled := is_filled o;
     executed_amount_base := executed_amount_base o;
     executed_amount_quote := q;
     cum_fees_quote := cum_fees_quote o; raw_info := raw_info o |}.

Definition set_cum_fees_quote (q : Q) (o : t) : t :=
  {| order_id := order_id o; client_order_id := client_order_id o;
     order_type := order_type o; price := price o; amount := amount o;
     is_done := is_done o; is_filled := is_filled o;
     executed_amount_base := executed_amount_base o;
     executed_amount_quote := executed_amount_quote o;
     cum_fees_quote := q; raw_info := raw_info o |}.

Definition set_raw_info (d : PyDictT) (o : t) : t :=
  {| order_id := order_id o; client_order_id := client_order_id o;
     order_type := order_type o; price := price o; amount := amount o;
     is_done := is_done o; is_filled := is_filled o;
     executed_amount_base := executed_amount_base o;
     executed_amount_quote := executed_amount_quote o;
     cum_fees_quote := cum_fees_quote o; raw_info := d |}.

(** The constructor call [TrackedOrder(order_id=.., order_type=..,
    price=.., amount=.., raw_info=..)]: the other fields take the class
    defaults. *)
Definition make (oid : option string) (ty : OrderType) (p a : Q)
    (raw : PyDictT) : t :=
  {| order_id := oid; client_order_id := PyNone; order_type := Some ty;
     price := p; amount := a; is_done := false; is_filled := false;
     executed_amount_base := 0; executed_amount_quote := 0;
     cum_fees_quote := 0; raw_info := raw |}.

(** The first block of [update_from_exchange_data]: choice of the payload
    shape and extraction of [status], [filled_qty], [filled_quote] and
    [client_order_id].  [None]: [.upper()] raised, before any assignment. *)
Definition read_fields (order_data : PyDictT)
    : option (string * PyVal * PyVal * PyVal) :=
  if Py.contains "X" order_data then
    match Py.upper_method (Py.get "X" (PyStr "UNKNOWN") order_data) with
    | None => None
    | Some status =>
        Some (status,
              Py.get "z" (PyStr "0") order_data,
              Py.get "Z" (PyStr "0") order_data,
              Py.get "c" (PyStr "") order_data)
    end
  else
    match Py.upper_method (Py.get "status" (PyStr "unknown") order_data) with
    | None => None
    | Some status =>
        Some (status,
              Py.get "filled" (PyStr "0") order_data,
              Py.get "cost" (PyStr "0") order_data,
              Py.get "clientOrderId" (PyStr "") order_data)
    end.

(** The status the update reads from a payload: [None] when [.upper()]
    raises. *)
Definition status_of (order_data : PyDictT) : option string :=
  option_map (fun r => fst (fst (fst r))) (read_fields order_data).

(** The two literal lists of the status tests. *)
Definition FILLED_STATUSES : list string := ["CLOSED"; "FILLED"].
Definition DONE_STATUSES : list string :=
  ["CLOSED"; "FILLED"; "CANCELED"; "EXPIRED"].

(** ['cost' in fee_info] followed by [fee_info['cost']]: [None] when one of
    the two raises, [Some None] when the key is absent. *)
Definition fee_cost (fee_info : PyVal) : option (option PyVal) :=
  match fee_info with
  | PyDict d => Some (Py.lookup "cost" d)
  | PyStr s =>
      match index 0 "cost" s with
      | Some _ => None
      | None => Some None
      end
  | PyList l =>
      if existsb (fun v => match v with
                           | PyStr s => String.eqb s "cost"
                           | _ => false
                           end) l
      then None else Some None
  | _ => None
  end.

Definition update_fee (self : t) (order_data : PyDictT) : option t :=
  match Py.lookup "fee" order_data with
  | None => Some self
  | Some fee_info =>
      if Py.truthy fee_info then
        match fee_cost fee_info with
        | None => None
        | Some None => Some self
        | Some (Some c) =>
            match Decimal_str c with
            | None => None
            | Some q => Some (set_cum_fees_quote q self)
            end
        end
      else Some self
  end.

(** [self.update_from_exchange_data(order_data)]: the returned flag and the
    object as the call leaves it (an exception is caught inside and keeps
    the assignments made before it). *)
Definition update_from_exchange_data (self : t) (order_data : PyDictT)
    : bool * t :=
  match read_fields order_data with
  | None => (false, self)
  | Some (status, filled_qty, filled_quote, client_id) =>
      let self := set_flags (Py.str_in status FILLED_STATUSES)
                            (Py.str_in status DONE_STATUSES) self in
      let self :=
        if Py.truthy client_id && negb (Py.truthy (client_order_id self))
        then set_client_order_id client_id self else self in
      match (if Py.truthy filled_qty
             then option_map (fun q => set_executed_amount_base q self)
                             (Decimal_str filled_qty)
             else Some self) with
      | None => (false, self)
      | Some self =>
          match (if Py.truthy filled_quote
                 then option_map (fun q => set_executed_amount_quote q self)
                                 (Decimal_str filled_quote)
                 else Some self) with
          | None => (false, self)
          | Some self =>
              match update_fee self order_data with
              | None => (false, self)
              | Some self => (true, set_raw_info order_data self)
              end
          end
      end
  end.

Definition is_partially_filled (self : t) : bool :=
  Dec.gtb (executed_amount_base self) 0 && negb (is_filled self).

End TrackedOrder.

Module GridLevel.

Record t := {
  id : string;
  price : Q;
  amount_quote : Q;
  side : TradeType;
  order_type : OrderType;
  take_profit_pct : Q;
  active_open_order : option TrackedOrder.t;
  active_close_order : option TrackedOrder.t;
  state : GridLevelStates
}.

Definition with_slots (o c : option TrackedOrder.t) (st : GridLevelStates)
    (l : t) : t :=
  {| id := id l; price := price l; amount_quote := amount_quote l;
     side := side l; order_type := order_type l;
     take_profit_pct := take_profit_pct l;
     active_open_order := o; active_close_order := c; state := st |}.

Definition set_state (st : GridLevelStates) (l : t) : t :=
  with_slots (active_open_order l) (active_close_order l) st l.

Definition set_open (o : option TrackedOrder.t) (l : t) : t :=
  with_slots o (active_close_order l) (state l) l.

Definition set_close (c : option TrackedOrder.t) (l : t) : t :=
  with_slots (active_open_order l) c (state l) l.

(** [GridLevel.update_state] *)
Definition update_state (self : t) : t :=
  match active_open_order self with
  | None => set_state NOT_ACTIVE self
  | Some o =>
      if negb (TrackedOrder.is_done o) then set_state OPEN_ORDER_PLACED self
      else if TrackedOrder.is_filled o then
        match active_close_order self with
        | None => set_state OPEN_ORDER_FILLED self
        | Some c =>
            if negb (TrackedOrder.is_done c) then set_state CLOSE_ORDER_PLACED self
            else if TrackedOrder.is_filled c then set_state COMPLETE self
            else set_state OPEN_ORDER_FILLED self
        end
      else set_state NOT_ACTIVE self
  end.

Definition reset_open_order (self : t) : t :=
  with_slots None (active_close_order self) NOT_ACTIVE self.

Definition reset_close_order (self : t) : t :=
  with_slots (active_open_order self) None OPEN_ORDER_FILLED self.

Definition reset_level (self : t) : t :=
  with_slots None None NOT_ACTIVE self.

End GridLevel.

(** ** config.py *)

Module Config.

Record AccountConfig := {
  api_key : string;
  api_secret : string
}.

(** [GRID_CONFIG] *)
Record GridConfig := {
  start_price : Q;
  end_price : Q;
  total_amount_quote : Q;
  max_open_orders : Z;
  min_spread_between_orders : Q;
  min_order_amount_quote : Q;
  order_frequency : Z;
  activation_bounds : option Q;
  safe_extra_spread : Q;
  take_profit_pct : Q
}.

(** What a call does: return a value or raise [ValueError(msg)]. *)
Inductive outcome (A : Type) :=
| Returns (a : A)
| ValueError (msg : string).
Arguments Returns {A} a.
Arguments ValueError {A} msg.

Definition is_empty (s : string) : bool := String.eqb s "".

(** [validate_config()] over the three module-level dictionaries it reads. *)
Definition validate_config (ACCOUNT_A_CONFIG ACCOUNT_B_CONFIG : AccountConfig)
    (GRID_CONFIG : GridConfig) : outcome bool :=
  if is_empty (api_key ACCOUNT_A_CONFIG) || is_empty (api_secret ACCOUNT_A_CONFIG)
  then ValueError "Account A API credentials not configured"
  else if is_empty (api_key ACCOUNT_B_CONFIG) || is_empty (api_secret ACCOUNT_B_CONFIG)
  then ValueError "Account B API credentials not configured"
  else if Dec.geb (start_price GRID_CONFIG) (end_price GRID_CONFIG)
  then ValueError "Start price must be less than end price"
  else if Dec.leb (total_amount_quote GRID_CONFIG) 0
  then ValueError "Total amount must be positive"
  else if (max_open_orders GRID_CONFIG <=? 0)%Z
  then ValueError "Max open orders must be positive"
  else Returns true.

Definition rejects (a b : AccountConfig) (g : GridConfig) : Prop :=
  exists msg, validate_config a b g = ValueError msg.

End Config.

(** ** Control flow of the stateful code: state passing with exceptions *)

Module Exc.

(** A computation over a state [S]: [None] is a raised exception; the
    state reached when it was raised is kept. *)
Definition M (S A : Type) : Type := S -> option A * S.

Definition ret {S A} (a : A) : M S A := fun s => (Some a, s).

Definition bind {S A B} (m : M S A) (f : A -> M S B) : M S B :=
  fun s => match m s with
           | (Some a, s') => f a s'
           | (None, s') => (None, s')
           end.

Definition raise {S A} : M S A := fun s => (None, s).

(** [try: m  except Exception: handler] *)
Definition try_except {S A} (m : M S A) (handler : M S A) : M S A :=
  fun s => match m s with
           | (Some a, s') => (Some a, s')
           | (None, s') => handler s'
           end.

Definition get {S} : M S S := fun s => (Some s, s).
Definition gets {S A} (f : S -> A) : M S A := fun s => (Some (f s), s).
Definition modify {S} (f : S -> S) : M S unit := fun s => (Some tt, f s).

(** Lifts an optional value: [None] raises. *)
Definition of_option {S A} (o : option A) : M S A :=
  match o with Some a => ret a | None => raise end.

(** [for x in l: body(x)] *)
Fixpoint for_each {S A} (l : list A) (body : A -> M S unit) : M S unit :=
  match l with
  | [] => ret tt
  | x :: l' => bind (body x) (fun _ => for_each l' body)
  end.

(** A loop that collects: [for x in l: r = body(x); if r: out.append(..)] *)
Fixpoint filter_map_m {S A B} (l : list A) (body : A -> M S (option B))
    : M S (list B) :=
  match l with
  | [] => ret []
  | x :: l' =>
      bind (body x) (fun r =>
      bind (filter_map_m l' body) (fun rs =>
      ret (match r with Some b => b :: rs | None => rs end)))
  end.

End Exc.

Declare Scope exc_scope.
Delimit Scope exc_scope with exc.
Notation "x <- m ;; k" := (Exc.bind m (fun x => k))
  (at level 100, m at next level, right associativity) : exc_scope.
Notation "m ;;; k" := (Exc.bind m (fun _ => k))
  (at level 100, right associativity) : exc_scope.

(** ** The venue behind a connector *)

(** The arguments of [exchange.create_order]. *)
Record OrderRequest := {
  req_type : OrderType;
  req_side : TradeType;
  req_amount : Q;
  (** absent for a market order *)
  req_price : option Q;
  req_client_order_id : string;
  req_reduce_only : bool;
  (** [true]: ['LONG'], [false]: ['SHORT'] *)
  req_position_side_long : bool
}.

(** Everything the code obtains from outside the process, as operations on
    a world [W]: the exchange session, the price cache fed by the ticker
    stream, the wall clock and the source of client order ids. *)
Record Venue (W : Type) := {
  (** [time.time()] *)
  time : W -> Q;
  (** [connector.get_mid_price()]; [None]: it raises [ValueError].  *)
  get_mid_price : W -> option Q * W;
  (** [connector.latest_price] as a [Decimal]; [None] when the cache holds
      a [float], which a [Decimal] cannot be multiplied with. *)
  latest_price : W -> option Q;
  (** [exchange.fetch_order(order_id, pair)]; [None]: it raises. *)
  fetch_order : option string -> W -> option PyDictT * W;
  (** [exchange.create_order(..)]; [None]: it raises. *)
  create_order : OrderRequest -> W -> option PyDictT * W;
  (** [exchange.cancel_order(order_id, pair)]; [false]: it raises. *)
  exchange_cancel_order : option string -> W -> bool * W;
  (** [connector.cancel_all_orders()] *)
  cancel_all_orders : W -> bool * W;
  (** [connector.close_all_positions()] *)
  close_all_positions : W -> bool * W;
  (** [connector.get_positions()]: long and short position *)
  get_positions : W -> (Q * Q) * W;
  (** [uuid.uuid4().hex[:8]] *)
  new_uuid8 : W -> string * W
}.

Arguments time {W}.
Arguments get_mid_price {W}.
Arguments latest_price {W}.
Arguments fetch_order {W}.
Arguments create_order {W}.
Arguments exchange_cancel_order {W}.
Arguments cancel_all_orders {W}.
Arguments close_all_positions {W}.
Arguments get_positions {W}.
Arguments new_uuid8 {W}.

(** ** binance_connector.py *)

Module BinanceConnector.
Section WithVenue.
Context {W : Type} (V : Venue W) (trading_rules : TradingRule).

(** [_quantize_price]: NaN goes through; otherwise
    [(price // increment) * increment]. [None]: the division raises. *)
Definition _quantize_price (price : option Q) : option (option Q) :=
  match price with
  | None => Some None
  | Some p =>
      match Dec.floordiv p (min_price_increment trading_rules) with
      | None => None
      | Some k => Some (Some (k * min_price_increment trading_rules))
      end
  end.

(** [_quantize_amount] *)
Definition _quantize_amount (amount : Q) : option Q :=
  match Dec.floordiv amount (min_base_amount_increment trading_rules) with
  | None => None
  | Some k => Some (k * min_base_amount_increment trading_rules)
  end.

(** The amount [place_order] goes on with after the minimum-size test. *)
Definition clamp_amount (amount : Q) : Q :=
  if Dec.ltb amount (min_order_size trading_rules)
  then min_order_size trading_rules else amount.

(** The notional value [place_order] tests: the amount times the mid price
    for a market order, times the order's price for a limit order, times
    the cached price when that price is NaN.  [None]: an exception. *)
Definition order_notional (c : OrderCandidate.t) (price : option Q)
    (amount : Q) (w : W) : option Q * W :=
  match OrderCandidate.order_type c with
  | MARKET =>
      let '(current_price, w) := get_mid_price V w in
      (option_map (Qmult amount) current_price, w)
  | _ =>
      (match price with
       | Some p => Some (amount * p)
       | None => option_map (Qmult amount) (latest_price V w)
       end, w)
  end.

(** The arguments of [create_order] for a candidate. *)
Definition request_for (c : OrderCandidate.t) (price : option Q) (amount : Q)
    (uuid : string) : OrderRequest :=
  {| req_type := match OrderCandidate.order_type c with
                 | MARKET => MARKET
                 | _ => LIMIT
                 end;
     req_side := OrderCandidate.order_side c;
     req_amount := amount;
     req_price := match OrderCandidate.order_type c with
                  | MARKET => None
                  | _ => price
                  end;
     req_client_order_id := "DualGridBot_" ++ uuid;
     req_reduce_only :=
       match OrderCandidate.position_action c with
       | CLOSE => true | OPEN => false
       end;
     req_position_side_long :=
       match OrderCandidate.order_side c,
             OrderCandidate.position_action c with
       | BUY, OPEN => true
       | BUY, CLOSE => false
       | SELL, OPEN => false
       | SELL, CLOSE => true
       end |}.

(** [place_order] up to the call of [exchange.create_order]: the
    request it is about to send, or [None] when it returns [None]
    before that (the notional test, or an exception caught by its
    [try]). *)
Definition prepare_order (c : OrderCandidate.t) (w : W)
    : option OrderRequest * W :=
  match _quantize_price (OrderCandidate.price c),
        _quantize_amount (OrderCandidate.amount c) with
  | Some price, Some amount =>
      let amount := clamp_amount amount in
      let '(notional, w) := order_notional c price amount w in
      match notional with
      | None => (None, w)
      | Some notional =>
          if Dec.ltb notional (min_notional_size trading_rules)
          then (None, w)
          else
            let '(uuid, w) := new_uuid8 V w in
            (Some (request_for c price amount uuid), w)
      end
  | _, _ => (None, w)
  end.

(** [place_order]: the order dictionary of the exchange, completed with
    the client order id, or [None]. *)
Definition place_order (c : OrderCandidate.t) (w : W)
    : option PyDictT * W :=
  match prepare_order c w with
  | (None, w) => (None, w)
  | (Some req, w) =>
      match create_order V req w with
      | (None, w) => (None, w)
      | (Some order, w) =>
          let order :=
            if Py.contains "clientOrderId" order then order
            else (order ++ [("clientOrderId", PyStr (req_client_order_id req))])%list in
          (* the log line reads order['id'] *)
          if Py.contains "id" order then (Some order, w) else (None, w)
      end
  end.

(** [get_order_status] *)
Definition get_order_status (order_id : option string) (w : W)
    : option PyDictT * W :=
  fetch_order V order_id w.

(** [results[order_id] = order] on a dictionary kept in insertion order *)
Fixpoint dict_set {A} (eqb : A -> A -> bool) {B} (k : A) (v : B)
    (d : list (A * B)) : list (A * B) :=
  match d with
  | [] => [(k, v)]
  | (k', v') :: d' =>
      if eqb k' k then (k', v) :: d' else (k', v') :: dict_set eqb k v d'
  end.

Fixpoint dict_get {A} (eqb : A -> A -> bool) {B} (k : A)
    (d : list (A * B)) : option B :=
  match d with
  | [] => None
  | (k', v') :: d' => if eqb k' k then Some v' else dict_get eqb k d'
  end.

Definition id_eqb (a b : option string) : bool :=
  match a, b with
  | Some x, Some y => String.eqb x y
  | None, None => true
  | _, _ => false
  end.

(** [get_multiple_order_status] *)
Fixpoint get_multiple_order_status_loop (order_ids : list (option string))
    (results : list (option string * option PyDictT)) (w : W)
    : list (option string * option PyDictT) * W :=
  match order_ids with
  | [] => (results, w)
  | order_id :: rest =>
      let '(order, w) := fetch_order V order_id w in
      get_multiple_order_status_loop rest (dict_set id_eqb order_id order results) w
  end.

Definition get_multiple_order_status (order_ids : list (option string)) (w : W)
    : list (option string * option PyDictT) * W :=
  get_multiple_order_status_loop order_ids [] w.

(** [cancel_order] *)
Definition cancel_order (order_id : option string) (w : W) : bool * W :=
  exchange_cancel_order V order_id w.

End WithVenue.
End BinanceConnector.

(** ** grid_executor.py *)

Inductive RunnableStatus := NOT_STARTED | RUNNING | SHUTTING_DOWN | TERMINATED.

(** Decimal numeral of a natural number (the [i] of [f"L{i}"]). *)
Module NatString.

Fixpoint go (fuel n : nat) (acc : string) : string :=
  match fuel with
  | O => acc
  | S fuel' =>
      let acc' := String (ascii_of_nat (48 + n mod 10)) acc in
      match (n / 10)%nat with
      | O => acc'
      | q => go fuel' q acc'
      end
  end.

Definition of_nat (n : nat) : string := go (S n) n "".

End NatString.

(** The ladder builder. *)
Module Ladder.

(** [_linear_distribution(n, start, end)] *)
Definition _linear_distribution (n : Z) (start end_ : Q) : list Q :=
  if (n =? 1)%Z then [(start + end_) / 2]
  else
    let step := (end_ - start) / inject_Z (n - 1) in
    map (fun i => start + inject_Z (Z.of_nat i) * step) (seq 0 (Z.to_nat n)).

(** [math.ceil(float(x) / float(y))], [math.floor(float(x) / float(y))] and
    [int(float(x) / float(y))]: a zero divisor raises. *)
Definition ceil_div (x y : Q) : option Z :=
  if Dec.is_zero y then None else Some (Qceiling (x / y)).
Definition floor_div (x y : Q) : option Z :=
  if Dec.is_zero y then None else Some (Qfloor (x / y)).
Definition int_div (x y : Q) : option Z :=
  if Dec.is_zero y then None else Some (Dec.trunc (x / y)).

(** The first part of [_generate_grid_levels]: the smallest quantized base
    amount worth the minimum notional with its 5% margin, and its value in
    quote ([min_base_amount], [min_quote_amount]).  [None]: an exception. *)
Definition min_amounts (config : GridExecutorConfig.t)
    (trading_rules : TradingRule) (price : Q) : option (Q * Q) :=
  if Dec.leb price 0 then None else
  let min_notional := Dec.max (GridExecutorConfig.min_order_amount_quote config)
                              (min_notional_size trading_rules) in
  let min_base_increment := min_base_amount_increment trading_rules in
  let min_notional_with_margin := min_notional * 1.05 in
  q0 ← Dec.div min_notional_with_margin price;
  c0 ← ceil_div min_notional (min_base_increment * price);
  let min_base_amount := Dec.max q0 (min_base_increment * inject_Z c0) in
  c1 ← ceil_div min_base_amount min_base_increment;
  let min_base_amount := inject_Z c1 * min_base_increment in
  Some (min_base_amount, min_base_amount * price).

(** The sizing part of [_generate_grid_levels]: number of levels and quote
    amount per level for a mid price [price].  [None]: an exception. *)
Definition levels_and_amount (config : GridExecutorConfig.t)
    (trading_rules : TradingRule) (price : Q) : option (Z * Q) :=
  '(min_base_amount, min_quote_amount) ← min_amounts config trading_rules price;
  let min_base_increment := min_base_amount_increment trading_rules in
  grid_range ← Dec.div (GridExecutorConfig.end_price config
                        - GridExecutorConfig.start_price config)
                       (GridExecutorConfig.start_price config);
  q1 ← Dec.div (min_price_increment trading_rules) price;
  let min_step_size := Dec.max (GridExecutorConfig.min_spread_between_orders config) q1 in
  max_possible_levels ← int_div (GridExecutorConfig.total_amount_quote config)
                                min_quote_amount;
  '(n_levels, quote_amount_per_level) ←
    (if (max_possible_levels =? 0)%Z then Some (1%Z, min_quote_amount)
     else
       max_levels_by_step ← int_div grid_range min_step_size;
       let n_levels := Z.min max_possible_levels max_levels_by_step in
       q2 ← Dec.div (GridExecutorConfig.total_amount_quote config)
                    (price * inject_Z n_levels);
       f0 ← floor_div q2 min_base_increment;
       let base_amount_per_level :=
         Dec.max min_base_amount (inject_Z f0 * min_base_increment) in
       let quote_amount_per_level := base_amount_per_level * price in
       k ← int_div (GridExecutorConfig.total_amount_quote config)
                   quote_amount_per_level;
       Some (Z.min n_levels k, quote_amount_per_level));
  Some (Z.max 1 n_levels, quote_amount_per_level).

(** The prices of the levels and [self.step]. *)
Definition level_prices (config : GridExecutorConfig.t) (n_levels : Z)
    : list Q :=
  if (1 <? n_levels)%Z then
    _linear_distribution n_levels (GridExecutorConfig.start_price config)
                         (GridExecutorConfig.end_price config)
  else
    [(GridExecutorConfig.start_price config
      + GridExecutorConfig.end_price config) / 2].

Definition make_level (config : GridExecutorConfig.t) (amount : Q)
    (i : nat) (level_price : Q) : GridLevel.t :=
  {| GridLevel.id := "L" ++ NatString.of_nat i;
     GridLevel.price := level_price;
     GridLevel.amount_quote := amount;
     GridLevel.side := GridExecutorConfig.side config;
     GridLevel.order_type := GridExecutorConfig.order_type config;
     GridLevel.take_profit_pct := GridExecutorConfig.take_profit_pct config;
     GridLevel.active_open_order := None;
     GridLevel.active_close_order := None;
     GridLevel.state := NOT_ACTIVE |}.

(** [_generate_grid_levels], for the mid price the connector returned. *)
Definition _generate_grid_levels (config : GridExecutorConfig.t)
    (trading_rules : TradingRule) (price : Q) : option (list GridLevel.t) :=
  '(n_levels, quote_amount_per_level) ← levels_and_amount config trading_rules price;
  Some (imap (make_level config quote_amount_per_level)
             (level_prices config n_levels)).

End Ladder.

Module GridExecutor.

Record t := {
  config : GridExecutorConfig.t;
  trading_rules : TradingRule;
  max_retries : Z;
  _status : RunnableStatus;
  _current_retries : Z;
  (** the store of the level objects *)
  grid_levels : list GridLevel.t;
  (** the buckets refer to the levels of the store by position *)
  levels_by_state : GridLevelStates -> list nat;
  _filled_orders : list TrackedOrder.t;
  position_size_base : Q;
  max_open_creation_timestamp : Q
}.

Definition set_grid_levels (f : list GridLevel.t -> list GridLevel.t) (ex : t) : t :=
  {| config := config ex; trading_rules := trading_rules ex;
     max_retries := max_retries ex; _status := _status ex;
     _current_retries := _current_retries ex;
     grid_levels := f (grid_levels ex);
     levels_by_state := levels_by_state ex;
     _filled_orders := _filled_orders ex;
     position_size_base := position_size_base ex;
     max_open_creation_timestamp := max_open_creation_timestamp ex |}.

Definition set_levels_by_state (b : GridLevelStates -> list nat) (ex : t) : t :=
  {| config := config ex; trading_rules := trading_rules ex;
     max_retries := max_retries ex; _status := _status ex;
     _current_retries := _current_retries ex;
     grid_levels := grid_levels ex;
     levels_by_state := b;
     _filled_orders := _filled_orders ex;
     position_size_base := position_size_base ex;
     max_open_creation_timestamp := max_open_creation_timestamp ex |}.

Definition set_filled_orders (f : list TrackedOrder.t) (ex : t) : t :=
  {| config := config ex; trading_rules := trading_rules ex;
     max_retries := max_retries ex; _status := _status ex;
     _current_retries := _current_retries ex;
     grid_levels := grid_levels ex;
     levels_by_state := levels_by_state ex;
     _filled_orders := f;
     position_size_base := position_size_base ex;
     max_open_creation_timestamp := max_open_creation_timestamp ex |}.

Definition set_position_size_base (p : Q) (ex : t) : t :=
  {| config := config ex; trading_rules := trading_rules ex;
     max_retries := max_retries ex; _status := _status ex;
     _current_retries := _current_retries ex;
     grid_levels := grid_levels ex;
     levels_by_state := levels_by_state ex;
     _filled_orders := _filled_orders ex;
     position_size_base := p;
     max_open_creation_timestamp := max_open_creation_timestamp ex |}.

Definition set_max_open_creation_timestamp (ts : Q) (ex : t) : t :=
  {| config := config ex; trading_rules := trading_rules ex;
     max_retries := max_retries ex; _status := _status ex;
     _current_retries := _current_retries ex;
     grid_levels := grid_levels ex;
     levels_by_state := levels_by_state ex;
     _filled_orders := _filled_orders ex;
     position_size_base := position_size_base ex;
     max_open_creation_timestamp := ts |}.

Definition set_status (s : RunnableStatus) (ex : t) : t :=
  {| config := config ex; trading_rules := trading_rules ex;
     max_retries := max_retries ex; _status := s;
     _current_retries := _current_retries ex;
     grid_levels := grid_levels ex;
     levels_by_state := levels_by_state ex;
     _filled_orders := _filled_orders ex;
     position_size_base := position_size_base ex;
     max_open_creation_timestamp := max_open_creation_timestamp ex |}.

Definition set_current_retries (n : Z) (ex : t) : t :=
  {| config := config ex; trading_rules := trading_rules ex;
     max_retries := max_retries ex; _status := _status ex;
     _current_retries := n;
     grid_levels := grid_levels ex;
     levels_by_state := levels_by_state ex;
     _filled_orders := _filled_orders ex;
     position_size_base := position_size_base ex;
     max_open_creation_timestamp := max_open_creation_timestamp ex |}.

(** [{state: [] for state in GridLevelStates}] and
    [levels_by_state[state].append(level)] *)
Definition empty_buckets : GridLevelStates -> list nat := fun _ => [].

Definition bucket_append (st : GridLevelStates) (i : nat)
    (b : GridLevelStates -> list nat) : GridLevelStates -> list nat :=
  fun s => if GridLevelStates_eqb s st then (b s ++ [i])%list else b s.

(** The two order slots of a level. *)
Inductive slot := OpenSlot | CloseSlot.

Definition get_slot (s : slot) (l : GridLevel.t) : option TrackedOrder.t :=
  match s with
  | OpenSlot => GridLevel.active_open_order l
  | CloseSlot => GridLevel.active_close_order l
  end.

(** Mutation of the order object a slot refers to. *)
Definition map_slot (s : slot) (f : TrackedOrder.t -> TrackedOrder.t)
    (l : GridLevel.t) : GridLevel.t :=
  match s with
  | OpenSlot => GridLevel.set_open (option_map f (GridLevel.active_open_order l)) l
  | CloseSlot => GridLevel.set_close (option_map f (GridLevel.active_close_order l)) l
  end.

(** [order and order.is_done and not order.is_filled] *)
Definition failed (o : option TrackedOrder.t) : bool :=
  match o with
  | Some o => TrackedOrder.is_done o && negb (TrackedOrder.is_filled o)
  | None => false
  end.

(** [len([l for l in self.grid_levels if l.state == OPEN_ORDER_PLACED])] *)
Definition is_open_placed (l : GridLevel.t) : bool :=
  GridLevelStates_eqb (GridLevel.state l) OPEN_ORDER_PLACED.

Definition count_open_placed (levels : list GridLevel.t) : Z :=
  Z.of_nat (length (List.filter is_open_placed levels)).

(** [sorted(levels, key=..)]: stable insertion into a sorted list. *)
Fixpoint insert_sorted {A} (key : A -> Q) (x : A) (l : list A) : list A :=
  match l with
  | [] => [x]
  | y :: l' =>
      if Dec.leb (key x) (key y) then x :: l else y :: insert_sorted key x l'
  end.

Definition sorted_by {A} (key : A -> Q) (l : list A) : list A :=
  foldr (insert_sorted key) [] l.

(** [l[:k]] *)
Definition slice_to {A} (k : Z) (l : list A) : list A :=
  if (0 <=? k)%Z then firstn (Z.to_nat k) l
  else firstn (length l - Z.to_nat (- k)) l.

(** The rate test of [get_open_orders_to_create] at time [now]: the last
    open placement is less than [order_frequency] seconds old. *)
Definition throttled (ex : t) (now : Q) : Prop :=
  now - inject_Z (GridExecutorConfig.order_frequency (config ex))
  < max_open_creation_timestamp ex.

(** A configured [activation_bounds] that counts as true in a condition. *)
Definition active_bounds (ex : t) : option Q :=
  match GridExecutorConfig.activation_bounds (config ex) with
  | Some b => if Dec.is_zero b then None else Some b
  | None => None
  end.

(** [_get_take_profit_price] *)
Definition _get_take_profit_price (ex : t) (level : GridLevel.t) : Q :=
  match GridLevel.active_open_order level with
  | None => 0
  | Some o =>
      match GridExecutorConfig.side (config ex) with
      | BUY => TrackedOrder.price o * (1 + GridLevel.take_profit_pct level)
      | SELL => TrackedOrder.price o * (1 - GridLevel.take_profit_pct level)
      end
  end.

(** The activation filter of [_filter_levels_by_activation_bounds] for a
    mid price [mid_price] and bounds [bounds]. *)
Definition within_activation_bounds (side : TradeType) (mid_price bounds : Q)
    (level : GridLevel.t) : bool :=
  match side with
  | BUY => Dec.geb (GridLevel.price level) (mid_price * (1 - bounds))
  | SELL => Dec.leb (GridLevel.price level) (mid_price * (1 + bounds))
  end.

(** The search loop of [cancel_order]. *)
Fixpoint reset_cancelled (order_id : option string) (levels : list GridLevel.t)
    : list GridLevel.t :=
  match levels with
  | [] => []
  | level :: rest =>
      match GridLevel.active_open_order level with
      | Some o =>
          if BinanceConnector.id_eqb (TrackedOrder.order_id o) order_id
          then GridLevel.reset_open_order level :: rest
          else
            match GridLevel.active_close_order level with
            | Some c =>
                if BinanceConnector.id_eqb (TrackedOrder.order_id c) order_id
                then GridLevel.reset_close_order level :: rest
                else level :: reset_cancelled order_id rest
            | None => level :: reset_cancelled order_id rest
            end
      | None =>
          match GridLevel.active_close_order level with
          | Some c =>
              if BinanceConnector.id_eqb (TrackedOrder.order_id c) order_id
              then GridLevel.reset_close_order level :: rest
              else level :: reset_cancelled order_id rest
          | None => level :: reset_cancelled order_id rest
          end
      end
  end.

(** The tests of the search loop: the level holds the order in its open
    slot, or in its close slot. *)
Definition holds_in (sl : slot) (order_id : option string) (level : GridLevel.t)
    : bool :=
  match get_slot sl level with
  | Some o => BinanceConnector.id_eqb (TrackedOrder.order_id o) order_id
  | None => false
  end.

Definition holds (order_id : option string) (level : GridLevel.t) : bool :=
  holds_in OpenSlot order_id level || holds_in CloseSlot order_id level.

(** What the search loop does to the level it stops at. *)
Definition reset_holder (order_id : option string) (level : GridLevel.t)
    : GridLevel.t :=
  if holds_in OpenSlot order_id level then GridLevel.reset_open_order level
  else GridLevel.reset_close_order level.

(** The ids of the orders in the open slots, level by level. *)
Definition open_order_ids (levels : list GridLevel.t) : list (option string) :=
  omap (fun level => option_map TrackedOrder.order_id
                       (GridLevel.active_open_order level)) levels.

(** The body of the loop of [_handle_failed_orders]. *)
Definition handle_failed (level : GridLevel.t) : GridLevel.t :=
  let level :=
    if failed (GridLevel.active_open_order level)
    then GridLevel.reset_open_order level else level in
  if failed (GridLevel.active_close_order level)
  then GridLevel.reset_close_order level else level.

(** The body of the loop over [completed] in [update_grid_levels]. *)
Definition complete_level (ex : t) (i : nat) : t :=
  match grid_levels ex !! i with
  | Some level =>
      match GridLevel.active_open_order level, GridLevel.active_close_order level with
      | Some o, Some c =>
          if TrackedOrder.is_filled o && TrackedOrder.is_filled c then
            set_grid_levels (alter GridLevel.reset_level i)
              (set_filled_orders (_filled_orders ex ++ [o; c])%list ex)
          else ex
      | _, _ => ex
      end
  | None => ex
  end.

(** The effect of the loop over [completed] on one level. *)
Definition complete1 (level : GridLevel.t) : GridLevel.t :=
  match GridLevel.active_open_order level, GridLevel.active_close_order level with
  | Some o, Some c =>
      if TrackedOrder.is_filled o && TrackedOrder.is_filled c
      then GridLevel.reset_level level else level
  | _, _ => level
  end.

(** What a run of [update_grid_levels] makes of a level once its orders
    are polled and its state derived: a completed level is reset, failed
    orders are cleared. *)
Definition settle (level : GridLevel.t) : GridLevel.t :=
  handle_failed (if GridLevelStates_eqb (GridLevel.state level) COMPLETE
                 then complete1 level else level).


(** The loop of [cancel_open_orders] once [cancel_all_orders] succeeded. *)
Definition reset_unfilled (level : GridLevel.t) : GridLevel.t :=
  let level :=
    match GridLevel.active_open_order level with
    | Some o => if negb (TrackedOrder.is_filled o)
                then GridLevel.reset_open_order level else level
    | None => level
    end in
  match GridLevel.active_close_order level with
  | Some c => if negb (TrackedOrder.is_filled c)
              then GridLevel.reset_close_order level else level
  | None => level
  end.

(** [order_result['id']] as the [order_id] of a new [TrackedOrder]: the
    key must be present and hold a string or [None], or the constructor
    raises. *)
Definition result_order_id (order_result : PyDictT) : option (option string) :=
  match Py.lookup "id" order_result with
  | Some (PyStr s) => Some (Some s)
  | Some PyNone => Some None
  | _ => None
  end.

Section WithVenue.
Context {W : Type} (V : Venue W).

(** The state a method of the executor runs on: the executor object
    and the world behind its connector. *)
Definition St : Type := t * W.

Definition venue {A} (f : W -> A * W) : Exc.M St A :=
  fun s => let '(a, w) := f (snd s) in (Some a, (fst s, w)).

Definition ex_gets {A} (f : t -> A) : Exc.M St A :=
  fun s => (Some (f (fst s)), s).

Definition ex_modify (f : t -> t) : Exc.M St unit :=
  fun s => (Some tt, (f (fst s), snd s)).

Definition modify_level (i : nat) (f : GridLevel.t -> GridLevel.t)
    : Exc.M St unit :=
  ex_modify (set_grid_levels (alter f i)).

Local Open Scope exc_scope.

(** [self.connector.get_mid_price()], which may raise *)
Definition mid_price : Exc.M St Q :=
  p <- venue (get_mid_price V) ;; Exc.of_option p.

(** *** Refresh *)

(** The collecting loop of [update_all_order_status]: the ids to query
    and, for each id, the order object [order_map] holds for it. *)
Definition collect_slot (i : nat) (s : slot) (level : GridLevel.t)
    (acc : list (option string) * list (option string * (nat * slot)))
    : list (option string) * list (option string * (nat * slot)) :=
  match get_slot s level with
  | Some o =>
      if negb (TrackedOrder.is_done o) then
        ((fst acc ++ [TrackedOrder.order_id o])%list,
         BinanceConnector.dict_set BinanceConnector.id_eqb
           (TrackedOrder.order_id o) (i, s) (snd acc))
      else acc
  | None => acc
  end.

Fixpoint collect_active (i : nat) (levels : list GridLevel.t)
    (acc : list (option string) * list (option string * (nat * slot)))
    : list (option string) * list (option string * (nat * slot)) :=
  match levels with
  | [] => acc
  | level :: rest =>
      collect_active (S i) rest
        (collect_slot i CloseSlot level (collect_slot i OpenSlot level acc))
  end.

(** [tracked_order.update_from_exchange_data(order_data)] on the order
    object a level slot refers to. *)
Definition update_order_at (ref : nat * slot) (order_data : PyDictT)
    (levels : list GridLevel.t) : list GridLevel.t :=
  alter (map_slot (snd ref)
           (fun o => snd (TrackedOrder.update_from_exchange_data o order_data)))
        (fst ref) levels.

Definition apply_status (order_map : list (option string * (nat * slot)))
    (levels : list GridLevel.t) (item : option string * option PyDictT)
    : list GridLevel.t :=
  match snd item with
  | Some order_data =>
      if Py.truthy (PyDict order_data) then
        match BinanceConnector.dict_get BinanceConnector.id_eqb (fst item) order_map with
        | Some ref => update_order_at ref order_data levels
        | None => levels
        end
      else levels
  | None => levels
  end.

Definition update_all_order_status : Exc.M St unit :=
  levels <- ex_gets grid_levels ;;
  let '(order_ids, order_map) := collect_active 0 levels ([], []) in
  match order_ids with
  | [] => Exc.ret tt
  | _ =>
      order_statuses <- venue (BinanceConnector.get_multiple_order_status V order_ids) ;;
      ex_modify (set_grid_levels (fun levels =>
        fold_left (apply_status order_map) order_statuses levels))
  end.

(** [_update_order_status] on the order of a slot, when there is one. *)
Definition poll_slot (s : slot) (level : GridLevel.t) (w : W)
    : GridLevel.t * W :=
  match get_slot s level with
  | Some o =>
      match BinanceConnector.get_order_status V (TrackedOrder.order_id o) w with
      | (Some order_status, w') =>
          if Py.truthy (PyDict order_status) then
            (map_slot s (fun o => snd (TrackedOrder.update_from_exchange_data o order_status))
                      level, w')
          else (level, w')
      | (None, w') => (level, w')
      end
  | None => (level, w)
  end.

(** The first loop of [update_grid_levels]: both orders of each level
    are polled, the state of the level is derived again and the level
    is filed under that state. *)
Fixpoint refresh_levels (i : nat) (levels : list GridLevel.t)
    (buckets : GridLevelStates -> list nat) (w : W)
    : list GridLevel.t * (GridLevelStates -> list nat) * W :=
  match levels with
  | [] => ([], buckets, w)
  | level :: rest =>
      let '(level, w) := poll_slot OpenSlot level w in
      let '(level, w) := poll_slot CloseSlot level w in
      let level := GridLevel.update_state level in
      let buckets := bucket_append (GridLevel.state level) i buckets in
      let '(rest, buckets, w) := refresh_levels (S i) rest buckets w in
      (level :: rest, buckets, w)
  end.

Definition _handle_failed_orders : Exc.M St unit :=
  ex_modify (set_grid_levels (map handle_failed)).

Definition update_grid_levels : Exc.M St unit :=
  fun s =>
    let '(ex, w) := s in
    let '(levels, buckets, w) := refresh_levels 0 (grid_levels ex) empty_buckets w in
    let ex := set_levels_by_state buckets (set_grid_levels (fun _ => levels) ex) in
    let ex := fold_left complete_level (levels_by_state ex COMPLETE) ex in
    _handle_failed_orders (ex, w).

Definition update_basic_metrics : Exc.M St unit :=
  p <- venue (get_positions V) ;;
  side <- ex_gets (fun ex => GridExecutorConfig.side (config ex)) ;;
  ex_modify (set_position_size_base
               (match side with BUY => fst p | SELL => snd p end)).

(** *** Decide *)

Definition level_price_at (levels : list GridLevel.t) (i : nat) : Q :=
  match levels !! i with
  | Some level => GridLevel.price level
  | None => 0
  end.

Definition _filter_levels_by_activation_bounds : Exc.M St (list nat) :=
  ex <- Exc.get ;;
  let ex := fst ex in
  let not_active_levels := levels_by_state ex NOT_ACTIVE in
  match active_bounds ex with
  | Some bounds =>
      mid <- mid_price ;;
      Exc.ret (List.filter
                 (fun i => match grid_levels ex !! i with
                           | Some level =>
                               within_activation_bounds
                                 (GridExecutorConfig.side (config ex)) mid bounds level
                           | None => false
                           end)
                 not_active_levels)
  | None => Exc.ret not_active_levels
  end.

Definition _sort_levels_by_proximity (levels : list nat) : Exc.M St (list nat) :=
  current_price <- mid_price ;;
  all <- ex_gets grid_levels ;;
  Exc.ret (sorted_by (fun i => Qabs (level_price_at all i - current_price)) levels).

Definition get_open_orders_to_create : Exc.M St (list nat) :=
  ex <- Exc.get ;;
  let '(ex, w) := ex in
  let n_open_orders := Z.of_nat (length (levels_by_state ex OPEN_ORDER_PLACED)) in
  let current_time := time V w in
  if Dec.gtb (max_open_creation_timestamp ex)
             (current_time - inject_Z (GridExecutorConfig.order_frequency (config ex)))
     || (GridExecutorConfig.max_open_orders (config ex) <=? n_open_orders)%Z
  then Exc.ret []
  else
    levels_allowed <- _filter_levels_by_activation_bounds ;;
    sorted_levels_by_proximity <- _sort_levels_by_proximity levels_allowed ;;
    let max_new_orders :=
      (GridExecutorConfig.max_open_orders (config ex) - n_open_orders)%Z in
    Exc.ret (slice_to max_new_orders sorted_levels_by_proximity).

(** [abs(p - mid_price) / mid_price] *)
Definition distance_to_mid (p mid : Q) : Exc.M St Q :=
  Exc.of_option (Dec.div (Qabs (p - mid)) mid).

Definition get_close_orders_to_create : Exc.M St (list nat) :=
  ex <- ex_gets (fun ex => ex) ;;
  Exc.filter_map_m (levels_by_state ex OPEN_ORDER_FILLED) (fun i =>
    match active_bounds ex with
    | Some bounds =>
        levels <- ex_gets grid_levels ;;
        match levels !! i with
        | Some level =>
            let take_profit_price := _get_take_profit_price ex level in
            mid <- mid_price ;;
            tp_to_mid <- distance_to_mid take_profit_price mid ;;
            Exc.ret (if Dec.ltb tp_to_mid bounds then Some i else None)
        | None => Exc.ret None
        end
    | None => Exc.ret (Some i)
    end).

(** The common body of [get_open_order_ids_to_cancel] and
    [get_close_order_ids_to_cancel], which differ in the bucket and the
    slot they read. *)
Definition order_ids_to_cancel (st : GridLevelStates) (s : slot)
    : Exc.M St (list (option string)) :=
  ex <- ex_gets (fun ex => ex) ;;
  match active_bounds ex with
  | Some bounds =>
      let orders_placed :=
        map (fun i => match grid_levels ex !! i with
                      | Some level => get_slot s level
                      | None => None
                      end) (levels_by_state ex st) in
      mid <- mid_price ;;
      Exc.filter_map_m orders_placed (fun order =>
        match order with
        | Some o =>
            if negb (Dec.is_zero (TrackedOrder.price o)) then
              distance <- distance_to_mid (TrackedOrder.price o) mid ;;
              Exc.ret (if Dec.gtb distance bounds
                       then Some (TrackedOrder.order_id o) else None)
            else Exc.ret None
        | None => Exc.ret None
        end)
  | None => Exc.ret []
  end.

Definition get_open_order_ids_to_cancel : Exc.M St (list (option string)) :=
  order_ids_to_cancel OPEN_ORDER_PLACED OpenSlot.

Definition get_close_order_ids_to_cancel : Exc.M St (list (option string)) :=
  order_ids_to_cancel CLOSE_ORDER_PLACED CloseSlot.

(** *** Act *)

Definition cancel_order (order_id : option string) : Exc.M St unit :=
  success <- venue (BinanceConnector.cancel_order V order_id) ;;
  if success : bool
  then ex_modify (set_grid_levels (reset_cancelled order_id))
  else Exc.ret tt.

(** [connector.place_order] with the rules of the executor's connector *)
Definition place (c : OrderCandidate.t) : Exc.M St (option PyDictT) :=
  rules <- ex_gets trading_rules ;;
  venue (BinanceConnector.place_order V rules c).

Definition adjust_and_place_open_order (i : nat) : Exc.M St unit :=
  Exc.try_except
    (levels <- ex_gets grid_levels ;;
     match levels !! i with
     | None => Exc.ret tt
     | Some level =>
         base_amount <- Exc.of_option
           (Dec.div (GridLevel.amount_quote level) (GridLevel.price level)) ;;
         side <- ex_gets (fun ex => GridExecutorConfig.side (config ex)) ;;
         order_result <- place
           {| OrderCandidate.order_type := GridLevel.order_type level;
              OrderCandidate.order_side := side;
              OrderCandidate.amount := base_amount;
              OrderCandidate.price := Some (GridLevel.price level);
              OrderCandidate.position_action := OPEN |} ;;
         match order_result with
         | Some order_result =>
             if Py.truthy (PyDict order_result) then
               oid <- Exc.of_option (result_order_id order_result) ;;
               let tracked_order :=
                 TrackedOrder.make oid (GridLevel.order_type level)
                   (GridLevel.price level) base_amount order_result in
               modify_level i (fun level =>
                 GridLevel.set_state OPEN_ORDER_PLACED
                   (GridLevel.set_open (Some tracked_order) level)) ;;;
               now <- venue (fun w => (time V w, w)) ;;
               ex_modify (set_max_open_creation_timestamp now)
             else Exc.ret tt
         | None => Exc.ret tt
         end
     end)
    (Exc.ret tt).

(** Take-profit price before quantization. *)
Definition close_price_for (side : TradeType) (open_price take_profit_pct
    safe_extra_spread current_price : Q) : Q :=
  match side with
  | BUY =>
      let base_close_price := open_price * (1 + take_profit_pct) in
      if Dec.leb base_close_price current_price
      then current_price * (1 + safe_extra_spread)
      else base_close_price
  | SELL =>
      let base_close_price := open_price * (1 - take_profit_pct) in
      if Dec.geb base_close_price current_price
      then current_price * (1 - safe_extra_spread)
      else base_close_price
  end.

Definition adjust_and_place_close_order (i : nat) : Exc.M St unit :=
  Exc.try_except
    (levels <- ex_gets grid_levels ;;
     match levels !! i with
     | None => Exc.ret tt
     | Some level =>
         match GridLevel.active_open_order level with
         | None => Exc.ret tt
         | Some o =>
             if negb (TrackedOrder.is_filled o) then Exc.ret tt
             else
               match GridLevel.active_close_order level with
               | Some c =>
                   cancel_order (TrackedOrder.order_id c) ;;;
                   modify_level i (GridLevel.set_close None)
               | None => Exc.ret tt
               end ;;;
               current_price <- mid_price ;;
               ex <- ex_gets (fun ex => ex) ;;
               level <- Exc.of_option (grid_levels ex !! i) ;;
               o <- Exc.of_option (GridLevel.active_open_order level) ;;
               let side := GridExecutorConfig.side (config ex) in
               let close_side := match side with BUY => SELL | SELL => BUY end in
               let close_price :=
                 close_price_for side (TrackedOrder.price o)
                   (GridLevel.take_profit_pct level)
                   (GridExecutorConfig.safe_extra_spread (config ex))
                   current_price in
               let close_amount := TrackedOrder.executed_amount_base o in
               let close_amount :=
                 if Dec.gtb (TrackedOrder.cum_fees_quote o) 0
                 then close_amount - close_amount * 0.001
                 else close_amount in
               close_price <- Exc.of_option
                 (BinanceConnector._quantize_price (trading_rules ex) (Some close_price)) ;;
               close_amount <- Exc.of_option
                 (BinanceConnector._quantize_amount (trading_rules ex) close_amount) ;;
               if Dec.ltb close_amount (min_order_size (trading_rules ex))
               then Exc.ret tt
               else
                 order_result <- place
                   {| OrderCandidate.order_type := LIMIT;
                      OrderCandidate.order_side := close_side;
                      OrderCandidate.amount := close_amount;
                      OrderCandidate.price := close_price;
                      OrderCandidate.position_action := CLOSE |} ;;
                 match order_result with
                 | Some order_result =>
                     if Py.truthy (PyDict order_result) then
                       oid <- Exc.of_option (result_order_id order_result) ;;
                       let tracked_order :=
                         TrackedOrder.make oid LIMIT
                           (match close_price with Some p => p | None => 0 end)
                           close_amount order_result in
                       modify_level i (fun level =>
                         GridLevel.set_state CLOSE_ORDER_PLACED
                           (GridLevel.set_close (Some tracked_order) level))
                     else Exc.ret tt
                 | None => Exc.ret tt
                 end
         end
     end)
    (Exc.ret tt).

Definition cancel_open_orders : Exc.M St unit :=
  success <- venue (cancel_all_orders V) ;;
  if success : bool
  then ex_modify (set_grid_levels (map reset_unfilled))
  else Exc.ret tt.

Definition close_open_positions : Exc.M St unit :=
  _ <- venue (close_all_positions V) ;; Exc.ret tt.

(** The loop of step 5 of [control_task], with its [break]. *)
Fixpoint place_open_orders (open_orders_to_create : list nat) : Exc.M St unit :=
  match open_orders_to_create with
  | [] => Exc.ret tt
  | i :: rest =>
      ex <- ex_gets (fun ex => ex) ;;
      let current_open_orders := count_open_placed (grid_levels ex) in
      if (GridExecutorConfig.max_open_orders (config ex) <=? current_open_orders)%Z
      then Exc.ret tt
      else adjust_and_place_open_order i ;;; place_open_orders rest
  end.

(** The decisions and actions of a tick of a running executor (steps 4
    to 8 of [control_task]). *)
Definition decide_and_act : Exc.M St unit :=
  open_orders_to_create <- get_open_orders_to_create ;;
  close_orders_to_create <- get_close_orders_to_create ;;
  open_order_ids_to_cancel <- get_open_order_ids_to_cancel ;;
  close_order_ids_to_cancel <- get_close_order_ids_to_cancel ;;
  place_open_orders open_orders_to_create ;;;
  Exc.for_each close_orders_to_create adjust_and_place_close_order ;;;
  Exc.for_each open_order_ids_to_cancel cancel_order ;;;
  Exc.for_each close_order_ids_to_cancel cancel_order.

(** Steps 1 to 3 of [control_task]. *)
Definition refresh : Exc.M St unit :=
  update_all_order_status ;;;
  update_grid_levels ;;;
  update_basic_metrics.

Definition on_error : Exc.M St unit :=
  ex_modify (fun ex =>
    let ex := set_current_retries (_current_retries ex + 1) ex in
    if (max_retries ex <=? _current_retries ex)%Z
    then set_status SHUTTING_DOWN ex else ex).

Definition control_task : Exc.M St unit :=
  Exc.try_except
    (refresh ;;;
     status <- ex_gets _status ;;
     match status with
     | RUNNING => decide_and_act
     | SHUTTING_DOWN =>
         cancel_open_orders ;;;
         close_open_positions ;;;
         ex_modify (set_status TERMINATED)
     | _ => Exc.ret tt
     end)
    on_error.

(** [__init__] followed by [start]: a running executor over a fresh
    ladder.  [None]: the constructor raises. *)
Definition init (config : GridExecutorConfig.t) (trading_rules : TradingRule)
    (max_retries : Z) (w : W) : option t * W :=
  match get_mid_price V w with
  | (Some price, w) =>
      (option_map (fun levels =>
         {| GridExecutor.config := config;
            GridExecutor.trading_rules := trading_rules;
            GridExecutor.max_retries := max_retries;
            _status := RUNNING;
            _current_retries := 0;
            grid_levels := levels;
            levels_by_state := empty_buckets;
            _filled_orders := [];
            position_size_base := 0;
            max_open_creation_timestamp := 0 |})
         (Ladder._generate_grid_levels config trading_rules price), w)
  | (None, w) => (None, w)
  end.

End WithVenue.
End GridExecutor.

(** ** Relations between the executor before and after a step *)

Module Rel.
Import GridExecutor.

(** Whatever the outcome of the computation, the executor it leaves is
    related to the one it started from. *)
Definition preserves {W A} (R : t -> t -> Prop) (m : Exc.M (St (W := W)) A) : Prop :=
  forall s, R (fst s) (fst (snd (m s))).

(** A computation that leaves the executor as it found it. *)
Definition reads {W A} (m : Exc.M (St (W := W)) A) : Prop :=
  preserves (fun ex ex' => ex' = ex) m.


(** No level has got an open order it did not hold before. *)
Definition no_new_open_order (ex ex' : t) : Prop :=
  forall i level' o,
    grid_levels ex' !! i = Some level' ->
    GridLevel.active_open_order level' = Some o ->
    exists level, grid_levels ex !! i = Some level
                  /\ GridLevel.active_open_order level = Some o.

(** A change of a level that empties its open slot or leaves it alone. *)
Definition keeps_or_clears_open (f : GridLevel.t -> GridLevel.t) : Prop :=
  forall l, GridLevel.active_open_order (f l) = None
            \/ GridLevel.active_open_order (f l) = GridLevel.active_open_order l.




End Rel.

(** ** An in-memory venue *)

(** A venue for concrete runs: a clock, a fixed mid price, a book of order
    dictionaries in the REST shape, and the requests received so far.
    Orders rest until a fill or a cancel is recorded in the book. *)
Module MockVenue.

Record world := {
  clock : Q;
  mid : Q;
  next_id : nat;
  book : list (string * PyDictT);
  requests : list OrderRequest
}.

Definition set_book (b : list (string * PyDictT)) (w : world) : world :=
  {| clock := clock w; mid := mid w; next_id := next_id w; book := b;
     requests := requests w |}.

Definition lookup_order (order_id : option string) (w : world) : option PyDictT :=
  match order_id with
  | Some oid => BinanceConnector.dict_get String.eqb oid (book w)
  | None => None
  end.

(** Replaces the binding of [key] in an order dictionary. *)
Definition with_field (key : string) (v : PyVal) (order : PyDictT) : PyDictT :=
  BinanceConnector.dict_set String.eqb key v order.

Definition new_order (oid : string) (req : OrderRequest) : PyDictT :=
  [("id", PyStr oid); ("status", PyStr "open");
   ("amount", PyNum (req_amount req));
   ("price", match req_price req with Some p => PyNum p | None => PyNone end);
   ("filled", PyNum 0); ("cost", PyNum 0);
   ("clientOrderId", PyStr (req_client_order_id req))].

Definition is_open (order : PyDictT) : bool :=
  match Py.lookup "status" order with
  | Some (PyStr s) => String.eqb s "open"
  | _ => false
  end.

Definition cancel_in_book (oid : string) (order : PyDictT) (w : world) : world :=
  set_book (BinanceConnector.dict_set String.eqb oid
              (with_field "status" (PyStr "canceled") order) (book w)) w.

Definition venue : Venue world :=
  {| time := clock;
     get_mid_price := fun w => (Some (mid w), w);
     latest_price := fun w => Some (mid w);
     fetch_order := fun oid w => (lookup_order oid w, w);
     create_order := fun req w =>
       let oid := NatString.of_nat (next_id w) in
       let order := new_order oid req in
       (Some order,
        {| clock := clock w; mid := mid w; next_id := S (next_id w);
           book := (book w ++ [(oid, order)])%list;
           requests := (requests w ++ [req])%list |});
     exchange_cancel_order := fun oid w =>
       match oid, lookup_order oid w with
       | Some oid, Some order =>
           if is_open order then (true, cancel_in_book oid order w)
           else (false, w)
       | _, _ => (false, w)
       end;
     cancel_all_orders := fun w =>
       (true, set_book (map (fun kv =>
                 if is_open (snd kv)
                 then (fst kv, with_field "status" (PyStr "canceled") (snd kv))
                 else kv) (book w)) w);
     close_all_positions := fun w => (true, w);
     get_positions := fun w => (0, 0, w);
     new_uuid8 := fun w => (NatString.of_nat (next_id w), w) |}.

(** What happens at the exchange between two ticks. *)
Definition advance (dt : Q) (w : world) : world :=
  {| clock := Qred (clock w + dt); mid := mid w; next_id := next_id w;
     book := book w; requests := requests w |}.

Definition set_mid (p : Q) (w : world) : world :=
  {| clock := clock w; mid := p; next_id := next_id w; book := book w;
     requests := requests w |}.

(** The exchange reports [status] for the order, with the given
    cumulative fill. *)
Definition report (oid : string) (status : string) (filled cost : Q)
    (w : world) : world :=
  match BinanceConnector.dict_get String.eqb oid (book w) with
  | Some order =>
      set_book (BinanceConnector.dict_set String.eqb oid
                  (with_field "cost" (PyNum cost)
                     (with_field "filled" (PyNum filled)
                        (with_field "status" (PyStr status) order)))
                  (book w)) w
  | None => w
  end.

(** A venue with an empty book at time [t0] (seconds since the epoch). *)
Definition start (p t0 : Q) : world :=
  {| clock := t0; mid := p; next_id := 1; book := []; requests := [] |}.

(** The requests that open a position. *)
Definition open_requests (w : world) : list OrderRequest :=
  List.filter (fun r => negb (req_reduce_only r)) (requests w).

End MockVenue.

(** ** The end-to-end setting of the specification *)

(** LONG grid, mid 0.264; rules: price tick 0.00001, amount tick 1, minimum
    notional 5, minimum order size 1; grid from 0.248 to 0.280 with a budget
    of 1000, at most 5 open orders, minimum spread 0.0005, take profit
    0.001, safe extra spread 0.0001. *)
Module Scenario.

Definition rules : TradingRule :=
  {| min_price_increment := 0.00001; min_base_amount_increment := 1;
     min_notional_size := 5; min_order_size := 1 |}.

Definition config (total : Q) (frequency : Z) (bounds : option Q)
    : GridExecutorConfig.t :=
  {| GridExecutorConfig.side := BUY;
     GridExecutorConfig.start_price := 0.248;
     GridExecutorConfig.end_price := 0.280;
     GridExecutorConfig.total_amount_quote := total;
     GridExecutorConfig.max_open_orders := 5;
     GridExecutorConfig.min_spread_between_orders := 0.0005;
     GridExecutorConfig.min_order_amount_quote := 5;
     GridExecutorConfig.order_type := LIMIT;
     GridExecutorConfig.order_frequency := frequency;
     GridExecutorConfig.activation_bounds := bounds;
     GridExecutorConfig.safe_extra_spread := 0.0001;
     GridExecutorConfig.take_profit_pct := 0.001;
     GridExecutorConfig.leverage := 20 |}.

Definition mid_price : Q := 0.264.

(** The wall clock at the first tick. *)
Definition epoch : Q := 1700000000.

(** A started executor with its venue, or nothing when the constructor
    raises. *)
Definition started (total : Q) (frequency : Z) (bounds : option Q)
    : option (GridExecutor.St (W := MockVenue.world)) :=
  match GridExecutor.init MockVenue.venue (config total frequency bounds) rules 10
          (MockVenue.start mid_price epoch) with
  | (Some ex, w) => Some (ex, w)
  | (None, _) => None
  end.

(** One control tick. *)
Definition tick (s : GridExecutor.St (W := MockVenue.world))
    : GridExecutor.St (W := MockVenue.world) :=
  snd (GridExecutor.control_task MockVenue.venue s).

(** The levels [_filter_levels_by_activation_bounds] lets through, by
    position on the ladder, once a refresh has filed the levels by state. *)
Definition eligible (bounds : option Q) : option (list nat) :=
  match started 1000 0 bounds with
  | Some s =>
      fst (GridExecutor._filter_levels_by_activation_bounds MockVenue.venue
             (snd (GridExecutor.refresh MockVenue.venue s)))
  | None => None
  end.

(** The price of the level at a position of that ladder. *)
Definition price_at (i : nat) : option Q :=
  match started 1000 0 None with
  | Some s => option_map GridLevel.price (GridExecutor.grid_levels (fst s) !! i)
  | None => None
  end.

(** A level as seen from outside: its state and the ids of its two orders. *)
Definition level_view (s : GridExecutor.St (W := MockVenue.world)) (i : nat)
    : option (GridLevelStates * option (option string) * option (option string)) :=
  option_map
    (fun level =>
       (GridLevel.state level,
        option_map TrackedOrder.order_id (GridLevel.active_open_order level),
        option_map TrackedOrder.order_id (GridLevel.active_close_order level)))
    (GridExecutor.grid_levels (fst s) !! i).

(** The exchange reports on an order between two ticks. *)
Definition then_report (oid status : string) (filled cost : Q)
    (s : GridExecutor.St (W := MockVenue.world))
    : GridExecutor.St (W := MockVenue.world) :=
  (fst s, MockVenue.report oid status filled cost (snd s)).

(** The re-derivation of the level states alone. *)
Definition rederive (s : GridExecutor.St (W := MockVenue.world))
    : GridExecutor.St (W := MockVenue.world) :=
  snd (GridExecutor.update_grid_levels MockVenue.venue s).

(** What the exchange does before the tick at second [k]: here, the first
    order placed is filled in full right after the first tick. *)
Definition first_order_fills (k : nat) (w : MockVenue.world) : MockVenue.world :=
  match k with
  | 1%nat => MockVenue.report "1" "closed" 20 5.28 w
  | _ => w
  end.

(** [n] ticks one second apart, starting at second [k]: the number of
    open-order requests each of them sent. *)
Fixpoint open_placements (events : nat -> MockVenue.world -> MockVenue.world)
    (n k : nat) (s : GridExecutor.St (W := MockVenue.world)) : list nat :=
  match n with
  | O => []
  | S n' =>
      let s0 := (fst s, events k (snd s)) in
      let s1 := tick s0 in
      let sent := (length (MockVenue.open_requests (snd s1))
                   - length (MockVenue.open_requests (snd s0)))%nat in
      sent :: open_placements events n' (S k) (fst s1, MockVenue.advance 1 (snd s1))
  end.

(** The same run: the number of levels in [OPEN_ORDER_PLACED] after each
    tick. *)
Fixpoint open_placed_counts (events : nat -> MockVenue.world -> MockVenue.world)
    (n k : nat) (s : GridExecutor.St (W := MockVenue.world)) : list Z :=
  match n with
  | O => []
  | S n' =>
      let s1 := tick (fst s, events k (snd s)) in
      GridExecutor.count_open_placed (GridExecutor.grid_levels (fst s1))
        :: open_placed_counts events n' (S k) (fst s1, MockVenue.advance 1 (snd s1))
  end.

End Scenario.

(** ** The statements of the specification *)

Module Spec.

(** The table of the level state machine, row by row: open slot, close
    slot, state. *)
Inductive state_table
  : option TrackedOrder.t -> option TrackedOrder.t -> GridLevelStates -> Prop :=
| row_no_open c :
    state_table None c NOT_ACTIVE
| row_open_live o c :
    TrackedOrder.is_done o = false ->
    state_table (Some o) c OPEN_ORDER_PLACED
| row_open_failed o c :
    TrackedOrder.is_done o = true -> TrackedOrder.is_filled o = false ->
    state_table (Some o) c NOT_ACTIVE
| row_open_filled o :
    TrackedOrder.is_done o = true -> TrackedOrder.is_filled o = true ->
    state_table (Some o) None OPEN_ORDER_FILLED
| row_close_live o c :
    TrackedOrder.is_done o = true -> TrackedOrder.is_filled o = true ->
    TrackedOrder.is_done c = false ->
    state_table (Some o) (Some c) CLOSE_ORDER_PLACED
| row_close_failed o c :
    TrackedOrder.is_done o = true -> TrackedOrder.is_filled o = true ->
    TrackedOrder.is_done c = true -> TrackedOrder.is_filled c = false ->
    state_table (Some o) (Some c) OPEN_ORDER_FILLED
| row_complete o c :
    TrackedOrder.is_done o = true -> TrackedOrder.is_filled o = true ->
    TrackedOrder.is_done c = true -> TrackedOrder.is_filled c = true ->
    state_table (Some o) (Some c) COMPLETE.

(** A level whose recorded state is the one the table gives for its slots. *)
Definition state_matches_slots (level : GridLevel.t) : Prop :=
  state_table (GridLevel.active_open_order level)
              (GridLevel.active_close_order level)
              (GridLevel.state level).

(** The status sets of the order tracker, as the specification lists them. *)
Definition FILLED_SET : list string := ["FILLED"; "CLOSED"].
Definition DONE_SET : list string :=
  ["FILLED"; "CLOSED"; "CANCELED"; "EXPIRED"; "REJECTED"].

(** The activation test for a price [p]: [|p - mid| / mid <= bounds]. *)
Definition activation_test (p mid bounds : Q) : Prop :=
  Qabs (p - mid) / mid <= bounds.

End Spec.


(** ** The connector over a ccxt session *)

(** The exchange session a connector holds ([self.exchange]), with the
    clock and the source of client order ids of the process, as operations
    on a world [W].  [None], or [false], stands for a raised exception. *)
Record Exchange (W : Type) := {
  (** [time.time()] *)
  clock : W -> Q;
  (** [time.sleep(seconds)] *)
  sleep : Q -> W -> W;
  (** [exchange.fetch_time()] *)
  fetch_time : W -> bool * W;
  (** [exchange.fetch_ticker(pair)] *)
  fetch_ticker : W -> option PyDictT * W;
  (** [exchange.fetch_positions(params)] *)
  fetch_positions : W -> option (list PyDictT) * W;
  (** [exchange.fetch_open_orders(pair)] *)
  fetch_open_orders : W -> option (list PyDictT) * W;
  (** [exchange.fetch_balance()] *)
  fetch_balance : W -> option PyDictT * W;
  (** [exchange.fetch_order(order_id, pair)] *)
  session_fetch_order : option string -> W -> option PyDictT * W;
  (** [exchange.create_order(..)] *)
  session_create_order : OrderRequest -> W -> option PyDictT * W;
  (** [exchange.cancel_order(order_id, pair)] *)
  session_cancel_order : PyVal -> W -> bool * W;
  (** [uuid.uuid4().hex[:8]] *)
  uuid8 : W -> string * W
}.

Arguments clock {W}.
Arguments sleep {W}.
Arguments fetch_time {W}.
Arguments fetch_ticker {W}.
Arguments fetch_positions {W}.
Arguments fetch_open_orders {W}.
Arguments fetch_balance {W}.
Arguments session_fetch_order {W}.
Arguments session_create_order {W}.
Arguments session_cancel_order {W}.
Arguments uuid8 {W}.

Module Connector.

(** [latest_price] starts as [Decimal("0")] and is overwritten with
    [float]s. *)
Inductive number :=
| AsDecimal (q : Q)
| AsFloat (q : Q).

Definition value (n : number) : Q :=
  match n with AsDecimal q | AsFloat q => q end.

(** The attributes of a [BinanceConnector] that the methods below read or
    write. *)
Record t := {
  trading_pair : string;
  contract_type : string;
  trading_rules : TradingRule;
  latest_price : number;
  best_bid_price : Q;
  best_ask_price : Q;
  long_position : Q;
  short_position : Q;
  last_position_update_time : Q
}.

Definition set_prices (p : number) (bid ask : Q) (c : t) : t :=
  {| trading_pair := trading_pair c; contract_type := contract_type c;
     trading_rules := trading_rules c;
     latest_price := p; best_bid_price := bid; best_ask_price := ask;
     long_position := long_position c; short_position := short_position c;
     last_position_update_time := last_position_update_time c |}.

Definition set_positions (long short now : Q) (c : t) : t :=
  {| trading_pair := trading_pair c; contract_type := contract_type c;
     trading_rules := trading_rules c;
     latest_price := latest_price c; best_bid_price := best_bid_price c;
     best_ask_price := best_ask_price c;
     long_position := long; short_position := short;
     last_position_update_time := now |}.

(** A connector as [__init__] leaves it. *)
Definition init (pair contract : string) (rules : TradingRule) : t :=
  {| trading_pair := pair; contract_type := contract; trading_rules := rules;
     latest_price := AsDecimal 0; best_bid_price := 0; best_ask_price := 0;
     long_position := 0; short_position := 0;
     last_position_update_time := 0 |}.

(** [v == 'text'] for a payload value. *)
Definition is_str (v : PyVal) (text : string) : bool :=
  match v with
  | PyStr s => String.eqb s text
  | _ => false
  end.

(** A field of the ticker: [None] when it is absent or [None] in the
    payload, else [Decimal(str(..))], which may raise (outer [None]). *)
Definition ticker_field (key : string) (ticker : PyDictT) : option (option Q) :=
  match Py.get key PyNone ticker with
  | PyNone => Some None
  | v => option_map Some (Decimal_str v)
  end.

(** [x and x > 0] for an optional [Decimal]. *)
Definition positive (x : option Q) : bool :=
  match x with
  | Some q => negb (Dec.is_zero q) && Dec.gtb q 0
  | None => false
  end.

(** The [elif] and [else] branches of the [try] of [get_mid_price]. *)
Definition price_from_last (last : option Q) (c : t) : option (Q * t) :=
  match last with
  | Some l =>
      if positive last
      then Some (l, set_prices (AsFloat l) (best_bid_price c) (best_ask_price c) c)
      else None
  | None => None
  end.

(** The body of the [try] of [get_mid_price] once the ticker is there:
    the price it returns with the cache it leaves, [Some None] when it
    falls to the last [else], [None] when it raises. *)
Definition price_from_ticker (ticker : PyDictT) (c : t)
    : option (option (Q * t)) :=
  match ticker_field "bid" ticker, ticker_field "ask" ticker,
        ticker_field "last" ticker with
  | Some bid, Some ask, Some last =>
      match bid, ask with
      | Some b, Some a =>
          if positive bid && positive ask then
            let mid_price := (b + a) / 2 in
            Some (Some (mid_price, set_prices (AsFloat mid_price) b a c))
          else Some (price_from_last last c)
      | _, _ => Some (price_from_last last c)
      end
  | _, _, _ => None
  end.

(** The price kept from an earlier call, if it is positive. *)
Definition cached_price (c : t) : option Q :=
  if Dec.gtb (value (latest_price c)) 0 then Some (value (latest_price c))
  else None.

Section WithExchange.
Context {W : Type} (E : Exchange W).

(** The state of a method: the connector object and the world. *)
Definition St : Type := t * W.

Definition lift {A} (f : W -> A * W) (s : St) : A * St :=
  let '(a, w) := f (snd s) in (a, (fst s, w)).

(** [is_connected] (the definition that the class keeps, the second one) *)
Definition is_connected (s : St) : bool * St := lift (fetch_time E) s.

(** The loop of the slow path of [get_mid_price]: [attempts] tries are
    left. *)
Fixpoint rest_price (attempts : nat) (c : t) (w : W) : option Q * St :=
  match attempts with
  | O => (None, (c, w))
  | S remaining =>
      let '(ticker, w) := fetch_ticker E w in
      match match ticker with
            | Some ticker => price_from_ticker ticker c
            | None => None
            end with
      | Some (Some (price, c')) => (Some price, (c', w))
      | _ =>
          match remaining with
          | O => (cached_price c, (c, w))
          | S _ => rest_price remaining c (sleep E 0.5 w)
          end
      end
  end.

(** [get_mid_price]; [None]: it raises [ValueError]. *)
Definition get_mid_price (s : St) : option Q * St :=
  let '(connected, (c, w)) := is_connected s in
  if connected && Dec.gtb (value (latest_price c)) 0
  then (Some (value (latest_price c)), (c, w))
  else rest_price 2 c w.

(** The body of the loop of [get_positions]; [None]: it raises. *)
Definition scan_position (pair : string) (acc : Q * Q) (position : PyDictT)
    : option (Q * Q) :=
  match Py.lookup "symbol" position with
  | None => None
  | Some symbol =>
      if is_str symbol pair then
        match Decimal_str (Py.get "contracts" (PyNum 0) position) with
        | None => None
        | Some contracts =>
            let side := Py.get "side" PyNone position in
            if is_str side "long" then Some (contracts, snd acc)
            else if is_str side "short" then Some (fst acc, Qabs contracts)
            else Some acc
        end
      else Some acc
  end.

Fixpoint scan_positions (pair : string) (acc : Q * Q)
    (positions : list PyDictT) : option (Q * Q) :=
  match positions with
  | [] => Some acc
  | position :: rest =>
      match scan_position pair acc position with
      | Some acc => scan_positions pair acc rest
      | None => None
      end
  end.

(** [get_positions]: (long, short) *)
Definition get_positions (s : St) : (Q * Q) * St :=
  let '(c, w) := s in
  let '(positions, w) := fetch_positions E w in
  match match positions with
        | Some positions => scan_positions (trading_pair c) (0, 0) positions
        | None => None
        end with
  | Some (long, short) =>
      ((long, short), (set_positions long short (clock E w) c, w))
  | None => ((long_position c, short_position c), (c, w))
  end.

(** [get_open_orders] *)
Definition get_open_orders (s : St) : list PyDictT * St :=
  let '(orders, s) := lift (fetch_open_orders E) s in
  (match orders with Some orders => orders | None => [] end, s).

(** [cancel_order] *)
Definition cancel_order (order_id : PyVal) (s : St) : bool * St :=
  lift (session_cancel_order E order_id) s.

(** The order id an executor tracks, as the value it passes on. *)
Definition id_value (order_id : option string) : PyVal :=
  match order_id with Some s => PyStr s | None => PyNone end.

(** [self.latest_price] where a [Decimal] is needed: a [float] there makes
    the product with a [Decimal] raise. *)
Definition latest_decimal (s : St) : option Q :=
  match latest_price (fst s) with
  | AsDecimal q => Some q
  | AsFloat _ => None
  end.

(** The connector as the executor sees it, but for its two composite
    methods, which are built below from [place_order] and [cancel_order]
    over this very record and are left failing in it. *)
Definition session : Venue St :=
  Build_Venue St
    (* time *) (fun s => clock E (snd s))
    (* get_mid_price *) get_mid_price
    (* latest_price *) latest_decimal
    (* fetch_order *) (fun order_id => lift (session_fetch_order E order_id))
    (* create_order *) (fun req => lift (session_create_order E req))
    (* exchange_cancel_order *) (fun order_id => cancel_order (id_value order_id))
    (* cancel_all_orders *) (fun s => (false, s))
    (* close_all_positions *) (fun s => (false, s))
    (* get_positions *) get_positions
    (* new_uuid8 *) (lift (uuid8 E)).

(** [place_order] *)
Definition place_order (candidate : OrderCandidate.t) (s : St)
    : option PyDictT * St :=
  BinanceConnector.place_order session (trading_rules (fst s)) candidate s.

(** The loop of [cancel_all_orders]; [None]: [order['id']] raises. *)
Fixpoint cancel_each (orders : list PyDictT) (success_count : nat) (s : St)
    : option nat * St :=
  match orders with
  | [] => (Some success_count, s)
  | order :: rest =>
      match Py.lookup "id" order with
      | None => (None, s)
      | Some order_id =>
          let '(ok, s) := cancel_order order_id s in
          cancel_each rest (if ok then S success_count else success_count) s
      end
  end.

(** [cancel_all_orders] *)
Definition cancel_all_orders (s : St) : bool * St :=
  let '(orders, s) := get_open_orders s in
  match cancel_each orders 0 s with
  | (Some success_count, s) => (Nat.eqb success_count (length orders), s)
  | (None, s) => (false, s)
  end.

(** [not self.place_order(..)] is false: an order came back. *)
Definition placed (order : option PyDictT) : bool :=
  match order with
  | Some order => Py.truthy (PyDict order)
  | None => false
  end.

(** The candidate [close_all_positions] builds for a position. *)
Definition closing_candidate (order_side : TradeType) (amount : Q)
    : OrderCandidate.t :=
  {| OrderCandidate.order_type := MARKET;
     OrderCandidate.order_side := order_side;
     OrderCandidate.amount := amount;
     OrderCandidate.price := None;
     OrderCandidate.position_action := CLOSE |}.

(** [close_all_positions] *)
Definition close_all_positions (s : St) : bool * St :=
  let '((long_pos, short_pos), s) := get_positions s in
  let '(long_closed, s) :=
    if Dec.gtb long_pos 0 then
      let '(order, s) := place_order (closing_candidate SELL long_pos) s in
      (placed order, s)
    else (true, s) in
  let '(short_closed, s) :=
    if Dec.gtb short_pos 0 then
      let '(order, s) := place_order (closing_candidate BUY short_pos) s in
      (placed order, s)
    else (true, s) in
  (long_closed && short_closed, s).

(** [verify_cleanup] *)
Definition verify_cleanup (s : St) : bool * St :=
  let '(orders, s) := get_open_orders s in
  match orders with
  | _ :: _ => (false, s)
  | [] =>
      let '((long_pos, short_pos), s) := get_positions s in
      (negb (Dec.gtb long_pos 0 || Dec.gtb short_pos 0), s)
  end.

(** [cleanup] *)
Definition cleanup (s : St) : bool * St :=
  let '(cancel_success, s) := cancel_all_orders s in
  let s := (fst s, sleep E 2 (snd s)) in
  let '(close_success, s) := close_all_positions s in
  let s := (fst s, sleep E 2 (snd s)) in
  let '(verification_success, s) := verify_cleanup s in
  (cancel_success && close_success && verification_success, s).

(** The connector an executor is given. *)
Definition venue : Venue St :=
  Build_Venue St
    (* time *) (time session)
    (* get_mid_price *) get_mid_price
    (* latest_price *) latest_decimal
    (* fetch_order *) (fetch_order session)
    (* create_order *) (create_order session)
    (* exchange_cancel_order *) (exchange_cancel_order session)
    (* cancel_all_orders *) cancel_all_orders
    (* close_all_positions *) close_all_positions
    (* get_positions *) get_positions
    (* new_uuid8 *) (new_uuid8 session).

(** The balance dictionary of [get_balance]. *)
Record balance := {
  free : Q;
  used : Q;
  total : Q
}.

Definition no_balance : balance := {| free := 0; used := 0; total := 0 |}.

(** [balance[asset][key]] as a [Decimal]; [None]: it raises. *)
Definition balance_field (key : string) (entry : PyVal) : option Q :=
  match entry with
  | PyDict d =>
      match Py.lookup key d with
      | Some v => Decimal_str v
      | None => None
      end
  | _ => None
  end.

(** [get_balance(asset)]; [asset = None] stands for the contract type. *)
Definition get_balance (asset : option string) (s : St) : balance * St :=
  let asset := match asset with
               | Some a => a
               | None => contract_type (fst s)
               end in
  let '(fetched, s) := lift (fetch_balance E) s in
  (match fetched with
   | Some fetched =>
       match Py.lookup asset fetched with
       | Some entry =>
           match balance_field "free" entry, balance_field "used" entry,
                 balance_field "total" entry with
           | Some f, Some u, Some t => {| free := f; used := u; total := t |}
           | _, _, _ => no_balance
           end
       | None => no_balance
       end
   | None => no_balance
   end, s).

End WithExchange.
End Connector.

(** ** An in-memory exchange session *)

(** A session for concrete runs: a clock, a switch that makes every call
    raise, the ticker, positions, open orders and balances it reports, and
    the requests it was sent. *)
Module MockExchange.

Record world := {
  now : Q;
  reachable : bool;
  ticker : PyDictT;
  positions : list PyDictT;
  open_orders : list PyDictT;
  balances : PyDictT;
  sent : list OrderRequest
}.

Definition answer {A} (a : A) (w : world) : option A * world :=
  (if reachable w then Some a else None, w).

Definition with_orders (orders : list PyDictT) (requests : list OrderRequest)
    (w : world) : world :=
  {| now := now w; reachable := reachable w; ticker := ticker w;
     positions := positions w; open_orders := orders; balances := balances w;
     sent := requests |}.

Definition has_id (order_id : PyVal) (order : PyDictT) : bool :=
  match order_id, Py.lookup "id" order with
  | PyStr a, Some (PyStr b) => String.eqb a b
  | _, _ => false
  end.

Definition exchange : Exchange world :=
  {| clock := now;
     sleep := fun seconds w =>
       {| now := Qred (now w + seconds); reachable := reachable w;
          ticker := ticker w; positions := positions w;
          open_orders := open_orders w; balances := balances w; sent := sent w |};
     fetch_time := fun w => (reachable w, w);
     fetch_ticker := fun w => answer (ticker w) w;
     fetch_positions := fun w => answer (positions w) w;
     fetch_open_orders := fun w => answer (open_orders w) w;
     fetch_balance := fun w => answer (balances w) w;
     session_fetch_order := fun order_id w =>
       (if reachable w
        then List.find (has_id (Connector.id_value order_id)) (open_orders w)
        else None, w);
     session_create_order := fun req w =>
       if reachable w then
         let order := [("id", PyStr (NatString.of_nat (S (length (sent w)))));
                       ("status", PyStr "open");
                       ("amount", PyNum (req_amount req))] in
         (Some order, with_orders (open_orders w ++ [order]) (sent w ++ [req]) w)
       else (None, w);
     session_cancel_order := fun order_id w =>
       if reachable w && existsb (has_id order_id) (open_orders w) then
         (true, with_orders (List.filter (fun o => negb (has_id order_id o))
                                         (open_orders w)) (sent w) w)
       else (false, w);
     uuid8 := fun w => (NatString.of_nat (length (sent w)), w) |}.

(** A session at second [t0] with a book ticker around 0.264, no position,
    no open order and a free balance of 100 USDC. *)
Definition start (t0 : Q) (up : bool) : world :=
  {| now := t0; reachable := up;
     ticker := [("bid", PyNum 0.2639); ("ask", PyNum 0.2641); ("last", PyNum 0.264)];
     positions := []; open_orders := [];
     balances := [("USDC", PyDict [("free", PyNum 100); ("used", PyNum 0);
                                   ("total", PyNum 100)])];
     sent := [] |}.

Definition with_positions (l : list PyDictT) (w : world) : world :=
  {| now := now w; reachable := reachable w; ticker := ticker w;
     positions := l; open_orders := open_orders w; balances := balances w;
     sent := sent w |}.

Definition with_reachable (up : bool) (w : world) : world :=
  {| now := now w; reachable := up; ticker := ticker w;
     positions := positions w; open_orders := open_orders w;
     balances := balances w; sent := sent w |}.

(** A session on which every call raises. *)
Definition unreachable : Exchange unit :=
  {| clock := fun _ => 0;
     sleep := fun _ w => w;
     fetch_time := fun w => (false, w);
     fetch_ticker := fun w => (None, w);
     fetch_positions := fun w => (None, w);
     fetch_open_orders := fun w => (None, w);
     fetch_balance := fun w => (None, w);
     session_fetch_order := fun _ w => (None, w);
     session_create_order := fun _ w => (None, w);
     session_cancel_order := fun _ w => (false, w);
     uuid8 := fun w => ("00000000", w) |}.

(** The connector of the end-to-end setting over such a session. *)
Definition connector : Connector.t :=
  Connector.init "DOGE/USDC:USDC" "USDC" Scenario.rules.

End MockExchange.


(** ** strategy_controller.py *)

Module StrategyController.
Section TwoAccounts.
Context {WA WB : Type} (EA : Exchange WA) (EB : Exchange WB).

(** [validate_dual_account_balance] for the leverage and the budget of
    the configuration; [None]: it raises [ValueError]. *)
Definition validate_dual_account_balance (leverage : Z) (total_amount_quote : Q)
    (sa : Connector.St (W := WA)) (sb : Connector.St (W := WB))
    : option unit * (Connector.St (W := WA) * Connector.St (W := WB)) :=
  let '(balance_a, sa) := Connector.get_balance EA None sa in
  let '(balance_b, sb) := Connector.get_balance EB None sb in
  let available_a := Connector.free balance_a in
  let available_b := Connector.free balance_b in
  let nominal_value_a := available_a * inject_Z leverage in
  let nominal_value_b := available_b * inject_Z leverage in
  let required_amount := total_amount_quote in
  let min_nominal_value :=
    if Dec.ltb nominal_value_b nominal_value_a
    then nominal_value_b else nominal_value_a in
  if Dec.ltb min_nominal_value required_amount
  then (None, (sa, sb))
  else (Some tt, (sa, sb)).

End TwoAccounts.
End StrategyController.

(** ** The read-only properties of [TrackedOrder] *)

Module TrackedOrderView.
Import TrackedOrder.

(** [status]: the ['status'] entry of [raw_info], ["unknown"] without one. *)
Definition status (self : t) : PyVal :=
  if Py.truthy (PyDict (raw_info self)) && Py.contains "status" (raw_info self)
  then Py.get "status" PyNone (raw_info self)
  else PyStr "unknown".



End TrackedOrderView.

(** ** A venue that keeps the requests it was sent *)

Module Recorded.
Section WithVenue.
Context {W : Type} (V : Venue W).

Definition world : Type := W * list OrderRequest.

Definition pass {A} (f : W -> A * W) (s : world) : A * world :=
  let '(a, w) := f (fst s) in (a, (w, snd s)).

(** [V], with every call of [create_order] noted. *)
Definition venue : Venue world :=
  Build_Venue world
    (* time *) (fun s => time V (fst s))
    (* get_mid_price *) (pass (get_mid_price V))
    (* latest_price *) (fun s => latest_price V (fst s))
    (* fetch_order *) (fun order_id => pass (fetch_order V order_id))
    (* create_order *)
    (fun req s =>
       let '(order, w) := create_order V req (fst s) in
       (order, (w, (snd s ++ [req])%list)))
    (* exchange_cancel_order *) (fun order_id => pass (exchange_cancel_order V order_id))
    (* cancel_all_orders *) (pass (cancel_all_orders V))
    (* close_all_positions *) (pass (close_all_positions V))
    (* get_positions *) (pass (get_positions V))
    (* new_uuid8 *) (pass (new_uuid8 V)).

(** The requests noted so far. *)
Definition requests (s : GridExecutor.St (W := world)) : list OrderRequest :=
  snd (snd s).

End WithVenue.

Definition opposite (side : TradeType) : TradeType :=
  match side with BUY => SELL | SELL => BUY end.

(** A request of a grid of side [side]: on the position side of the grid,
    an opening order on the side of the grid, a reducing order a limit
    order on the other side. *)
Definition own_side (side : TradeType) (req : OrderRequest) : Prop :=
  req_position_side_long req = match side with BUY => true | SELL => false end
  /\ (req_reduce_only req = false -> req_side req = side)
  /\ (req_reduce_only req = true ->
      req_side req = opposite side /\ req_type req = LIMIT).

(** From [s] to [s'] the configuration and the rules are kept and the
    requests noted in between are those of a grid of side [side]. *)
Definition sends_own_side {W} (side : TradeType)
    (s s' : GridExecutor.St (W := world (W := W))) : Prop :=
  GridExecutor.config (fst s') = GridExecutor.config (fst s)
  /\ exists sent, requests s' = (requests s ++ sent)%list
                  /\ Forall (own_side side) sent.

(** From [s] to [s'] nothing is sent, the rules are kept, and the opening
    order level [i] holds, if any, is the one it held. *)
Definition open_order_kept {W} (i : nat)
    (s s' : GridExecutor.St (W := world (W := W))) : Prop :=
  requests s' = requests s
  /\ GridExecutor.trading_rules (fst s') = GridExecutor.trading_rules (fst s)
  /\ forall level',
       GridExecutor.grid_levels (fst s') !! i = Some level' ->
       exists level,
         GridExecutor.grid_levels (fst s) !! i = Some level
         /\ (GridLevel.active_open_order level' = None
             \/ GridLevel.active_open_order level'
                = GridLevel.active_open_order level).

(** The state is one of a grid of side [side]. *)
Definition of_side {W} (side : TradeType)
    (s : GridExecutor.St (W := world (W := W))) : Prop :=
  GridExecutorConfig.side (GridExecutor.config (fst s)) = side.

(** A candidate whose requests are those of a grid of side [side]. *)
Definition fits (side : TradeType) (c : OrderCandidate.t) : Prop :=
  forall price amount uuid,
    own_side side (BinanceConnector.request_for c price amount uuid).

End Recorded.

(** ** Further relations between the executor before and after a step *)

Module Kept.
Import GridExecutor.

(** The run status, the retry counter and its bound are kept. *)
Definition same_control (ex ex' : t) : Prop :=
  _status ex' = _status ex
  /\ _current_retries ex' = _current_retries ex
  /\ max_retries ex' = max_retries ex.

(** A computation that relates every state satisfying [P] to the state it
    leaves. *)
Definition keeps {S A} (P : S -> Prop) (R : S -> S -> Prop) (m : Exc.M S A) : Prop :=
  forall s, P s -> R s (snd (m s)).

(** The positions, from [i] on, of the levels in state [st]. *)
Definition positions (st : GridLevelStates) (i : nat) (levels : list GridLevel.t)
    : list nat :=
  List.filter
    (fun j => match levels !! (j - i)%nat with
              | Some level => GridLevelStates_eqb (GridLevel.state level) st
              | None => false
              end)
    (seq i (length levels)).

End Kept.

(** ** A small grid on the mock venue *)

Module Desk.

Definition level (id : string) (price : Q) : GridLevel.t :=
  {| GridLevel.id := id; GridLevel.price := price;
     GridLevel.amount_quote := 26.4; GridLevel.side := BUY;
     GridLevel.order_type := LIMIT; GridLevel.take_profit_pct := 0.001;
     GridLevel.active_open_order := None;
     GridLevel.active_close_order := None;
     GridLevel.state := NOT_ACTIVE |}.

(** A running executor of seven idle levels around [Scenario.mid_price]. *)
Definition executor : GridExecutor.t :=
  {| GridExecutor.config := Scenario.config 184.8 0 None;
     GridExecutor.trading_rules := Scenario.rules;
     GridExecutor.max_retries := 10;
     GridExecutor._status := RUNNING;
     GridExecutor._current_retries := 0;
     GridExecutor.grid_levels :=
       [level "L0" 0.250; level "L1" 0.255; level "L2" 0.260;
        level "L3" 0.265; level "L4" 0.270; level "L5" 0.275;
        level "L6" 0.280];
     GridExecutor.levels_by_state :=
       (fun st => match st with
                  | NOT_ACTIVE => [0; 1; 2; 3; 4; 5; 6]%nat
                  | _ => []
                  end);
     GridExecutor._filled_orders := [];
     GridExecutor.position_size_base := 0;
     GridExecutor.max_open_creation_timestamp := 0 |}.

Definition venue_world : MockVenue.world :=
  MockVenue.start Scenario.mid_price Scenario.epoch.

(** The executor on the mock venue, with the requests noted. *)
Definition start : GridExecutor.St (W := Recorded.world (W := MockVenue.world)) :=
  (executor, (venue_world, [])).

(** One control tick. *)
Definition tick (s : GridExecutor.St (W := Recorded.world (W := MockVenue.world)))
    : GridExecutor.St (W := Recorded.world (W := MockVenue.world)) :=
  snd (GridExecutor.control_task (Recorded.venue MockVenue.venue) s).

(** The exchange reports on an order between two ticks. *)
Definition then_report (oid status : string) (filled cost : Q)
    (s : GridExecutor.St (W := Recorded.world (W := MockVenue.world)))
    : GridExecutor.St (W := Recorded.world (W := MockVenue.world)) :=
  (fst s, (MockVenue.report oid status filled cost (fst (snd s)), snd (snd s))).

(** A request as seen from outside: side, whether it is on the LONG
    position side, whether it is reduce-only, and the amount. *)
Definition request_view (req : OrderRequest) : TradeType * bool * bool * Q :=
  (req_side req, req_position_side_long req, req_reduce_only req,
   Qred (req_amount req)).

End Desk.

(** * Properties *)
Lemma GridLevelStates_eqb_eq a b : GridLevelStates_eqb a b = true <-> a = b.
Proof. destruct a, b; simpl; split; congruence. Qed.

Lemma GridLevelStates_eqb_refl a : GridLevelStates_eqb a a = true.
Proof. now destruct a. Qed.


(** ** Decimal comparisons *)

Module DecFacts.
Import Dec.

Lemma ltb_lt x y : ltb x y = true <-> x < y.
Proof.
  unfold ltb. rewrite negb_true_iff.
  destruct (Qle_bool y x) eqn:E.
  - apply Qle_bool_iff in E. split; [discriminate | lra].
  - split; [intros _ | reflexivity].
    destruct (Qlt_le_dec x y) as [H|H]; [exact H|].
    apply Qle_bool_iff in H. congruence.
Qed.

Lemma leb_le x y : leb x y = true <-> x <= y.
Proof. apply Qle_bool_iff. Qed.

Lemma ltb_ge x y : ltb x y = false <-> y <= x.
Proof.
  unfold ltb. rewrite negb_false_iff. apply Qle_bool_iff.
Qed.

Lemma leb_gt x y : leb x y = false <-> y < x.
Proof.
  rewrite <- ltb_lt. unfold ltb, leb. destruct (Qle_bool x y); simpl; split; congruence.
Qed.

Lemma is_zero_true x : is_zero x = true <-> x == 0.
Proof. apply Qeq_bool_iff. Qed.

Lemma is_zero_false x : is_zero x = false <-> ~ x == 0.
Proof.
  unfold is_zero. split.
  - intros E H. apply Qeq_bool_iff in H. congruence.
  - intros H. destruct (Qeq_bool x 0) eqn:E; [|reflexivity].
    apply Qeq_bool_iff in E. contradiction.
Qed.




End DecFacts.

Module PyFacts.
Import Py.

Lemma str_in_In s l : str_in s l = true <-> In s l.
Proof.
  unfold str_in. rewrite existsb_exists. split.
  - intros [x [Hin Heq]]. apply String.eqb_eq in Heq. now subst.
  - intros Hin. exists s. split; [exact Hin | apply String.eqb_refl].
Qed.

End PyFacts.

(** ** Level state machine *)

Module LevelFacts.
Import GridLevel.

Lemma update_state_slots l :
  active_open_order (update_state l) = active_open_order l
  /\ active_close_order (update_state l) = active_close_order l.
Proof.
  unfold update_state.
  destruct (active_open_order l) as [o|] eqn:Ho; [|now rewrite <- Ho].
  destruct (TrackedOrder.is_done o), (TrackedOrder.is_filled o); simpl;
    try (now rewrite <- Ho).
  destruct (active_close_order l) as [c|] eqn:Hc; [|now rewrite <- Ho, <- Hc].
  destruct (TrackedOrder.is_done c), (TrackedOrder.is_filled c); simpl;
    now rewrite <- Ho.
Qed.

Lemma update_state_table l :
  Spec.state_table (active_open_order l) (active_close_order l)
                   (state (update_state l)).
Proof.
  unfold update_state.
  destruct (active_open_order l) as [o|]; [|constructor].
  destruct (TrackedOrder.is_done o) eqn:Hd; simpl; [|now constructor].
  destruct (TrackedOrder.is_filled o) eqn:Hf; simpl; [|now constructor].
  destruct (active_close_order l) as [c|]; [|now constructor].
  destruct (TrackedOrder.is_done c) eqn:Hcd; simpl; [|now constructor].
  destruct (TrackedOrder.is_filled c) eqn:Hcf; simpl; now constructor.
Qed.

Lemma state_table_functional o c s1 s2 :
  Spec.state_table o c s1 -> Spec.state_table o c s2 -> s1 = s2.
Proof.
  intros H1 H2; inversion H1; subst; inversion H2; subst; congruence.
Qed.

Lemma state_table_total o c : exists s, Spec.state_table o c s.
Proof.
  destruct o as [o|]; [|eexists; constructor].
  destruct (TrackedOrder.is_done o) eqn:Hd; [|eexists; now apply Spec.row_open_live].
  destruct (TrackedOrder.is_filled o) eqn:Hf; [|eexists; now apply Spec.row_open_failed].
  destruct c as [c|]; [|eexists; now apply Spec.row_open_filled].
  destruct (TrackedOrder.is_done c) eqn:Hcd; [|eexists; now apply Spec.row_close_live].
  destruct (TrackedOrder.is_filled c) eqn:Hcf;
    eexists; [now apply Spec.row_complete | now apply Spec.row_close_failed].
Qed.

End LevelFacts.


(** ** Order tracker: [TrackedOrder.update_from_exchange_data] *)

Module TrackedOrderFacts.
Import TrackedOrder.

Ltac case_step :=
  match goal with
  | |- context [match ?x with _ => _ end] => destruct x eqn:?; simpl in *
  | H : context [match ?x with _ => _ end] |- _ => destruct x eqn:?; simpl in *
  end.

(** The status of a REST snapshot is its [status] field in upper case. *)
Lemma status_of_rest order_data s :
  Py.contains "X" order_data = false ->
  Py.lookup "status" order_data = Some (PyStr s) ->
  status_of order_data = Some (Py.upper s).
Proof.
  intros HX Hs. unfold status_of, read_fields, Py.get.
  rewrite HX, Hs. reflexivity.
Qed.

(** The status of a pushed event is its [X] field in upper case. *)
Lemma status_of_event order_data s :
  Py.lookup "X" order_data = Some (PyStr s) ->
  status_of order_data = Some (Py.upper s).
Proof.
  intros Hs. unfold status_of, read_fields, Py.contains, Py.get.
  rewrite Hs. reflexivity.
Qed.

(** The later assignments of the update leave the two flags alone. *)
Lemma update_fee_flags self order_data self' :
  update_fee self order_data = Some self' ->
  is_filled self' = is_filled self /\ is_done self' = is_done self.
Proof.
  unfold update_fee. intros H.
  repeat case_step; inversion H; subst; auto.
Qed.

(** When the payload has a readable status, the flags the call leaves are
    the membership tests of that status, whatever happens afterwards. *)
Lemma update_flags self order_data status :
  status_of order_data = Some status ->
  is_filled (snd (update_from_exchange_data self order_data))
    = Py.str_in status FILLED_STATUSES
  /\ is_done (snd (update_from_exchange_data self order_data))
    = Py.str_in status DONE_STATUSES.
Proof.
  unfold status_of, update_from_exchange_data. intros H.
  destruct (read_fields order_data) as [[[[st fq] fqu] cid]|]; [|discriminate].
  simpl in H. inversion H; subst st; clear H.
  generalize (Py.str_in status FILLED_STATUSES) (Py.str_in status DONE_STATUSES).
  intros F D.
  destruct (Py.truthy cid && negb (Py.truthy (client_order_id (set_flags F D self))));
    (destruct (Py.truthy fq); [destruct (Decimal_str fq)|]; simpl; auto);
    (destruct (Py.truthy fqu); [destruct (Decimal_str fqu)|]; simpl; auto);
    match goal with
    | |- context [update_fee ?o ?d] =>
        destruct (update_fee o d) eqn:E; simpl; auto;
        apply update_fee_flags in E; destruct E as [-> ->]; simpl; auto
    end.
Qed.


End TrackedOrderFacts.

(** C2, as the code has it.  For an update whose payload carries a readable
    status (REST shape or event shape), the order ends with [is_filled] set
    iff the upper-cased status is FILLED or CLOSED, and with [is_done] set
    iff it is FILLED, CLOSED, CANCELED or EXPIRED. *)
Theorem update_sets_flags_from_status self order_data status :
  TrackedOrder.status_of order_data = Some status ->
  (TrackedOrder.is_filled (snd (TrackedOrder.update_from_exchange_data self order_data)) = true
   <-> In status Spec.FILLED_SET)
  /\ (TrackedOrder.is_done (snd (TrackedOrder.update_from_exchange_data self order_data)) = true
      <-> In status ["FILLED"; "CLOSED"; "CANCELED"; "EXPIRED"]).
Proof.
  intros H.
  destruct (TrackedOrderFacts.update_flags self order_data status H) as [-> ->].
  rewrite !PyFacts.str_in_In.
  unfold TrackedOrder.FILLED_STATUSES, TrackedOrder.DONE_STATUSES, Spec.FILLED_SET.
  simpl. intuition.
Qed.

(** A cancelled order polled over REST: done, not filled. *)
Lemma update_sets_flags_from_status_witness :
  let order_data := [("status", PyStr "canceled"); ("filled", PyNum 40)] in
  let self := TrackedOrder.make (Some "7") LIMIT 0.264 100 [] in
  (TrackedOrder.is_filled (snd (TrackedOrder.update_from_exchange_data self order_data)) = true
   <-> In "CANCELED" Spec.FILLED_SET)
  /\ (TrackedOrder.is_done (snd (TrackedOrder.update_from_exchange_data self order_data)) = true
      <-> In "CANCELED" ["FILLED"; "CLOSED"; "CANCELED"; "EXPIRED"]).
Proof.
  intros order_data self.
  apply (update_sets_flags_from_status self order_data "CANCELED").
  reflexivity.
Defined.

(** C2 as stated fails on REJECTED, in both payload shapes: the status is in
    the done set of the specification and the order is left not done. *)
Lemma rejected_order_is_not_done :
  let self := TrackedOrder.make (Some "7") LIMIT 0.264 100 [] in
  let rest := [("status", PyStr "rejected")] in
  let event := [("X", PyStr "REJECTED")] in
  TrackedOrder.status_of rest = Some "REJECTED"
  /\ TrackedOrder.status_of event = Some "REJECTED"
  /\ In "REJECTED" Spec.DONE_SET
  /\ TrackedOrder.is_done (snd (TrackedOrder.update_from_exchange_data self rest)) = false
  /\ TrackedOrder.is_done (snd (TrackedOrder.update_from_exchange_data self event)) = false.
Proof.
  cbv zeta. repeat split; try reflexivity.
  unfold Spec.DONE_SET. simpl. tauto.
Qed.



(** ** Configuration validation *)

(** C9, as the code has it.  [validate_config] raises exactly when
    credentials are missing, [start_price >= end_price],
    [total_amount_quote <= 0] or [max_open_orders <= 0], and returns [True]
    otherwise: [take_profit_pct] is not among the fields it reads. *)
Theorem validate_config_rejects_iff a b g :
  (Config.rejects a b g <->
     Config.api_key a = "" \/ Config.api_secret a = ""
     \/ Config.api_key b = "" \/ Config.api_secret b = ""
     \/ Config.end_price g <= Config.start_price g
     \/ Config.total_amount_quote g <= 0
     \/ (Config.max_open_orders g <= 0)%Z)
  /\ (~ Config.rejects a b g -> Config.validate_config a b g = Config.Returns true).
Proof.
  unfold Config.rejects, Config.validate_config, Config.is_empty, Dec.geb.
  destruct (String.eqb_spec (Config.api_key a) "") as [Ha1|Ha1];
  destruct (String.eqb_spec (Config.api_secret a) "") as [Ha2|Ha2];
  destruct (String.eqb_spec (Config.api_key b) "") as [Hb1|Hb1];
  destruct (String.eqb_spec (Config.api_secret b) "") as [Hb2|Hb2];
  simpl; try (split; [split; [tauto | eauto] | intros H; exfalso; apply H; eauto]).
  destruct (Dec.leb (Config.end_price g) (Config.start_price g)) eqn:E1.
  { apply DecFacts.leb_le in E1.
    split; [split; [tauto | eauto] | intros H; exfalso; apply H; eauto]. }
  apply DecFacts.leb_gt in E1.
  destruct (Dec.leb (Config.total_amount_quote g) 0) eqn:E2.
  { apply DecFacts.leb_le in E2.
    split; [split; [tauto | eauto] | intros H; exfalso; apply H; eauto]. }
  apply DecFacts.leb_gt in E2.
  destruct (Z.leb_spec (Config.max_open_orders g) 0) as [E3|E3].
  { split; [split; [tauto | eauto] | intros H; exfalso; apply H; eauto]. }
  split; [|reflexivity].
  split.
  - intros [msg Hmsg]. discriminate.
  - intros [H|[H|[H|[H|[H|[H|H]]]]]]; try contradiction; try lra; lia.
Qed.

(** C9 as stated fails: a configuration that is valid but for a zero, or a
    negative, take-profit passes validation. *)
Lemma nonpositive_take_profit_is_accepted :
  let a := {| Config.api_key := "key-a"; Config.api_secret := "secret-a" |} in
  let b := {| Config.api_key := "key-b"; Config.api_secret := "secret-b" |} in
  let grid tp :=
    {| Config.start_price := 0.248; Config.end_price := 0.280;
       Config.total_amount_quote := 1000; Config.max_open_orders := 5;
       Config.min_spread_between_orders := 0.0005;
       Config.min_order_amount_quote := 5; Config.order_frequency := 0;
       Config.activation_bounds := None; Config.safe_extra_spread := 0.0001;
       Config.take_profit_pct := tp |} in
  Config.take_profit_pct (grid 0) <= 0
  /\ Config.validate_config a b (grid 0) = Config.Returns true
  /\ Config.take_profit_pct (grid (-0.01)) <= 0
  /\ Config.validate_config a b (grid (-0.01)) = Config.Returns true.
Proof.
  cbv zeta. repeat split; try reflexivity; simpl; lra.
Qed.

(** ** Connector: quantization and the minimum tests of [place_order] *)

Module ConnectorFacts.
Import BinanceConnector.






Lemma clamp_amount_large rules q :
  min_order_size rules <= q -> clamp_amount rules q = q.
Proof.
  intros H. unfold clamp_amount.
  apply DecFacts.ltb_ge in H. rewrite H. reflexivity.
Qed.

End ConnectorFacts.



(** The same on a run: the request for 19.7 under a minimum size of 20
    carries 20, and the request for 0.4 is never built. *)
Example small_amounts_on_the_mock_venue :
  let rules20 := {| min_price_increment := 0.00001; min_base_amount_increment := 1;
                    min_notional_size := 5; min_order_size := 20 |} in
  let candidate a := {| OrderCandidate.order_type := LIMIT; OrderCandidate.order_side := BUY;
                        OrderCandidate.amount := a; OrderCandidate.price := Some 0.264;
                        OrderCandidate.position_action := OPEN |} in
  let w := MockVenue.start 0.264 Scenario.epoch in
  option_map req_amount
    (fst (BinanceConnector.prepare_order MockVenue.venue rules20 (candidate 19.7) w))
  = Some 20
  /\ fst (BinanceConnector.prepare_order MockVenue.venue Scenario.rules (candidate 0.4) w)
     = None.
Proof.
  cbv zeta. split; vm_compute; reflexivity.
Qed.

(** ** Counting the levels in [OPEN_ORDER_PLACED] *)

Module CountFacts.
Import GridExecutor Rel.


Lemma count_nonneg levels : (0 <= count_open_placed levels)%Z.
Proof. unfold count_open_placed. lia. Qed.










End CountFacts.

(** ** Relations kept by the steps of the executor *)

Module StepFacts.
Import GridExecutor Rel.

Section Preserves.
Context {W : Type} (V : Venue W).
Variable R : t -> t -> Prop.
Hypothesis R_refl : forall ex, R ex ex.
Hypothesis R_trans : forall a b c, R a b -> R b c -> R a c.

Lemma preserves_ret {A} (a : A) : preserves (W := W) R (Exc.ret a).
Proof. intros s. apply R_refl. Qed.

Lemma preserves_raise {A} : preserves (W := W) R (@Exc.raise _ A).
Proof. intros s. apply R_refl. Qed.

Lemma preserves_of_option {A} (o : option A) : preserves (W := W) R (Exc.of_option o).
Proof. destruct o; [apply preserves_ret | apply preserves_raise]. Qed.

Lemma preserves_get : preserves (W := W) R Exc.get.
Proof. intros s. apply R_refl. Qed.

Lemma preserves_ex_gets {A} (f : t -> A) : preserves (W := W) R (ex_gets f).
Proof. intros s. apply R_refl. Qed.

Lemma preserves_venue {A} (f : W -> A * W) : preserves (W := W) R (venue f).
Proof. intros s. unfold venue. destruct (f (snd s)). apply R_refl. Qed.

Lemma preserves_ex_modify f :
  (forall ex, R ex (f ex)) -> preserves (W := W) R (ex_modify f).
Proof. intros H s. apply H. Qed.

Lemma preserves_bind {A B} (m : Exc.M St A) (f : A -> Exc.M St B) :
  preserves (W := W) R m -> (forall a, preserves (W := W) R (f a)) -> preserves (W := W) R (Exc.bind m f).
Proof.
  intros Hm Hf s. unfold Exc.bind. specialize (Hm s).
  destruct (m s) as [[a|] s1]; simpl in *; [|exact Hm].
  eapply R_trans; [exact Hm | apply Hf].
Qed.

Lemma preserves_try {A} (m h : Exc.M St A) :
  preserves (W := W) R m -> preserves (W := W) R h -> preserves (W := W) R (Exc.try_except m h).
Proof.
  intros Hm Hh s. unfold Exc.try_except. specialize (Hm s).
  destruct (m s) as [[a|] s1]; simpl in *; [exact Hm|].
  eapply R_trans; [exact Hm | apply Hh].
Qed.

Lemma preserves_for_each {A} (l : list A) (body : A -> Exc.M St unit) :
  (forall x, preserves (W := W) R (body x)) -> preserves (W := W) R (Exc.for_each l body).
Proof.
  intros Hb. induction l as [|x l IH]; simpl.
  - apply preserves_ret.
  - apply preserves_bind; [apply Hb | intros _; exact IH].
Qed.

Lemma preserves_filter_map_m {A B} (l : list A) (body : A -> Exc.M St (option B)) :
  (forall x, preserves (W := W) R (body x)) -> preserves (W := W) R (Exc.filter_map_m l body).
Proof.
  intros Hb. induction l as [|x l IH]; simpl.
  - apply preserves_ret.
  - apply preserves_bind; [apply Hb | intros r].
    apply preserves_bind; [exact IH | intros rs]. apply preserves_ret.
Qed.

Lemma preserves_mid_price : preserves (W := W) R (mid_price V).
Proof.
  unfold mid_price. apply preserves_bind; [apply preserves_venue | intros p].
  apply preserves_of_option.
Qed.

End Preserves.

(** One step of the decomposition of a computation into the pieces above. *)
Ltac preserves_step :=
  first
    [ apply preserves_ret; assumption
    | apply preserves_raise; assumption
    | apply preserves_of_option; assumption
    | apply preserves_get; assumption
    | apply preserves_ex_gets; assumption
    | apply preserves_venue; assumption
    | apply preserves_mid_price; assumption
    | apply preserves_bind; [assumption | | intros ?]
    | apply preserves_try; [assumption | | ]
    | apply preserves_for_each; [assumption | assumption | intros ?]
    | apply preserves_filter_map_m; [assumption | assumption | intros ?]
    | match goal with
      | |- preserves _ (match ?x with _ => _ end) => destruct x
      | |- preserves _ (let '(_, _) := ?x in _) => destruct x
      end ].

Section Decide.
Context {W : Type} (V : Venue W).
Variable R : t -> t -> Prop.
Hypothesis R_refl : forall ex, R ex ex.
Hypothesis R_trans : forall a b c, R a b -> R b c -> R a c.

(** The four decisions of a tick only read the executor. *)
Lemma preserves_get_open_orders_to_create :
  preserves R (get_open_orders_to_create V).
Proof.
  unfold get_open_orders_to_create, _filter_levels_by_activation_bounds,
    _sort_levels_by_proximity.
  repeat preserves_step.
Qed.

Lemma preserves_get_close_orders_to_create :
  preserves R (get_close_orders_to_create V).
Proof.
  unfold get_close_orders_to_create, distance_to_mid.
  repeat preserves_step.
Qed.

Lemma preserves_order_ids_to_cancel st sl :
  preserves R (order_ids_to_cancel V st sl).
Proof.
  unfold order_ids_to_cancel, distance_to_mid.
  repeat preserves_step.
Qed.

End Decide.
End StepFacts.

(** ** The cap on open orders *)

Module CapFacts.
Import GridExecutor Rel CountFacts StepFacts.






Section WithVenue.
Context {W : Type} (V : Venue W).













Lemma reads_venue {A} (f : W -> A * W) : reads (W := W) (venue f).
Proof. intros s. unfold venue. destruct (f (snd s)). reflexivity. Qed.





End WithVenue.
End CapFacts.

(** ** Re-derivation of the level states *)

Module RefreshFacts.
Import GridExecutor.

Lemma complete1_idem level : complete1 (complete1 level) = complete1 level.
Proof.
  unfold complete1.
  destruct (GridLevel.active_open_order level) as [o|] eqn:Ho;
    [|now rewrite Ho].
  destruct (GridLevel.active_close_order level) as [c|] eqn:Hc;
    [|now rewrite Ho, Hc].
  destruct (TrackedOrder.is_filled o && TrackedOrder.is_filled c) eqn:E.
  - reflexivity.
  - now rewrite Ho, Hc, E.
Qed.

Lemma alter_at {A} (f g : A -> A) i (ls : list A) x :
  ls !! i = Some x -> f x = g x -> alter f i ls = alter g i ls.
Proof.
  intros Hx Hfg. apply list_eq. intros j. destruct (decide (i = j)) as [->|Hne].
  - rewrite !list_lookup_alter_eq, Hx. simpl. now rewrite Hfg.
  - now rewrite !list_lookup_alter_ne.
Qed.

Lemma alter_id_at {A} (f : A -> A) i (ls : list A) :
  (forall x, ls !! i = Some x -> f x = x) -> alter f i ls = ls.
Proof.
  intros Hx. apply list_eq. intros j. destruct (decide (i = j)) as [->|Hne].
  - rewrite list_lookup_alter_eq. destruct (ls !! j) as [x|] eqn:E; [|reflexivity].
    simpl. now rewrite (Hx x).
  - now rewrite list_lookup_alter_ne.
Qed.

Lemma complete_level_levels ex i :
  grid_levels (complete_level ex i) = alter complete1 i (grid_levels ex).
Proof.
  unfold complete_level.
  destruct (grid_levels ex !! i) as [level|] eqn:Hl.
  - destruct (GridLevel.active_open_order level) as [o|] eqn:Ho.
    + destruct (GridLevel.active_close_order level) as [c|] eqn:Hc.
      * destruct (TrackedOrder.is_filled o && TrackedOrder.is_filled c) eqn:E.
        -- simpl. apply (alter_at _ _ _ _ level Hl).
           unfold complete1. now rewrite Ho, Hc, E.
        -- symmetry. apply alter_id_at. intros x Hx.
           assert (x = level) by congruence. subst x.
           unfold complete1. now rewrite Ho, Hc, E.
      * symmetry. apply alter_id_at. intros x Hx.
        assert (x = level) by congruence. subst x.
        unfold complete1. now rewrite Ho, Hc.
    + symmetry. apply alter_id_at. intros x Hx.
      assert (x = level) by congruence. subst x.
      unfold complete1. now rewrite Ho.
  - symmetry. apply alter_id_at. intros x Hx. congruence.
Qed.

Lemma complete_level_config ex i : config (complete_level ex i) = config ex.
Proof.
  unfold complete_level.
  repeat match goal with
    | |- context [match ?x with _ => _ end] => destruct x
    end; reflexivity.
Qed.

Lemma fold_complete_levels idxs ex :
  grid_levels (fold_left complete_level idxs ex)
  = fold_left (fun ls i => alter complete1 i ls) idxs (grid_levels ex).
Proof.
  revert ex. induction idxs as [|i idxs IH]; intros ex; simpl.
  - reflexivity.
  - rewrite IH, complete_level_levels. reflexivity.
Qed.

Lemma fold_complete_config idxs ex :
  config (fold_left complete_level idxs ex) = config ex.
Proof.
  revert ex. induction idxs as [|i idxs IH]; intros ex; simpl.
  - reflexivity.
  - rewrite IH. apply complete_level_config.
Qed.

(** The levels listed are completed, the others are left alone. *)
Lemma fold_alter_complete1_lookup idxs (ls : list GridLevel.t) j :
  fold_left (fun ls i => alter complete1 i ls) idxs ls !! j
  = if decide (j ∈ idxs) then complete1 <$> ls !! j else ls !! j.
Proof.
  revert ls. induction idxs as [|i idxs IH]; intros ls; cbn [fold_left].
  - destruct (decide (j ∈ [])) as [H|H]; [|reflexivity].
    apply elem_of_nil in H. contradiction.
  - rewrite IH.
    destruct (decide (i = j)) as [->|Hne].
    + rewrite list_lookup_alter_eq.
      destruct (decide (j ∈ j :: idxs)) as [_|Hn]; [|exfalso; apply Hn; left].
      destruct (decide (j ∈ idxs)); [|reflexivity].
      destruct (ls !! j); simpl; [|reflexivity].
      now rewrite complete1_idem.
    + rewrite list_lookup_alter_ne by exact Hne.
      destruct (decide (j ∈ idxs)) as [Hin|Hnin];
        destruct (decide (j ∈ i :: idxs)) as [Hin'|Hnin']; try reflexivity.
      * exfalso. apply Hnin'. now right.
      * exfalso. apply elem_of_cons in Hin'.
        destruct Hin'; [congruence | contradiction].
Qed.

Section WithVenue.
Context {W : Type} (V : Venue W).

(** The first loop of [update_grid_levels]: every level leaves it with the
    state of the table, and is filed under that state. *)
Lemma refresh_levels_spec levels : forall i buckets w levels' buckets' w',
  refresh_levels V i levels buckets w = (levels', buckets', w') ->
  length levels' = length levels
  /\ (forall k level, levels' !! k = Some level -> Spec.state_matches_slots level)
  /\ (forall st j, j ∈ buckets' st <->
        j ∈ buckets st
        \/ exists k level, j = (i + k)%nat /\ levels' !! k = Some level
                           /\ GridLevel.state level = st).
Proof.
  induction levels as [|level rest IH]; intros i buckets w levels' buckets' w' H; simpl in H.
  - inversion H; subst. split; [reflexivity|]. split.
    + intros k level Hk. rewrite lookup_nil in Hk. discriminate.
    + intros st j. split; [auto|]. intros [Hj|[k [level [_ [Hk _]]]]]; [exact Hj|].
      rewrite lookup_nil in Hk. discriminate.
  - destruct (poll_slot V OpenSlot level w) as [level1 w1].
    destruct (poll_slot V CloseSlot level1 w1) as [level2 w2].
    destruct (refresh_levels V (S i) rest
                (bucket_append (GridLevel.state (GridLevel.update_state level2)) i buckets) w2)
      as [[rest' buckets2] w3] eqn:Hrest.
    inversion H; subst; clear H.
    destruct (IH _ _ _ _ _ _ Hrest) as [Hlen [Hst Hb]].
    split; [simpl; now rewrite Hlen|]. split.
    + intros [|k] lv Hk; simpl in Hk.
      * inversion Hk; subst. unfold Spec.state_matches_slots.
        destruct (LevelFacts.update_state_slots level2) as [-> ->].
        apply LevelFacts.update_state_table.
      * eapply Hst; eassumption.
    + intros st j. rewrite Hb. unfold bucket_append.
      split.
      * intros [Hj|[k [lv [-> [Hk Hs]]]]].
        -- destruct (GridLevelStates_eqb st (GridLevel.state (GridLevel.update_state level2))) eqn:E.
           ++ apply elem_of_app in Hj. destruct Hj as [Hj|Hj]; [now left|].
              apply list_elem_of_singleton in Hj. subst j. right.
              exists 0%nat, (GridLevel.update_state level2).
              apply GridLevelStates_eqb_eq in E.
              split; [lia|]. split; [reflexivity | now symmetry].
           ++ now left.
        -- right. exists (S k), lv. split; [lia|]. split; [exact Hk | exact Hs].
      * intros [Hj|[k [lv [-> [Hk Hs]]]]].
        -- left. destruct (GridLevelStates_eqb st _); [apply elem_of_app; now left | exact Hj].
        -- destruct k as [|k]; simpl in Hk.
           ++ inversion Hk; subst. left. rewrite GridLevelStates_eqb_refl.
              apply elem_of_app. right. apply list_elem_of_singleton. lia.
           ++ right. exists k, lv. split; [lia|]. split; assumption.
Qed.

Lemma update_grid_levels_settles ex w :
  fst (update_grid_levels V (ex, w)) = Some tt
  /\ config (fst (snd (update_grid_levels V (ex, w)))) = config ex
  /\ grid_levels (fst (snd (update_grid_levels V (ex, w))))
     = map settle (fst (fst (refresh_levels V 0 (grid_levels ex) empty_buckets w))).
Proof.
  unfold update_grid_levels.
  destruct (refresh_levels V 0 (grid_levels ex) empty_buckets w)
    as [[polled buckets] w'] eqn:Hr.
  destruct (refresh_levels_spec _ _ _ _ _ _ _ Hr) as [Hlen [Hst Hb]].
  unfold _handle_failed_orders, ex_modify. simpl.
  split; [reflexivity|]. split; [now rewrite fold_complete_config|].
  rewrite fold_complete_levels. simpl.
  apply list_eq. intros j.
  rewrite !list_lookup_fmap, fold_alter_complete1_lookup.
  destruct (polled !! j) as [level|] eqn:Hj; simpl.
  - unfold settle.
    destruct (decide (j ∈ buckets COMPLETE)) as [Hin|Hnin].
    + apply Hb in Hin. destruct Hin as [Hin|[k [lv [-> [Hk Hs]]]]].
      * apply elem_of_nil in Hin. contradiction.
      * simpl in Hj. rewrite Hj in Hk. inversion Hk; subst lv.
        rewrite Hs. reflexivity.
    + destruct (GridLevelStates_eqb (GridLevel.state level) COMPLETE) eqn:E;
        [|reflexivity].
      exfalso. apply Hnin, Hb. right. exists j, level.
      apply GridLevelStates_eqb_eq in E. auto.
  - destruct (decide (j ∈ buckets COMPLETE)); reflexivity.
Qed.

End WithVenue.


End RefreshFacts.

(** ** A whole control tick *)

Module TickFacts.
Import GridExecutor Rel CountFacts StepFacts CapFacts RefreshFacts.

Section WithVenue.
Context {W : Type} (V : Venue W).

Lemma update_all_order_status_returns s :
  fst (update_all_order_status V s) = Some tt
  /\ config (fst (snd (update_all_order_status V s))) = config (fst s).
Proof.
  destruct s as [ex w].
  unfold update_all_order_status, Exc.bind, ex_gets, ex_modify, venue, Exc.ret. simpl.
  destruct (collect_active 0 (grid_levels ex) ([], [])) as [[|order_id order_ids] order_map];
    simpl; [split; reflexivity|].
  destruct (BinanceConnector.get_multiple_order_status V (order_id :: order_ids) w).
  simpl. split; reflexivity.
Qed.

Lemma update_basic_metrics_returns s :
  fst (update_basic_metrics V s) = Some tt
  /\ config (fst (snd (update_basic_metrics V s))) = config (fst s)
  /\ grid_levels (fst (snd (update_basic_metrics V s))) = grid_levels (fst s).
Proof.
  destruct s as [ex w].
  unfold update_basic_metrics, Exc.bind, ex_gets, ex_modify, venue. simpl.
  destruct (get_positions V w) as [p w']. simpl. repeat split; reflexivity.
Qed.

(** Steps 1 to 3 of a tick never raise and keep the configuration. *)
Lemma refresh_returns s :
  fst (refresh V s) = Some tt
  /\ config (fst (snd (refresh V s))) = config (fst s).
Proof.
  unfold refresh, Exc.bind.
  destruct (update_all_order_status_returns s) as [H1 C1].
  destruct (update_all_order_status V s) as [r1 s1]. simpl in H1, C1. subst r1.
  destruct s1 as [ex1 w1].
  destruct (update_grid_levels_settles V ex1 w1) as [H2 [C2 _]].
  destruct (update_grid_levels V (ex1, w1)) as [r2 s2]. simpl in H2, C2. subst r2.
  destruct (update_basic_metrics_returns s2) as [H3 [C3 _]].
  destruct (update_basic_metrics V s2) as [r3 s3]. simpl in *. subst r3.
  split; [reflexivity | congruence].
Qed.




End WithVenue.
End TickFacts.

(** ** The claims on the level states and on the cap *)



(** The run of the rate-throttle setting: five open orders after the first
    tick, four while the filled level waits, five again after second 30. *)
Example open_placed_counts_of_the_run :
  option_map (Scenario.open_placed_counts Scenario.first_order_fills 31 0)
             (Scenario.started 1000 30 None)
  = Some (5 :: repeat 4 29 ++ [5])%Z.
Proof. vm_compute. reflexivity. Qed.

(** ** Cancels *)

Module CancelFacts.
Import GridExecutor.

(** The search loop resets the first level that holds the order and leaves
    every other level as it is. *)
Lemma reset_cancelled_first order_id before level after :
  forallb (fun l => negb (holds order_id l)) before = true ->
  holds order_id level = true ->
  reset_cancelled order_id (before ++ level :: after)
  = (before ++ reset_holder order_id level :: after)%list.
Proof.
  intros Hb Hl. induction before as [|l before IH]; simpl in *.
  - unfold holds, holds_in, reset_holder, holds_in in *. simpl in *.
    destruct (GridLevel.active_open_order level) as [o|].
    + destruct (BinanceConnector.id_eqb (TrackedOrder.order_id o) order_id);
        [reflexivity|].
      simpl in Hl.
      destruct (GridLevel.active_close_order level) as [c|]; [|discriminate].
      rewrite Hl. reflexivity.
    + simpl in Hl.
      destruct (GridLevel.active_close_order level) as [c|]; [|discriminate].
      rewrite Hl. reflexivity.
  - apply andb_true_iff in Hb. destruct Hb as [Hl0 Hb].
    rewrite (IH Hb). clear IH.
    unfold holds, holds_in in Hl0. simpl in Hl0.
    apply negb_true_iff, orb_false_iff in Hl0. destruct Hl0 as [Ho Hc].
    destruct (GridLevel.active_open_order l) as [o|];
      destruct (GridLevel.active_close_order l) as [c|];
      rewrite ?Ho, ?Hc; reflexivity.
Qed.

(** Without a level that holds the order, nothing is reset. *)
Lemma reset_cancelled_none order_id levels :
  forallb (fun l => negb (holds order_id l)) levels = true ->
  reset_cancelled order_id levels = levels.
Proof.
  intros Hb. induction levels as [|l levels IH]; simpl in *; [reflexivity|].
  apply andb_true_iff in Hb. destruct Hb as [Hl0 Hb].
  rewrite (IH Hb).
  unfold holds, holds_in in Hl0. simpl in Hl0.
  apply negb_true_iff, orb_false_iff in Hl0. destruct Hl0 as [Ho Hc].
  destruct (GridLevel.active_open_order l) as [o|];
    destruct (GridLevel.active_close_order l) as [c|];
    rewrite ?Ho, ?Hc; reflexivity.
Qed.

End CancelFacts.

(** C7, as the code has it.  [cancel_order] never raises.  When the venue
    refuses the cancel, the executor is left as it was.  When the venue
    accepts it, the first level that holds the order is reset within the
    same call, before any refresh: its open slot is emptied and its state
    set to [NOT_ACTIVE], or its close slot is emptied and its state set to
    [OPEN_ORDER_FILLED]. *)
Theorem cancel_order_clears_the_slot_at_once {W} (V : Venue W) order_id ex w :
  GridExecutor.cancel_order V order_id (ex, w)
  = (Some tt,
     (if fst (exchange_cancel_order V order_id w)
      then GridExecutor.set_grid_levels (GridExecutor.reset_cancelled order_id) ex
      else ex,
      snd (exchange_cancel_order V order_id w)))
  /\ (forall before level after,
        GridExecutor.grid_levels ex = (before ++ level :: after)%list ->
        forallb (fun l => negb (GridExecutor.holds order_id l)) before = true ->
        GridExecutor.holds order_id level = true ->
        GridExecutor.reset_cancelled order_id (GridExecutor.grid_levels ex)
        = (before ++ GridExecutor.reset_holder order_id level :: after)%list
        /\ (GridExecutor.holds_in GridExecutor.OpenSlot order_id level = true ->
            GridLevel.active_open_order (GridExecutor.reset_holder order_id level) = None
            /\ GridLevel.state (GridExecutor.reset_holder order_id level) = NOT_ACTIVE)
        /\ (GridExecutor.holds_in GridExecutor.OpenSlot order_id level = false ->
            GridLevel.active_close_order (GridExecutor.reset_holder order_id level) = None
            /\ GridLevel.state (GridExecutor.reset_holder order_id level)
               = OPEN_ORDER_FILLED)).
Proof.
  split.
  - unfold GridExecutor.cancel_order, Exc.bind, GridExecutor.venue,
      BinanceConnector.cancel_order, GridExecutor.ex_modify, Exc.ret. simpl.
    destruct (exchange_cancel_order V order_id w) as [[|] w']; reflexivity.
  - intros before level after Hl Hb Hh. rewrite Hl.
    split; [apply CancelFacts.reset_cancelled_first; assumption|].
    unfold GridExecutor.reset_holder.
    split; intros Ho; rewrite Ho; split; reflexivity.
Qed.

(** C7 as stated fails.  In the end-to-end setting the first tick places
    five open orders; cancelling order 1 right away, which the venue
    accepts, empties the open slot of its level in that same call. *)
Lemma cancel_clears_the_open_slot :
  let after_tick := option_map Scenario.tick (Scenario.started 1000 0 None) in
  let after_cancel :=
    option_map (fun s => snd (GridExecutor.cancel_order MockVenue.venue (Some "1") s))
               after_tick in
  option_map (fun s => GridExecutor.open_order_ids (GridExecutor.grid_levels (fst s)))
             after_tick
  = Some [Some "4"; Some "2"; Some "1"; Some "3"; Some "5"]
  /\ option_map (fun s => GridExecutor.open_order_ids (GridExecutor.grid_levels (fst s)))
                after_cancel
     = Some [Some "4"; Some "2"; Some "3"; Some "5"]
  /\ option_map (fun s => GridExecutor.count_open_placed (GridExecutor.grid_levels (fst s)))
                after_cancel
     = Some 4%Z.
Proof.
  cbv zeta. repeat split; vm_compute; reflexivity.
Qed.

(** ** Activation bounds *)

Module ActivationFacts.
Import GridExecutor.

(** The test of a LONG grid is the lower bound alone, the test of a SHORT
    grid the upper bound alone. *)
Lemma within_activation_bounds_iff sd mid bounds level :
  within_activation_bounds sd mid bounds level = true <->
  match sd with
  | BUY => mid * (1 - bounds) <= GridLevel.price level
  | SELL => GridLevel.price level <= mid * (1 + bounds)
  end.
Proof.
  unfold within_activation_bounds, Dec.geb. destruct sd; apply DecFacts.leb_le.
Qed.

(** A price inside the symmetric window passes either one-sided test. *)
Lemma activation_test_within sd mid bounds level :
  0 < mid ->
  Spec.activation_test (GridLevel.price level) mid bounds ->
  within_activation_bounds sd mid bounds level = true.
Proof.
  unfold Spec.activation_test. intros Hmid Ht.
  assert (Ha : Qabs (GridLevel.price level - mid) <= bounds * mid).
  { assert (He : Qabs (GridLevel.price level - mid)
                 == Qabs (GridLevel.price level - mid) / mid * mid)
      by (field; lra).
    rewrite He. apply Qmult_le_compat_r; [exact Ht | lra]. }
  apply Qabs_Qle_condition in Ha. destruct Ha as [Hlo Hhi].
  apply within_activation_bounds_iff. destruct sd; lra.
Qed.

End ActivationFacts.

(** C6, as the code has it.  Unset bounds, and bounds of zero, which the
    condition on [activation_bounds] treats alike, let every [NOT_ACTIVE]
    level through.  With other bounds a [NOT_ACTIVE] level is let through
    iff its price is at least [mid * (1 - bounds)] on a LONG grid, at most
    [mid * (1 + bounds)] on a SHORT grid: one side of the symmetric window,
    which (for a positive mid price) contains that window. *)
Theorem activation_filter_is_one_sided {W} (V : Venue W) ex w :
  (GridExecutor.active_bounds ex = None <->
     GridExecutorConfig.activation_bounds (GridExecutor.config ex) = None
     \/ exists b, GridExecutorConfig.activation_bounds (GridExecutor.config ex) = Some b
                  /\ b == 0)
  /\ (GridExecutor.active_bounds ex = None ->
      GridExecutor._filter_levels_by_activation_bounds V (ex, w)
      = (Some (GridExecutor.levels_by_state ex NOT_ACTIVE), (ex, w)))
  /\ (forall bounds mid w',
        GridExecutor.active_bounds ex = Some bounds ->
        get_mid_price V w = (Some mid, w') ->
        exists allowed,
          GridExecutor._filter_levels_by_activation_bounds V (ex, w)
          = (Some allowed, (ex, w'))
          /\ forall i,
               In i allowed <->
               In i (GridExecutor.levels_by_state ex NOT_ACTIVE)
               /\ exists level,
                    GridExecutor.grid_levels ex !! i = Some level
                    /\ match GridExecutorConfig.side (GridExecutor.config ex) with
                       | BUY => mid * (1 - bounds) <= GridLevel.price level
                       | SELL => GridLevel.price level <= mid * (1 + bounds)
                       end)
  /\ (forall sd mid bounds level,
        0 < mid ->
        Spec.activation_test (GridLevel.price level) mid bounds ->
        GridExecutor.within_activation_bounds sd mid bounds level = true).
Proof.
  split; [|split; [|split]].
  - unfold GridExecutor.active_bounds.
    destruct (GridExecutorConfig.activation_bounds (GridExecutor.config ex)) as [b|].
    + destruct (Dec.is_zero b) eqn:E.
      * apply DecFacts.is_zero_true in E. split; [|reflexivity].
        intros _. right. exists b. split; [reflexivity | exact E].
      * apply DecFacts.is_zero_false in E. split; [discriminate|].
        intros [H|[b' [H Hz]]]; [discriminate|].
        inversion H; subst b'. contradiction.
    + split; [intros _; now left | reflexivity].
  - intros Hn. unfold GridExecutor._filter_levels_by_activation_bounds, Exc.bind, Exc.get.
    simpl. rewrite Hn. reflexivity.
  - intros bounds mid w' Hb Hm.
    unfold GridExecutor._filter_levels_by_activation_bounds, Exc.bind, Exc.get,
      GridExecutor.mid_price, GridExecutor.venue, Exc.of_option, Exc.ret.
    simpl. rewrite Hb. unfold Exc.bind. simpl. rewrite Hm. simpl.
    eexists. split; [reflexivity|].
    intros i. rewrite filter_In. split.
    + intros [Hin Hw]. split; [exact Hin|].
      destruct (GridExecutor.grid_levels ex !! i) as [level|]; [|discriminate].
      exists level. split; [reflexivity|].
      apply ActivationFacts.within_activation_bounds_iff in Hw. exact Hw.
    + intros [Hin [level [Hl Hw]]]. split; [exact Hin|].
      rewrite Hl. apply ActivationFacts.within_activation_bounds_iff. exact Hw.
  - intros sd mid bounds level. apply ActivationFacts.activation_test_within.
Qed.

(** C6 as stated fails on both counts, in the end-to-end setting (LONG
    grid, mid 0.264).  With bounds of 0.01 the top level of the ladder, at
    0.280, is let through although it is 6% away from the mid price; with
    bounds of 0 all 189 levels are let through, the bottom one at 0.248
    included. *)
Lemma far_levels_are_eligible :
  option_map (Qeq_bool 0.280) (Scenario.price_at 188) = Some true
  /\ option_map (existsb (Nat.eqb 188)) (Scenario.eligible (Some 0.01)) = Some true
  /\ ~ Spec.activation_test 0.280 Scenario.mid_price 0.01
  /\ option_map (Qeq_bool 0.248) (Scenario.price_at 0) = Some true
  /\ option_map (@length nat) (Scenario.eligible (Some 0)) = Some 189%nat
  /\ option_map (existsb (Nat.eqb 0)) (Scenario.eligible (Some 0)) = Some true
  /\ ~ Spec.activation_test 0.248 Scenario.mid_price 0.
Proof.
  repeat split; try (vm_compute; reflexivity);
    unfold Spec.activation_test; vm_compute; intros H; apply H; reflexivity.
Qed.

(** ** The rate test on open orders *)

Module ThrottleFacts.
Import GridExecutor Rel StepFacts CapFacts.

Lemma no_new_open_order_refl ex : no_new_open_order ex ex.
Proof. intros i level' o Hl Ho. exists level'. split; assumption. Qed.

Lemma no_new_open_order_trans a b c :
  no_new_open_order a b -> no_new_open_order b c -> no_new_open_order a c.
Proof.
  intros Hab Hbc i level' o Hl Ho.
  destruct (Hbc i level' o Hl Ho) as [level [Hl1 Ho1]].
  apply (Hab i level o Hl1 Ho1).
Qed.

Lemma alter_no_new_open_order f i ex :
  keeps_or_clears_open f ->
  no_new_open_order ex (set_grid_levels (alter f i) ex).
Proof.
  intros Hf j level' o Hl Ho. simpl in Hl.
  destruct (decide (i = j)) as [->|Hne].
  - rewrite list_lookup_alter_eq in Hl.
    destruct (grid_levels ex !! j) as [level|] eqn:E; [|discriminate].
    simpl in Hl. inversion Hl; subst level'.
    exists level. split; [reflexivity|].
    destruct (Hf level) as [H|H]; congruence.
  - rewrite list_lookup_alter_ne in Hl by exact Hne.
    exists level'. split; assumption.
Qed.

Lemma reset_cancelled_lookup order_id levels i level' :
  reset_cancelled order_id levels !! i = Some level' ->
  exists level, levels !! i = Some level
    /\ (GridLevel.active_open_order level' = None
        \/ GridLevel.active_open_order level' = GridLevel.active_open_order level).
Proof.
  revert i. induction levels as [|l levels IH]; intros i H; simpl in H.
  - rewrite lookup_nil in H. discriminate.
  - assert (Hcases :
      reset_cancelled order_id (l :: levels) = GridLevel.reset_open_order l :: levels
      \/ reset_cancelled order_id (l :: levels) = GridLevel.reset_close_order l :: levels
      \/ reset_cancelled order_id (l :: levels) = l :: reset_cancelled order_id levels).
    { simpl.
      repeat match goal with
        | |- context [match ?x with _ => _ end] => destruct x
        end; auto. }
    simpl in Hcases.
    destruct Hcases as [E|[E|E]]; rewrite E in H; clear E;
      destruct i as [|i]; simpl in *.
    + injection H as <-. exists l. split; [reflexivity | now left].
    + exists level'. split; [exact H | now right].
    + injection H as <-. exists l. split; [reflexivity | now right].
    + exists level'. split; [exact H | now right].
    + injection H as <-. exists l. split; [reflexivity | now right].
    + apply IH. exact H.
Qed.

Section WithVenue.
Context {W : Type} (V : Venue W).

Lemma no_new_open_cancel_order order_id :
  preserves no_new_open_order (cancel_order V order_id).
Proof.
  unfold cancel_order.
  apply preserves_bind;
    [apply no_new_open_order_trans
    | apply preserves_venue, no_new_open_order_refl | intros [|]].
  - apply preserves_ex_modify. intros ex i level' o Hl Ho. simpl in Hl.
    destruct (reset_cancelled_lookup _ _ _ _ Hl) as [level [Hl0 [H|H]]];
      [congruence|].
    exists level. split; [exact Hl0 | congruence].
  - apply preserves_ret, no_new_open_order_refl.
Qed.

Lemma no_new_open_modify_level i f :
  keeps_or_clears_open f ->
  preserves (W := W) no_new_open_order (modify_level i f).
Proof.
  intros Hf. apply preserves_ex_modify. intros ex.
  apply alter_no_new_open_order, Hf.
Qed.

Lemma no_new_open_place c : preserves no_new_open_order (place V c).
Proof.
  unfold place.
  apply preserves_bind;
    [apply no_new_open_order_trans
    | apply preserves_ex_gets, no_new_open_order_refl | intros rules].
  apply preserves_venue, no_new_open_order_refl.
Qed.

Lemma keeps_open_set_close c : keeps_or_clears_open (GridLevel.set_close c).
Proof. intros l. now right. Qed.

Lemma keeps_open_close_placed c :
  keeps_or_clears_open (fun level =>
    GridLevel.set_state CLOSE_ORDER_PLACED (GridLevel.set_close c level)).
Proof. intros l. now right. Qed.

Ltac no_new_open_step :=
  first
    [ apply no_new_open_cancel_order
    | apply no_new_open_place
    | apply no_new_open_modify_level;
      first [apply keeps_open_set_close | apply keeps_open_close_placed]
    | preserves_step ].

Lemma no_new_open_adjust_and_place_close_order i :
  preserves no_new_open_order (adjust_and_place_close_order V i).
Proof.
  pose proof no_new_open_order_refl as Hr. pose proof no_new_open_order_trans as Ht.
  unfold adjust_and_place_close_order.
  repeat no_new_open_step.
Qed.

(** While the rate test holds, no level is proposed for an open order. *)
Lemma throttled_get_open_orders_to_create ex w :
  throttled ex (time V w) ->
  get_open_orders_to_create V (ex, w) = (Some [], (ex, w)).
Proof.
  unfold throttled. intros H.
  unfold get_open_orders_to_create, Exc.bind, Exc.get. simpl.
  apply DecFacts.ltb_lt in H. unfold Dec.gtb. rewrite H. reflexivity.
Qed.

(** The steps of a tick after the open placements set no open order. *)
Lemma no_new_open_after_placements to_close open_ids close_ids :
  preserves no_new_open_order
    (Exc.bind (Exc.for_each to_close (adjust_and_place_close_order V)) (fun _ =>
     Exc.bind (Exc.for_each open_ids (cancel_order V)) (fun _ =>
     Exc.for_each close_ids (cancel_order V)))).
Proof.
  pose proof no_new_open_order_refl as Hr. pose proof no_new_open_order_trans as Ht.
  apply preserves_bind; [exact Ht | | intros _].
  { apply preserves_for_each; [exact Hr | exact Ht | intros i].
    apply no_new_open_adjust_and_place_close_order. }
  apply preserves_bind; [exact Ht | | intros _].
  { apply preserves_for_each; [exact Hr | exact Ht | intros oid].
    apply no_new_open_cancel_order. }
  apply preserves_for_each; [exact Hr | exact Ht | intros oid].
  apply no_new_open_cancel_order.
Qed.

(** A throttled tick places no open order. *)
Lemma throttled_decide_and_act ex w :
  throttled ex (time V w) ->
  no_new_open_order ex (fst (snd (decide_and_act V (ex, w)))).
Proof.
  intros H. unfold decide_and_act.
  unfold Exc.bind at 1. rewrite (throttled_get_open_orders_to_create ex w H).
  pose proof no_new_open_order_refl as Hr. pose proof no_new_open_order_trans as Ht.
  change ex with (fst (ex, w)) at 1.
  generalize (ex, w). 
  change (preserves no_new_open_order
    (Exc.bind (get_close_orders_to_create V) (fun to_close =>
     Exc.bind (get_open_order_ids_to_cancel V) (fun open_ids =>
     Exc.bind (get_close_order_ids_to_cancel V) (fun close_ids =>
     Exc.bind (place_open_orders V []) (fun _ =>
     Exc.bind (Exc.for_each to_close (adjust_and_place_close_order V)) (fun _ =>
     Exc.bind (Exc.for_each open_ids (cancel_order V)) (fun _ =>
     Exc.for_each close_ids (cancel_order V))))))))).
  apply preserves_bind;
    [exact Ht | apply preserves_get_close_orders_to_create; assumption | intros to_close].
  apply preserves_bind;
    [exact Ht | apply preserves_order_ids_to_cancel; assumption | intros open_ids].
  apply preserves_bind;
    [exact Ht | apply preserves_order_ids_to_cancel; assumption | intros close_ids].
  apply preserves_bind; [exact Ht | apply preserves_ret, Hr | intros _].
  apply no_new_open_after_placements.
Qed.

(** Whatever the rate test says, a tick proposes at most as many levels as
    the cap leaves room for. *)
Lemma get_open_orders_to_create_length ex w to_create :
  fst (get_open_orders_to_create V (ex, w)) = Some to_create ->
  (Z.of_nat (length to_create)
   <= Z.max 0 (GridExecutorConfig.max_open_orders (config ex)
               - Z.of_nat (length (levels_by_state ex OPEN_ORDER_PLACED))))%Z.
Proof.
  unfold get_open_orders_to_create, Exc.bind, Exc.get. simpl.
  destruct (Dec.gtb _ _); simpl.
  { intros H. injection H as <-. simpl. lia. }
  destruct (Z.leb_spec (GridExecutorConfig.max_open_orders (config ex))
              (Z.of_nat (length (levels_by_state ex OPEN_ORDER_PLACED)))) as [Hfull|Hroom].
  { intros H. injection H as <-. simpl. lia. }
  destruct (_filter_levels_by_activation_bounds V (ex, w)) as [[allowed|] s1];
    [|discriminate].
  destruct (_sort_levels_by_proximity V allowed s1) as [[sorted|] s2];
    [|discriminate].
  simpl. intros H. injection H as <-.
  unfold slice_to.
  destruct (Z.leb_spec 0 (GridExecutorConfig.max_open_orders (config ex)
              - Z.of_nat (length (levels_by_state ex OPEN_ORDER_PLACED)))) as [Hk|Hk];
    [|lia].
  pose proof (firstn_le_length
                (Z.to_nat (GridExecutorConfig.max_open_orders (config ex)
                           - Z.of_nat (length (levels_by_state ex OPEN_ORDER_PLACED))))
                sorted) as Hlen.
  lia.
Qed.

End WithVenue.
End ThrottleFacts.

(** C5, as the code has it.  The rate test guards the batch of a tick, not
    each placement.  While the last open placement is less than
    [order_frequency] seconds old, a tick proposes no level and sets no open
    order; otherwise it proposes, and the loop places, up to as many levels
    as the cap leaves room for.  In the rate-throttle run (frequency 30, cap
    5, the first order filled right after the first tick) the tick at
    second 0 sends five open orders, the ticks at seconds 1 to 29 send none
    although one place is free, and the tick at second 30 sends one. *)
Theorem open_orders_are_throttled_by_batch {W} (V : Venue W) ex w :
  (GridExecutor.throttled ex (time V w) ->
     GridExecutor.get_open_orders_to_create V (ex, w) = (Some [], (ex, w))
     /\ Rel.no_new_open_order ex
          (fst (snd (GridExecutor.decide_and_act V (ex, w)))))
  /\ (forall to_create,
        fst (GridExecutor.get_open_orders_to_create V (ex, w)) = Some to_create ->
        (Z.of_nat (length to_create)
         <= Z.max 0 (GridExecutorConfig.max_open_orders (GridExecutor.config ex)
                     - Z.of_nat (length (GridExecutor.levels_by_state ex
                                           OPEN_ORDER_PLACED))))%Z)
  /\ option_map (Scenario.open_placements Scenario.first_order_fills 31 0)
                (Scenario.started 1000 30 None)
     = Some (5 :: repeat 0 29 ++ [1])%nat.
Proof.
  split; [|split].
  - intros H. split.
    + apply ThrottleFacts.throttled_get_open_orders_to_create. exact H.
    + apply ThrottleFacts.throttled_decide_and_act. exact H.
  - intros to_create. apply ThrottleFacts.get_open_orders_to_create_length.
  - vm_compute. reflexivity.
Qed.

(** C5 as stated fails: in the rate-throttle run the first tick sends five
    open orders, not one. *)
Lemma first_tick_places_a_whole_batch :
  option_map (Scenario.open_placements Scenario.first_order_fills 1 0)
             (Scenario.started 1000 30 None)
  = Some [5%nat]
  /\ 5%nat <> 1%nat.
Proof.
  split; [vm_compute; reflexivity | discriminate].
Qed.

(** ** The ladder builder *)

Module LadderFacts.
Import Ladder.




Lemma mul_div a b : ~ b == 0 -> a / b * b == a.
Proof. intros Hb. field. exact Hb. Qed.


Lemma div_mul_le z a b : 0 < b -> a / b <= z -> a <= z * b.
Proof.
  intros Hb H. rewrite <- (mul_div a b) at 1 by lra.
  apply Qmult_le_compat_r; [exact H | lra].
Qed.





Lemma inject_Z_nonneg k : (0 <= k)%Z -> 0 <= inject_Z k.
Proof.
  intros H. change 0 with (inject_Z 0). rewrite <- Zle_Qle. exact H.
Qed.

Section Sizing.
Variable config : GridExecutorConfig.t.
Variable rules : TradingRule.
Variable price : Q.
Hypothesis price_pos : 0 < price.
Hypothesis inc_pos : 0 < min_base_amount_increment rules.
Hypothesis notional_pos : 0 < min_notional_size rules.


Hypothesis tick_pos : 0 < min_price_increment rules.
Hypothesis start_pos : 0 < GridExecutorConfig.start_price config.
Hypothesis range_pos :
  GridExecutorConfig.start_price config < GridExecutorConfig.end_price config.
Hypothesis total_pos : 0 < GridExecutorConfig.total_amount_quote config.


End Sizing.





End LadderFacts.




(** ** Runs of the end-to-end scenarios *)

(** The life of the level closest to the mid price (position 94 of the
    ladder).  The first tick places its open order.  If that order is then
    cancelled after a partial fill, the next re-derivation returns the level
    to [NOT_ACTIVE] with an empty open slot and no close order.  If it is
    filled instead, the next tick places the take-profit order at 0.26426
    and the level is [CLOSE_ORDER_PLACED]; once that order is filled too,
    the re-derivation files the level under [COMPLETE], records both orders
    and resets it to [NOT_ACTIVE]. *)
Example level_life_cycle_on_the_mock_venue :
  let placed := option_map Scenario.tick (Scenario.started 1000 0 None) in
  let cancelled :=
    option_map (fun s => Scenario.rederive
                           (Scenario.then_report "1" "canceled" 8 2.112 s)) placed in
  let filled :=
    option_map (fun s => Scenario.tick
                           (Scenario.then_report "1" "closed" 20 5.28 s)) placed in
  let closed :=
    option_map (fun s => Scenario.rederive
                           (Scenario.then_report "7" "closed" 20 5.28528 s)) filled in
  option_map (fun s => Scenario.level_view s 94) placed
  = Some (Some (OPEN_ORDER_PLACED, Some (Some "1"), None))
  /\ option_map (fun s => Scenario.level_view s 94) cancelled
     = Some (Some (NOT_ACTIVE, None, None))
  /\ option_map (fun s => Scenario.level_view s 94) filled
     = Some (Some (CLOSE_ORDER_PLACED, Some (Some "1"), Some (Some "7")))
  /\ option_map (fun s => map req_price (skipn 6 (MockVenue.requests (snd s)))) filled
     = Some [Some 0.26426]
  /\ option_map (fun s => Scenario.level_view s 94) closed
     = Some (Some (NOT_ACTIVE, None, None))
  /\ option_map (fun s => GridExecutor.levels_by_state (fst s) COMPLETE) closed
     = Some [94%nat]
  /\ option_map (fun s => length (GridExecutor._filled_orders (fst s))) closed
     = Some 2%nat.
Proof.
  cbv zeta. repeat split; vm_compute; reflexivity.
Qed.

(** ** The tracked order as a view of the last payload *)

Module TrackedOrderViewFacts.
Import TrackedOrder TrackedOrderView.

Lemma update_fee_raw self d self' :
  update_fee self d = Some self' ->
  raw_info self' = raw_info self /\ client_order_id self' = client_order_id self.
Proof.
  unfold update_fee. intros H.
  repeat TrackedOrderFacts.case_step; inversion H; subst; auto.
Qed.

(** A successful update stores the payload. *)
Lemma update_stores_payload self d :
  fst (update_from_exchange_data self d) = true ->
  raw_info (snd (update_from_exchange_data self d)) = d.
Proof.
  unfold update_from_exchange_data.
  destruct (read_fields d) as [[[[st fq] fqu] cid]|]; [|discriminate].
  generalize (Py.str_in st FILLED_STATUSES) (Py.str_in st DONE_STATUSES). intros F D.
  destruct (Py.truthy cid && negb (Py.truthy (client_order_id (set_flags F D self))));
    (destruct (Py.truthy fq); [destruct (Decimal_str fq)|]; simpl; try discriminate);
    (destruct (Py.truthy fqu); [destruct (Decimal_str fqu)|]; simpl; try discriminate);
    match goal with
    | |- context [update_fee ?o ?d] =>
        destruct (update_fee o d) eqn:E; simpl; try discriminate; reflexivity
    end.
Qed.

(** The identifier the update leaves, whatever happens after the
    assignment. *)
Lemma update_client_order_id self d st fq fqu cid :
  read_fields d = Some (st, fq, fqu, cid) ->
  client_order_id (snd (update_from_exchange_data self d))
  = if Py.truthy cid && negb (Py.truthy (client_order_id self))
    then cid else client_order_id self.
Proof.
  intros Hr. unfold update_from_exchange_data. rewrite Hr.
  generalize (Py.str_in st FILLED_STATUSES) (Py.str_in st DONE_STATUSES). intros F D.
  change (client_order_id (set_flags F D self)) with (client_order_id self).
  destruct (Py.truthy cid && negb (Py.truthy (client_order_id self)));
    (destruct (Py.truthy fq); [destruct (Decimal_str fq)|]; simpl; try reflexivity);
    (destruct (Py.truthy fqu); [destruct (Decimal_str fqu)|]; simpl; try reflexivity);
    match goal with
    | |- context [update_fee ?o ?d] =>
        destruct (update_fee o d) eqn:E; simpl; try reflexivity;
        apply update_fee_raw in E; destruct E as [_ ->]; reflexivity
    end.
Qed.

End TrackedOrderViewFacts.

(** X1.  After an update that is applied, the [status] property of the order is
    the ['status'] entry of that payload, and ["unknown"] when the payload has
    none -- as every event-shaped payload, whose status sits under ['X']. *)
Theorem status_is_read_from_the_last_payload self order_data :
  fst (TrackedOrder.update_from_exchange_data self order_data) = true ->
  TrackedOrderView.status (snd (TrackedOrder.update_from_exchange_data self order_data))
  = match Py.lookup "status" order_data with
    | Some v => v
    | None => PyStr "unknown"
    end.
Proof.
  intros H. unfold TrackedOrderView.status.
  rewrite (TrackedOrderViewFacts.update_stores_payload self order_data H).
  unfold Py.contains, Py.get.
  destruct order_data as [|kv d]; [reflexivity|].
  set (payload := kv :: d).
  change (Py.truthy (PyDict payload)) with true. cbn [andb].
  destruct (Py.lookup "status" payload); reflexivity.
Qed.

Lemma status_is_read_from_the_last_payload_witness :
  let self := TrackedOrder.make (Some "7") LIMIT 0.264 100 [] in
  let event := [("X", PyStr "FILLED"); ("z", PyStr "100"); ("Z", PyStr "26.4")] in
  TrackedOrder.is_filled (snd (TrackedOrder.update_from_exchange_data self event)) = true
  /\ TrackedOrderView.status (snd (TrackedOrder.update_from_exchange_data self event))
     = match Py.lookup "status" event with
       | Some v => v
       | None => PyStr "unknown"
       end.
Proof.
  intros self event. split; [reflexivity|].
  apply (status_is_read_from_the_last_payload self event). reflexivity.
Defined.

(** X2.  An order that holds a non-empty client order id keeps it through every
    update, whatever the payload carries and whether or not the update is
    applied. *)
Theorem client_order_id_is_set_once self order_data :
  Py.truthy (TrackedOrder.client_order_id self) = true ->
  TrackedOrder.client_order_id (snd (TrackedOrder.update_from_exchange_data self order_data))
  = TrackedOrder.client_order_id self.
Proof.
  intros H.
  destruct (TrackedOrder.read_fields order_data) as [[[[st fq] fqu] cid]|] eqn:Hr.
  - rewrite (TrackedOrderViewFacts.update_client_order_id self order_data st fq fqu cid Hr).
    rewrite H. rewrite andb_false_r. reflexivity.
  - unfold TrackedOrder.update_from_exchange_data. rewrite Hr. reflexivity.
Qed.

(** An order placed under the bot's own id is reported with another one. *)
Lemma client_order_id_is_set_once_witness :
  let self :=
    TrackedOrder.set_client_order_id (PyStr "DualGridBot_1a2b3c4d")
      (TrackedOrder.make (Some "7") LIMIT 0.264 100 []) in
  let order_data := [("status", PyStr "open"); ("clientOrderId", PyStr "web_77")] in
  Py.truthy (TrackedOrder.client_order_id self) = true
  /\ TrackedOrder.client_order_id
       (snd (TrackedOrder.update_from_exchange_data self order_data))
     = TrackedOrder.client_order_id self.
Proof.
  intros self order_data. split; [reflexivity|].
  apply (client_order_id_is_set_once self order_data). reflexivity.
Defined.

(** X3.  [update_state] is idempotent.  The level left by [reset_open_order] or
    by [reset_level] is a fixed point of it; the one left by
    [reset_close_order], set to OPEN_ORDER_FILLED, is a fixed point exactly
    when the level holds an opening order that is done and filled. *)
Theorem resets_and_the_derived_state level :
  GridLevel.update_state (GridLevel.update_state level) = GridLevel.update_state level
  /\ GridLevel.update_state (GridLevel.reset_open_order level)
     = GridLevel.reset_open_order level
  /\ GridLevel.update_state (GridLevel.reset_level level) = GridLevel.reset_level level
  /\ (GridLevel.update_state (GridLevel.reset_close_order level)
      = GridLevel.reset_close_order level
      <-> exists o, GridLevel.active_open_order level = Some o
                    /\ TrackedOrder.is_done o = true /\ TrackedOrder.is_filled o = true).
Proof.
  destruct level as [id p a sd ty tp o c st].
  split; [|split; [|split]].
  - unfold GridLevel.update_state; simpl.
    destruct o as [o|]; [|reflexivity].
    destruct (TrackedOrder.is_done o) eqn:Hd; simpl; [|now rewrite Hd].
    destruct (TrackedOrder.is_filled o) eqn:Hf; simpl; [|now rewrite Hd, Hf].
    destruct c as [c|]; simpl; [|now rewrite Hd, Hf].
    destruct (TrackedOrder.is_done c) eqn:Hcd; simpl; [|now rewrite Hd, Hf, Hcd].
    destruct (TrackedOrder.is_filled c) eqn:Hcf; simpl; now rewrite Hd, Hf, Hcd, Hcf.
  - reflexivity.
  - reflexivity.
  - unfold GridLevel.update_state, GridLevel.reset_close_order; simpl.
    destruct o as [o|]; simpl.
    + destruct (TrackedOrder.is_done o) eqn:Hd; simpl.
      * destruct (TrackedOrder.is_filled o) eqn:Hf; simpl.
        -- split; [intros _; exists o; auto | reflexivity].
        -- split; [discriminate | intros [o' [Ho [_ Hf']]]].
           injection Ho as <-. congruence.
      * split; [discriminate | intros [o' [Ho [Hd' _]]]].
        injection Ho as <-. congruence.
    + split; [discriminate | intros [o' [Ho _]]; discriminate].
Qed.


(** ** Quantization *)

Module QuantFacts.

Lemma trunc_comp x y : x == y -> Dec.trunc x = Dec.trunc y.
Proof.
  intros E. unfold Dec.trunc, Dec.leb.
  assert (Hb : Qle_bool 0 x = Qle_bool 0 y).
  { destruct (Qle_bool 0 x) eqn:Hx, (Qle_bool 0 y) eqn:Hy; try reflexivity.
    - apply Qle_bool_iff in Hx. rewrite E in Hx. apply Qle_bool_iff in Hx. congruence.
    - apply Qle_bool_iff in Hy. rewrite <- E in Hy. apply Qle_bool_iff in Hy. congruence. }
  rewrite Hb. destruct (Qle_bool 0 y).
  - now apply Qfloor_comp.
  - now apply Qceiling_comp.
Qed.

Lemma trunc_Z k : Dec.trunc (inject_Z k) = k.
Proof.
  unfold Dec.trunc. destruct (Dec.leb 0 (inject_Z k)).
  - apply Qfloor_Z.
  - apply Qceiling_Z.
Qed.

(** Truncation goes toward zero and moves by less than one. *)
Lemma trunc_toward_zero x :
  Qabs (inject_Z (Dec.trunc x)) <= Qabs x /\ Qabs (x - inject_Z (Dec.trunc x)) < 1.
Proof.
  unfold Dec.trunc. destruct (Dec.leb 0 x) eqn:E.
  - apply DecFacts.leb_le in E.
    pose proof (Qfloor_le x) as H1. pose proof (Qlt_floor x) as H2.
    rewrite inject_Z_plus in H2. change (inject_Z 1) with 1 in H2.
    assert (H0 : 0 <= inject_Z (Qfloor x)).
    { change 0 with (inject_Z 0). rewrite <- Zle_Qle.
      change 0%Z with (Qfloor 0). now apply Qfloor_resp_le. }
    split.
    + rewrite !Qabs_pos by lra. exact H1.
    + rewrite Qabs_pos by lra. lra.
  - apply DecFacts.leb_gt in E.
    pose proof (Qle_ceiling x) as H1. pose proof (Qceiling_lt x) as H2.
    replace (Qceiling x - 1)%Z with (Qceiling x + (-1))%Z in H2 by lia.
    rewrite inject_Z_plus in H2. change (inject_Z (-1)) with (-1) in H2.
    assert (H0 : inject_Z (Qceiling x) <= 0).
    { change 0 with (inject_Z 0). rewrite <- Zle_Qle.
      change 0%Z with (Qceiling 0). apply Qceiling_resp_le. lra. }
    split.
    + rewrite !Qabs_neg by lra. lra.
    + rewrite Qabs_neg by lra. lra.
Qed.

(** [(x // inc) * inc] for a non-zero increment. *)
Lemma quantized x inc :
  ~ inc == 0 ->
  let q := inject_Z (Dec.trunc (x / inc)) * inc in
  Dec.floordiv x inc = Some (inject_Z (Dec.trunc (x / inc)))
  /\ Qabs q <= Qabs x
  /\ Qabs (x - q) < Qabs inc
  /\ Dec.floordiv q inc = Some (inject_Z (Dec.trunc (x / inc))).
Proof.
  intros Hinc q.
  assert (Hz : Dec.is_zero inc = false) by (now apply DecFacts.is_zero_false).
  destruct (trunc_toward_zero (x / inc)) as [H1 H2].
  set (k := Dec.trunc (x / inc)) in *.
  assert (Hpos : 0 < Qabs inc).
  { apply Qabs_case; intros H.
    - destruct (Qeq_dec inc 0) as [E|E]; [contradiction|]. lra.
    - destruct (Qeq_dec inc 0) as [E|E]; [contradiction|]. lra. }
  split; [unfold Dec.floordiv; now rewrite Hz|].
  split; [|split].
  - unfold q. rewrite Qabs_Qmult.
    assert (E : Qabs x == Qabs (x / inc) * Qabs inc).
    { rewrite <- Qabs_Qmult. apply Qabs_wd. field. exact Hinc. }
    rewrite E. apply Qmult_le_compat_r; [exact H1 | lra].
  - assert (E : x - q == (x / inc - inject_Z k) * inc) by (unfold q; field; exact Hinc).
    rewrite E, Qabs_Qmult.
    assert (Qabs (x / inc - inject_Z k) * Qabs inc < 1 * Qabs inc)
      by (apply Qmult_lt_compat_r; assumption).
    lra.
  - unfold Dec.floordiv. rewrite Hz. do 2 f_equal.
    transitivity (Dec.trunc (inject_Z k)); [|apply trunc_Z].
    apply trunc_comp. unfold q. field. exact Hinc.
Qed.

End QuantFacts.



(** X6.  For a positive mid price and a positive [safe_extra_spread], the
    take-profit price of [adjust_and_place_close_order], before it is
    quantized, is on the far side of the market: above the mid price and at
    least [open * (1 + take_profit_pct)] for a long grid, below the mid price
    and at most [open * (1 - take_profit_pct)] for a short grid. *)
Theorem take_profit_price_is_beyond_the_market
    side open_price take_profit_pct safe_extra_spread current_price :
  0 < current_price -> 0 < safe_extra_spread ->
  let close_price :=
    GridExecutor.close_price_for side open_price take_profit_pct
      safe_extra_spread current_price in
  match side with
  | BUY => current_price < close_price
           /\ open_price * (1 + take_profit_pct) <= close_price
  | SELL => close_price < current_price
            /\ close_price <= open_price * (1 - take_profit_pct)
  end.
Proof.
  intros Hc Hs. unfold GridExecutor.close_price_for, Dec.geb.
  destruct side; cbv zeta.
  - destruct (Dec.leb (open_price * (1 + take_profit_pct)) current_price) eqn:E.
    + apply DecFacts.leb_le in E. split; nra.
    + apply DecFacts.leb_gt in E. split; lra.
  - destruct (Dec.leb current_price (open_price * (1 - take_profit_pct))) eqn:E.
    + apply DecFacts.leb_le in E. split; nra.
    + apply DecFacts.leb_gt in E. split; lra.
Qed.

Lemma take_profit_price_is_beyond_the_market_witness :
  let close_price := GridExecutor.close_price_for BUY 0.248 0.001 0.0001 0.264 in
  0 < 0.264 /\ 0 < 0.0001
  /\ 0.264 < close_price /\ 0.248 * (1 + 0.001) <= close_price.
Proof.
  intros close_price.
  split; [reflexivity|]. split; [reflexivity|].
  apply (take_profit_price_is_beyond_the_market BUY 0.248 0.001 0.0001 0.264);
    reflexivity.
Defined.

(** ** [sorted] *)

Module SortFacts.
Import GridExecutor.

Section Sorted.
Context {A : Type} (key : A -> Q).

Lemma insert_sorted_perm x l : Permutation (insert_sorted key x l) (x :: l).
Proof.
  induction l as [|y l IH]; simpl; [reflexivity|].
  destruct (Dec.leb (key x) (key y)); [reflexivity|].
  rewrite IH. apply perm_swap.
Qed.

Lemma sorted_by_perm l : Permutation (sorted_by key l) l.
Proof.
  unfold sorted_by. induction l as [|x l IH]; simpl; [reflexivity|].
  rewrite insert_sorted_perm. now constructor.
Qed.

Lemma insert_sorted_sorted x l :
  StronglySorted (fun a b => key a <= key b) l ->
  StronglySorted (fun a b => key a <= key b) (insert_sorted key x l).
Proof.
  induction l as [|y l IH]; intros Hs; simpl.
  - constructor; constructor.
  - inversion Hs as [|? ? Hl Hy]; subst.
    destruct (Dec.leb (key x) (key y)) eqn:E.
    + apply DecFacts.leb_le in E. constructor; [exact Hs|].
      constructor; [exact E|].
      eapply List.Forall_impl; [|exact Hy]. intros b Hb. simpl in Hb. lra.
    + apply DecFacts.leb_gt in E. constructor; [apply IH; exact Hl|].
      assert (Hp : Permutation (insert_sorted key x l) (x :: l))
        by apply insert_sorted_perm.
      eapply Permutation_Forall; [symmetry; exact Hp|].
      constructor; [lra | exact Hy].
Qed.

Lemma sorted_by_sorted l :
  StronglySorted (fun a b => key a <= key b) (sorted_by key l).
Proof.
  unfold sorted_by. induction l as [|x l IH]; simpl; [constructor|].
  now apply insert_sorted_sorted.
Qed.

(** Elements with equal keys keep their order. *)
Lemma insert_sorted_stable v x l :
  StronglySorted (fun a b => key a <= key b) l ->
  List.filter (fun a => Qeq_bool (key a) v) (insert_sorted key x l)
  = List.filter (fun a => Qeq_bool (key a) v) (x :: l).
Proof.
  induction l as [|y l IH]; intros Hs; [reflexivity|].
  inversion Hs as [|? ? Hl Hy]; subst.
  cbn [insert_sorted]. destruct (Dec.leb (key x) (key y)) eqn:E; [reflexivity|].
  apply DecFacts.leb_gt in E.
  cbn [List.filter]. rewrite (IH Hl). cbn [List.filter].
  destruct (Qeq_bool (key y) v) eqn:Ey; [|reflexivity].
  destruct (Qeq_bool (key x) v) eqn:Ex; [|reflexivity].
  apply Qeq_bool_iff in Ex, Ey. lra.
Qed.

Lemma sorted_by_stable v l :
  List.filter (fun a => Qeq_bool (key a) v) (sorted_by key l)
  = List.filter (fun a => Qeq_bool (key a) v) l.
Proof.
  induction l as [|x l IH]; [reflexivity|].
  change (sorted_by key (x :: l)) with (insert_sorted key x (sorted_by key l)).
  rewrite insert_sorted_stable by apply sorted_by_sorted.
  cbn [List.filter]. now rewrite IH.
Qed.

(** A prefix of a sorted list holds its smallest elements. *)
Lemma sorted_prefix n l x y :
  StronglySorted (fun a b => key a <= key b) l ->
  In x (firstn n l) -> In y (skipn n l) -> key x <= key y.
Proof.
  revert n. induction l as [|z l IH]; intros n Hs Hx Hy.
  - destruct n; simpl in Hx; contradiction.
  - inversion Hs as [|? ? Hl Hz]; subst.
    destruct n as [|n]; simpl in *; [contradiction|].
    destruct Hx as [->|Hx].
    + rewrite List.Forall_forall in Hz. apply Hz.
      rewrite <- (firstn_skipn n l). apply in_or_app. now right.
    + eapply IH; eassumption.
Qed.

End Sorted.
End SortFacts.

Module ProximityFacts.
Import GridExecutor.

Lemma sort_levels_spec {W} (V : Venue W) levels ex w :
  match get_mid_price V w with
  | (Some current_price, w') =>
      let distance i :=
        Qabs (level_price_at (grid_levels ex) i - current_price) in
      exists sorted,
        _sort_levels_by_proximity V levels (ex, w) = (Some sorted, (ex, w'))
        /\ Permutation sorted levels
        /\ StronglySorted (fun i j => distance i <= distance j) sorted
        /\ forall d,
             List.filter (fun i => Qeq_bool (distance i) d) sorted
             = List.filter (fun i => Qeq_bool (distance i) d) levels
  | (None, w') => _sort_levels_by_proximity V levels (ex, w) = (None, (ex, w'))
  end.
Proof.
  unfold _sort_levels_by_proximity, mid_price, Exc.bind,
    venue, ex_gets, Exc.of_option, Exc.ret, Exc.raise.
  simpl. destruct (get_mid_price V w) as [[p|] w']; simpl; [|reflexivity].
  eexists. split; [reflexivity|].
  split; [apply SortFacts.sorted_by_perm|].
  split; [apply SortFacts.sorted_by_sorted|].
  intros d. apply SortFacts.sorted_by_stable.
Qed.

End ProximityFacts.

(** X7.  [_sort_levels_by_proximity] raises exactly when [get_mid_price] does.
    Otherwise it returns a permutation of its argument in increasing order of
    [|price - mid price|], levels at the same distance keeping their order,
    and leaves the executor as it is. *)
Theorem levels_are_sorted_by_distance_to_mid {W} (V : Venue W) levels ex w :
  match get_mid_price V w with
  | (Some current_price, w') =>
      let distance i :=
        Qabs (GridExecutor.level_price_at (GridExecutor.grid_levels ex) i
              - current_price) in
      exists sorted,
        GridExecutor._sort_levels_by_proximity V levels (ex, w)
        = (Some sorted, (ex, w'))
        /\ Permutation sorted levels
        /\ StronglySorted (fun i j => distance i <= distance j) sorted
        /\ forall d,
             List.filter (fun i => Qeq_bool (distance i) d) sorted
             = List.filter (fun i => Qeq_bool (distance i) d) levels
  | (None, w') =>
      GridExecutor._sort_levels_by_proximity V levels (ex, w) = (None, (ex, w'))
  end.
Proof. apply ProximityFacts.sort_levels_spec. Qed.

Module SelectFacts.
Import GridExecutor.

Lemma filter_levels_state {W} (V : Venue W) ex w allowed s1 :
  _filter_levels_by_activation_bounds V (ex, w) = (Some allowed, s1) ->
  fst s1 = ex /\ forall i, In i allowed -> In i (levels_by_state ex NOT_ACTIVE).
Proof.
  unfold _filter_levels_by_activation_bounds, Exc.bind, Exc.get, mid_price,
    venue, Exc.of_option, Exc.ret, Exc.raise. simpl.
  destruct (active_bounds ex) as [b|].
  - unfold Exc.bind. simpl. destruct (get_mid_price V w) as [[p|] w1]; simpl;
      [|discriminate].
    intros H. injection H as <- <-. split; [reflexivity|].
    intros i Hi. apply filter_In in Hi. apply Hi.
  - intros H. injection H as <- <-. split; [reflexivity | auto].
Qed.

Lemma slice_to_split {A} k (l : list A) :
  (0 < k)%Z -> slice_to k l = firstn (Z.to_nat k) l.
Proof.
  intros Hk. unfold slice_to. destruct (Z.leb_spec 0 k); [reflexivity | lia].
Qed.

End SelectFacts.

(** X8.  When [get_open_orders_to_create] proposes levels, they are taken from
    what the activation filter lets through of the NOT_ACTIVE bucket, and each
    proposed level is at least as close to the mid price as each filtered
    level that is left out. *)
Theorem open_orders_go_to_the_closest_levels {W} (V : Venue W) ex w to_create :
  fst (GridExecutor.get_open_orders_to_create V (ex, w)) = Some to_create ->
  to_create <> [] ->
  exists allowed w1 current_price w2 rest,
    GridExecutor._filter_levels_by_activation_bounds V (ex, w)
    = (Some allowed, (ex, w1))
    /\ get_mid_price V w1 = (Some current_price, w2)
    /\ Permutation (to_create ++ rest) allowed
    /\ (forall i, In i allowed ->
                  In i (GridExecutor.levels_by_state ex NOT_ACTIVE))
    /\ forall i j, In i to_create -> In j rest ->
         Qabs (GridExecutor.level_price_at (GridExecutor.grid_levels ex) i
               - current_price)
         <= Qabs (GridExecutor.level_price_at (GridExecutor.grid_levels ex) j
                  - current_price).
Proof.
  unfold GridExecutor.get_open_orders_to_create.
  unfold Exc.bind at 1. unfold Exc.get at 1.
  cbv beta iota zeta.
  destruct (Dec.gtb _ _ || _) eqn:Egate.
  { simpl. intros H Hne. injection H as <-. contradiction. }
  apply orb_false_iff in Egate. destruct Egate as [_ Ecap].
  apply Z.leb_gt in Ecap.
  unfold Exc.bind at 1.
  destruct (GridExecutor._filter_levels_by_activation_bounds V (ex, w))
    as [[allowed|] s1] eqn:Ef; [|discriminate].
  destruct (SelectFacts.filter_levels_state V ex w allowed s1 Ef) as [Hs1 Hsub].
  destruct s1 as [ex1 w1]. simpl in Hs1. subst ex1.
  unfold Exc.bind at 1.
  pose proof (ProximityFacts.sort_levels_spec V allowed ex w1) as Hsort.
  destruct (get_mid_price V w1) as [[p|] w2] eqn:Em.
  - destruct Hsort as [sorted [Es [Hperm [Hsorted _]]]].
    rewrite Es. simpl. intros H Hne. injection H as <-.
    rewrite SelectFacts.slice_to_split by lia.
    set (k := Z.to_nat (GridExecutorConfig.max_open_orders (GridExecutor.config ex)
                        - Z.of_nat (length (GridExecutor.levels_by_state ex OPEN_ORDER_PLACED)))).
    exists allowed, w1, p, w2, (skipn k sorted).
    split; [reflexivity|]. split; [exact Em|].
    split; [rewrite firstn_skipn; exact Hperm|].
    split; [exact Hsub|].
    intros i j Hi Hj.
    apply (SortFacts.sorted_prefix
             (fun i => Qabs (GridExecutor.level_price_at (GridExecutor.grid_levels ex) i - p))
             k sorted i j Hsorted Hi Hj).
  - rewrite Hsort. discriminate.
Qed.

(** Seven idle levels around a mid price of 0.264 and room for five orders:
    the two outermost levels are left out. *)
Lemma open_orders_go_to_the_closest_levels_witness :
  let to_create := [3; 2; 4; 1; 5]%nat in
  fst (GridExecutor.get_open_orders_to_create MockVenue.venue
         (Desk.executor, Desk.venue_world)) = Some to_create
  /\ to_create <> []
  /\ exists allowed w1 current_price w2 rest,
       GridExecutor._filter_levels_by_activation_bounds MockVenue.venue
         (Desk.executor, Desk.venue_world)
       = (Some allowed, (Desk.executor, w1))
       /\ get_mid_price MockVenue.venue w1 = (Some current_price, w2)
       /\ Permutation (to_create ++ rest) allowed
       /\ (forall i, In i allowed ->
                     In i (GridExecutor.levels_by_state Desk.executor NOT_ACTIVE))
       /\ forall i j, In i to_create -> In j rest ->
            Qabs (GridExecutor.level_price_at
                    (GridExecutor.grid_levels Desk.executor) i - current_price)
            <= Qabs (GridExecutor.level_price_at
                       (GridExecutor.grid_levels Desk.executor) j - current_price).
Proof.
  intros to_create.
  assert (H1 : fst (GridExecutor.get_open_orders_to_create MockVenue.venue
                      (Desk.executor, Desk.venue_world)) = Some to_create)
    by (vm_compute; reflexivity).
  assert (H2 : to_create <> []) by discriminate.
  split; [exact H1|]. split; [exact H2|].
  exact (open_orders_go_to_the_closest_levels MockVenue.venue Desk.executor
           Desk.venue_world to_create H1 H2).
Defined.

(** ** Status and retries across a tick *)

Module ControlFacts.
Import GridExecutor Rel StepFacts Kept.

Lemma same_control_refl ex : same_control ex ex.
Proof. repeat split. Qed.

Lemma same_control_trans a b c :
  same_control a b -> same_control b c -> same_control a c.
Proof. intros [H1 [H2 H3]] [H4 [H5 H6]]. repeat split; congruence. Qed.

Lemma same_control_complete_level ex i : same_control ex (complete_level ex i).
Proof.
  unfold complete_level.
  repeat match goal with
    | |- context [match ?x with _ => _ end] => destruct x
    end; repeat split.
Qed.

Lemma same_control_fold_complete idxs ex :
  same_control ex (fold_left complete_level idxs ex).
Proof.
  revert ex. induction idxs as [|i idxs IH]; intros ex; simpl.
  - apply same_control_refl.
  - eapply same_control_trans; [apply same_control_complete_level | apply IH].
Qed.

Section WithVenue.
Context {W : Type} (V : Venue W).

Lemma same_control_set_grid_levels f :
  preserves (W := W) same_control (ex_modify (set_grid_levels f)).
Proof. apply preserves_ex_modify. intros ex. repeat split. Qed.

Lemma same_control_modify_level i f :
  preserves (W := W) same_control (modify_level i f).
Proof. apply same_control_set_grid_levels. Qed.

Lemma same_control_timestamp ts :
  preserves (W := W) same_control (ex_modify (set_max_open_creation_timestamp ts)).
Proof. apply preserves_ex_modify. intros ex. repeat split. Qed.

Lemma same_control_position p :
  preserves (W := W) same_control (ex_modify (set_position_size_base p)).
Proof. apply preserves_ex_modify. intros ex. repeat split. Qed.

Ltac control_step :=
  first
    [ apply same_control_set_grid_levels
    | apply same_control_modify_level
    | apply same_control_timestamp
    | apply same_control_position
    | preserves_step ].

Lemma same_control_update_all_order_status :
  preserves same_control (update_all_order_status V).
Proof.
  pose proof same_control_refl as Hr. pose proof same_control_trans as Ht.
  unfold update_all_order_status. repeat control_step.
Qed.

Lemma same_control_update_grid_levels :
  preserves same_control (update_grid_levels V).
Proof.
  intros [ex w]. unfold update_grid_levels.
  destruct (refresh_levels V 0 (grid_levels ex) empty_buckets w) as [[levels buckets] w'].
  unfold _handle_failed_orders, ex_modify. simpl.
  destruct (same_control_fold_complete (buckets COMPLETE)
              (set_levels_by_state buckets (set_grid_levels (fun _ => levels) ex)))
    as [H1 [H2 H3]].
  repeat split; simpl; assumption.
Qed.

Lemma same_control_update_basic_metrics :
  preserves same_control (update_basic_metrics V).
Proof.
  pose proof same_control_refl as Hr. pose proof same_control_trans as Ht.
  unfold update_basic_metrics. repeat control_step.
Qed.

Lemma same_control_refresh : preserves same_control (refresh V).
Proof.
  pose proof same_control_refl as Hr. pose proof same_control_trans as Ht.
  unfold refresh.
  apply preserves_bind; [exact Ht | apply same_control_update_all_order_status | intros _].
  apply preserves_bind; [exact Ht | apply same_control_update_grid_levels | intros _].
  apply same_control_update_basic_metrics.
Qed.

Lemma same_control_cancel_order order_id :
  preserves same_control (cancel_order V order_id).
Proof.
  pose proof same_control_refl as Hr. pose proof same_control_trans as Ht.
  unfold cancel_order. repeat control_step.
Qed.

Lemma same_control_place c : preserves same_control (place V c).
Proof.
  pose proof same_control_refl as Hr. pose proof same_control_trans as Ht.
  unfold place. repeat control_step.
Qed.

Lemma same_control_adjust_and_place_open_order i :
  preserves same_control (adjust_and_place_open_order V i).
Proof.
  pose proof same_control_refl as Hr. pose proof same_control_trans as Ht.
  unfold adjust_and_place_open_order.
  repeat first [apply same_control_place | control_step].
Qed.

Lemma same_control_adjust_and_place_close_order i :
  preserves same_control (adjust_and_place_close_order V i).
Proof.
  pose proof same_control_refl as Hr. pose proof same_control_trans as Ht.
  unfold adjust_and_place_close_order.
  repeat first [apply same_control_place | apply same_control_cancel_order | control_step].
Qed.

Lemma same_control_place_open_orders to_create :
  preserves same_control (place_open_orders V to_create).
Proof.
  pose proof same_control_refl as Hr. pose proof same_control_trans as Ht.
  induction to_create as [|i rest IH]; simpl.
  - apply preserves_ret, Hr.
  - apply preserves_bind; [exact Ht | apply preserves_ex_gets, Hr | intros ex].
    destruct (_ <=? _)%Z; [apply preserves_ret, Hr|].
    apply preserves_bind;
      [exact Ht | apply same_control_adjust_and_place_open_order | intros _].
    exact IH.
Qed.

Lemma same_control_decide_and_act : preserves same_control (decide_and_act V).
Proof.
  pose proof same_control_refl as Hr. pose proof same_control_trans as Ht.
  unfold decide_and_act.
  apply preserves_bind;
    [exact Ht | apply preserves_get_open_orders_to_create; assumption | intros to_create].
  apply preserves_bind;
    [exact Ht | apply preserves_get_close_orders_to_create; assumption | intros to_close].
  apply preserves_bind;
    [exact Ht | apply preserves_order_ids_to_cancel; assumption | intros open_ids].
  apply preserves_bind;
    [exact Ht | apply preserves_order_ids_to_cancel; assumption | intros close_ids].
  apply preserves_bind; [exact Ht | apply same_control_place_open_orders | intros _].
  apply preserves_bind; [exact Ht | | intros _].
  { apply preserves_for_each; [exact Hr | exact Ht | intros i].
    apply same_control_adjust_and_place_close_order. }
  apply preserves_bind; [exact Ht | | intros _].
  { apply preserves_for_each; [exact Hr | exact Ht | intros oid].
    apply same_control_cancel_order. }
  apply preserves_for_each; [exact Hr | exact Ht | intros oid].
  apply same_control_cancel_order.
Qed.

Lemma same_control_cancel_open_orders :
  preserves same_control (cancel_open_orders V).
Proof.
  pose proof same_control_refl as Hr. pose proof same_control_trans as Ht.
  unfold cancel_open_orders. repeat control_step.
Qed.

Lemma cancel_open_orders_returns s : fst (cancel_open_orders V s) = Some tt.
Proof.
  unfold cancel_open_orders, Exc.bind, venue.
  destruct (cancel_all_orders V (snd s)) as [[|] w']; reflexivity.
Qed.

Lemma close_open_positions_returns s :
  fst (close_open_positions V s) = Some tt
  /\ fst (snd (close_open_positions V s)) = fst s.
Proof.
  unfold close_open_positions, Exc.bind, venue.
  destruct (close_all_positions V (snd s)) as [b w']. split; reflexivity.
Qed.

End WithVenue.
End ControlFacts.

(** X9.  [control_task] never raises and never changes [max_retries].  From
    RUNNING, a tick whose decisions and actions go through stays RUNNING with
    the retry counter as it was; one in which they raise adds one to the
    counter and turns to SHUTTING_DOWN exactly when the counter has reached
    [max_retries].  From SHUTTING_DOWN the tick ends TERMINATED.  NOT_STARTED
    and TERMINATED are left as they are. *)
Theorem a_tick_moves_the_status_forward {W} (V : Venue W) s :
  let ex := fst s in
  let ex' := fst (snd (GridExecutor.control_task V s)) in
  fst (GridExecutor.control_task V s) = Some tt
  /\ GridExecutor.max_retries ex' = GridExecutor.max_retries ex
  /\ match GridExecutor._status ex with
     | RUNNING =>
         match fst (GridExecutor.decide_and_act V (snd (GridExecutor.refresh V s))) with
         | Some _ =>
             GridExecutor._status ex' = RUNNING
             /\ GridExecutor._current_retries ex' = GridExecutor._current_retries ex
         | None =>
             GridExecutor._current_retries ex'
             = (GridExecutor._current_retries ex + 1)%Z
             /\ GridExecutor._status ex'
                = if (GridExecutor.max_retries ex
                      <=? GridExecutor._current_retries ex + 1)%Z
                  then SHUTTING_DOWN else RUNNING
         end
     | SHUTTING_DOWN =>
         GridExecutor._status ex' = TERMINATED
         /\ GridExecutor._current_retries ex' = GridExecutor._current_retries ex
     | NOT_STARTED =>
         GridExecutor._status ex' = NOT_STARTED
         /\ GridExecutor._current_retries ex' = GridExecutor._current_retries ex
     | TERMINATED =>
         GridExecutor._status ex' = TERMINATED
         /\ GridExecutor._current_retries ex' = GridExecutor._current_retries ex
     end.
Proof.
  cbv zeta.
  destruct (TickFacts.refresh_returns V s) as [Hr _].
  pose proof (ControlFacts.same_control_refresh V s) as [Hs [Hc Hm]].
  remember (GridExecutor.control_task V s) as res eqn:Eres.
  unfold GridExecutor.control_task, Exc.try_except in Eres.
  unfold Exc.bind at 1 in Eres.
  destruct (GridExecutor.refresh V s) as [r s1]. simpl in Hr, Hs, Hc, Hm. subst r.
  unfold Exc.bind at 1 in Eres. unfold GridExecutor.ex_gets at 1 in Eres.
  cbv beta iota in Eres. rewrite Hs in Eres. simpl snd.
  destruct (GridExecutor._status (fst s)) eqn:Est.
  - subst res. simpl. repeat split; assumption.
  - pose proof (ControlFacts.same_control_decide_and_act V s1) as [Hs2 [Hc2 Hm2]].
    destruct (GridExecutor.decide_and_act V s1) as [[[]|] s2]; simpl in *.
    + subst res. simpl. repeat split; congruence.
    + subst res. unfold GridExecutor.on_error, GridExecutor.ex_modify. simpl.
      rewrite Hm2, Hc2, Hm, Hc.
      destruct (GridExecutor.max_retries (fst s)
                <=? GridExecutor._current_retries (fst s) + 1)%Z; simpl;
        repeat split; congruence.
  - unfold Exc.bind in Eres.
    pose proof (ControlFacts.cancel_open_orders_returns V s1) as Hret.
    pose proof (ControlFacts.same_control_cancel_open_orders V s1) as [Hs2 [Hc2 Hm2]].
    destruct (GridExecutor.cancel_open_orders V s1) as [r2 s2]. simpl in *. subst r2.
    destruct (ControlFacts.close_open_positions_returns V s2) as [Hret3 He3].
    destruct (GridExecutor.close_open_positions V s2) as [r3 s3]. simpl in *. subst r3.
    subst res. unfold GridExecutor.ex_modify. simpl. rewrite He3.
    repeat split; congruence.
  - subst res. simpl. repeat split; assumption.
Qed.

(** X10.  [cancel_open_orders] never raises.  When the connector reports success
    it clears, on every level, each of the two orders that is not filled and
    keeps each that is; otherwise it leaves the executor as it is. *)
Theorem cancel_open_orders_keeps_only_filled_orders {W} (V : Venue W) ex w :
  GridExecutor.cancel_open_orders V (ex, w)
  = (Some tt,
     (if fst (cancel_all_orders V w)
      then GridExecutor.set_grid_levels (map GridExecutor.reset_unfilled) ex
      else ex,
      snd (cancel_all_orders V w)))
  /\ forall level sl o,
       (GridExecutor.get_slot sl (GridExecutor.reset_unfilled level) = Some o
        <-> GridExecutor.get_slot sl level = Some o
            /\ TrackedOrder.is_filled o = true).
Proof.
  split.
  - unfold GridExecutor.cancel_open_orders, Exc.bind, GridExecutor.venue,
      GridExecutor.ex_modify, Exc.ret. simpl.
    destruct (cancel_all_orders V w) as [[|] w']; reflexivity.
  - intros level sl o. unfold GridExecutor.reset_unfilled.
    destruct level as [id p a sd ty tp [oo|] [cc|] st]; simpl;
      try destruct (TrackedOrder.is_filled oo) eqn:Eo;
      try destruct (TrackedOrder.is_filled cc) eqn:Ec;
      simpl; rewrite ?Eo, ?Ec;
      destruct sl; simpl; split;
      try (intros H; discriminate H);
      try (intros [H _]; discriminate H);
      try (intros H; injection H as <-; split; [reflexivity | assumption]);
      try (intros [H Hf]; injection H as <-; congruence);
      try (intros [H _]; exact H).
Qed.

(** ** The buckets of [update_grid_levels] *)

Module BucketFacts.
Import GridExecutor Kept.

Lemma positions_cons st i level rest :
  positions st i (level :: rest)
  = ((if GridLevelStates_eqb (GridLevel.state level) st then [i] else [])
     ++ positions st (S i) rest)%list.
Proof.
  unfold positions. cbn [length seq List.filter].
  replace (i - i)%nat with 0%nat by lia. cbn [lookup list_lookup].
  assert (E : List.filter
                (fun j => match (level :: rest) !! (j - i)%nat with
                          | Some level => GridLevelStates_eqb (GridLevel.state level) st
                          | None => false
                          end) (seq (S i) (length rest))
              = List.filter
                  (fun j => match rest !! (j - S i)%nat with
                            | Some level => GridLevelStates_eqb (GridLevel.state level) st
                            | None => false
                            end) (seq (S i) (length rest))).
  { apply filter_ext_in. intros j Hj. apply in_seq in Hj.
    replace (j - i)%nat with (S (j - S i)) by lia. reflexivity. }
  rewrite E. destruct (GridLevelStates_eqb (GridLevel.state level) st); reflexivity.
Qed.

Section WithVenue.
Context {W : Type} (V : Venue W).

(** The first loop of [update_grid_levels] appends the position of each
    level to the bucket of the state it has just derived. *)
Lemma refresh_levels_buckets levels : forall i buckets w levels' buckets' w',
  refresh_levels V i levels buckets w = (levels', buckets', w') ->
  forall st, buckets' st = (buckets st ++ positions st i levels')%list.
Proof.
  induction levels as [|level rest IH]; intros i buckets w levels' buckets' w' H st;
    simpl in H.
  - inversion H; subst. unfold positions. simpl. now rewrite app_nil_r.
  - destruct (poll_slot V OpenSlot level w) as [level1 w1].
    destruct (poll_slot V CloseSlot level1 w1) as [level2 w2].
    destruct (refresh_levels V (S i) rest
                (bucket_append (GridLevel.state (GridLevel.update_state level2)) i buckets) w2)
      as [[rest' buckets2] w3] eqn:Hrest.
    inversion H; subst; clear H.
    rewrite (IH _ _ _ _ _ _ Hrest st), positions_cons.
    unfold bucket_append.
    assert (Esym : GridLevelStates_eqb st (GridLevel.state (GridLevel.update_state level2))
                   = GridLevelStates_eqb (GridLevel.state (GridLevel.update_state level2)) st).
    { destruct st, (GridLevel.state (GridLevel.update_state level2)); reflexivity. }
    rewrite Esym.
    destruct (GridLevelStates_eqb (GridLevel.state (GridLevel.update_state level2)) st);
      simpl; [now rewrite <- app_assoc | reflexivity].
Qed.

End WithVenue.

(** The five buckets share out the positions. *)
Lemma positions_total i levels :
  (length (positions NOT_ACTIVE i levels)
   + length (positions OPEN_ORDER_PLACED i levels)
   + length (positions OPEN_ORDER_FILLED i levels)
   + length (positions CLOSE_ORDER_PLACED i levels)
   + length (positions COMPLETE i levels))%nat
  = length levels.
Proof.
  revert i. induction levels as [|level rest IH]; intros i.
  - reflexivity.
  - rewrite !positions_cons, !length_app. specialize (IH (S i)).
    destruct (GridLevel.state level); simpl; lia.
Qed.

Lemma positions_In st i levels j :
  In j (positions st i levels) <->
  exists level, levels !! (j - i)%nat = Some level /\ (i <= j)%nat
                /\ GridLevel.state level = st.
Proof.
  unfold positions. rewrite filter_In, in_seq. split.
  - intros [Hj Hs]. destruct (levels !! (j - i)%nat) as [level|]; [|discriminate].
    exists level. apply GridLevelStates_eqb_eq in Hs. split; [reflexivity|].
    split; [lia | exact Hs].
  - intros [level [Hl [Hij Hs]]]. rewrite Hl. split.
    + apply lookup_lt_Some in Hl. lia.
    + apply GridLevelStates_eqb_eq. exact Hs.
Qed.

Lemma positions_NoDup st i levels : NoDup (positions st i levels).
Proof.
  unfold positions. apply NoDup_ListNoDup, List.NoDup_filter, seq_NoDup.
Qed.

End BucketFacts.

(** X11.  After [update_grid_levels] the store has as many levels as before.  A
    position is in the bucket of a state exactly when the level polled there
    got that state; no bucket holds a position twice, and the five buckets
    together hold as many positions as there are levels.  The levels filed
    under COMPLETE are reset in the same call: they end NOT_ACTIVE with both
    orders cleared, without being in the NOT_ACTIVE bucket. *)
Theorem every_level_is_filed_in_one_bucket {W} (V : Venue W) ex w :
  let ex' := fst (snd (GridExecutor.update_grid_levels V (ex, w))) in
  let polled :=
    fst (fst (GridExecutor.refresh_levels V 0 (GridExecutor.grid_levels ex)
                GridExecutor.empty_buckets w)) in
  length (GridExecutor.grid_levels ex') = length (GridExecutor.grid_levels ex)
  /\ (forall st j,
        In j (GridExecutor.levels_by_state ex' st) <->
        exists level, polled !! j = Some level /\ GridLevel.state level = st)
  /\ (forall st, NoDup (GridExecutor.levels_by_state ex' st))
  /\ (length (GridExecutor.levels_by_state ex' NOT_ACTIVE)
      + length (GridExecutor.levels_by_state ex' OPEN_ORDER_PLACED)
      + length (GridExecutor.levels_by_state ex' OPEN_ORDER_FILLED)
      + length (GridExecutor.levels_by_state ex' CLOSE_ORDER_PLACED)
      + length (GridExecutor.levels_by_state ex' COMPLETE))%nat
     = length (GridExecutor.grid_levels ex)
  /\ forall j,
       In j (GridExecutor.levels_by_state ex' COMPLETE) ->
       exists level',
         GridExecutor.grid_levels ex' !! j = Some level'
         /\ GridLevel.state level' = NOT_ACTIVE
         /\ GridLevel.active_open_order level' = None
         /\ GridLevel.active_close_order level' = None
         /\ ~ In j (GridExecutor.levels_by_state ex' NOT_ACTIVE).
Proof.
  cbv zeta.
  destruct (RefreshFacts.update_grid_levels_settles V ex w) as [_ [_ Hl]].
  assert (Hb : forall st,
             GridExecutor.levels_by_state
               (fst (snd (GridExecutor.update_grid_levels V (ex, w)))) st
             = Kept.positions st 0
                 (fst (fst (GridExecutor.refresh_levels V 0 (GridExecutor.grid_levels ex)
                              GridExecutor.empty_buckets w)))).
  { intros st. unfold GridExecutor.update_grid_levels.
    destruct (GridExecutor.refresh_levels V 0 (GridExecutor.grid_levels ex)
                GridExecutor.empty_buckets w) as [[polled buckets] w'] eqn:Hr.
    unfold GridExecutor._handle_failed_orders, GridExecutor.ex_modify. simpl.
    assert (Hk : forall idxs e,
               GridExecutor.levels_by_state (fold_left GridExecutor.complete_level idxs e)
               = GridExecutor.levels_by_state e).
    { induction idxs as [|i idxs IH]; intros e; simpl; [reflexivity|].
      rewrite IH. unfold GridExecutor.complete_level.
      repeat match goal with
        | |- context [match ?x with _ => _ end] => destruct x
        end; reflexivity. }
    rewrite Hk. simpl.
    apply (BucketFacts.refresh_levels_buckets V _ _ _ _ _ _ _ Hr st). }
  destruct (GridExecutor.refresh_levels V 0 (GridExecutor.grid_levels ex)
              GridExecutor.empty_buckets w) as [[polled buckets] w'] eqn:Hr.
  destruct (RefreshFacts.refresh_levels_spec V _ _ _ _ _ _ _ Hr) as [Hlen [Hst _]].
  simpl in *.
  assert (Hin : forall st j,
             In j (Kept.positions st 0 polled) <->
             exists level, polled !! j = Some level /\ GridLevel.state level = st).
  { intros st j. rewrite BucketFacts.positions_In.
    replace (j - 0)%nat with j by lia.
    split; intros [level H]; exists level; intuition lia. }
  split; [rewrite Hl, length_map; exact Hlen|].
  split; [intros st j; rewrite Hb; apply Hin|].
  split; [intros st; rewrite Hb; apply BucketFacts.positions_NoDup|].
  split; [rewrite !Hb, <- Hlen; apply BucketFacts.positions_total|].
  intros j Hj. rewrite Hb in Hj. apply Hin in Hj. destruct Hj as [level [Hp Hs]].
  rewrite Hl, list_lookup_fmap, Hp. simpl.
  eexists. split; [reflexivity|].
  pose proof (Hst j level Hp) as Hm. unfold Spec.state_matches_slots in Hm.
  rewrite Hs in Hm.
  unfold GridExecutor.settle. rewrite Hs. simpl.
  inversion Hm as [| | | | | |o c Hod Hof Hcd Hcf Ho Hc]; subst.
  unfold GridExecutor.complete1. rewrite <- Ho, <- Hc, Hof, Hcf. simpl.
  repeat split.
  rewrite Hb. intros Hn. apply Hin in Hn. destruct Hn as [level2 [Hp2 Hs2]].
  congruence.
Qed.

Module ConnectorFacts2.
Import Connector.

Lemma positive_gt x q : positive x = true -> x = Some q -> 0 < q.
Proof.
  intros H ->. simpl in H. apply andb_true_iff in H. destruct H as [_ H].
  now apply DecFacts.ltb_lt in H.
Qed.

Lemma price_from_last_spec last c price c' :
  price_from_last last c = Some (price, c') ->
  0 < price /\ value (latest_price c') = price.
Proof.
  unfold price_from_last. destruct last as [l|]; [|discriminate].
  destruct (positive (Some l)) eqn:E; [|discriminate].
  intros H. injection H as <- <-. split; [|reflexivity].
  eapply positive_gt; eauto.
Qed.

(** A price read from the ticker is positive and is the one cached. *)
Lemma price_from_ticker_spec ticker c price c' :
  price_from_ticker ticker c = Some (Some (price, c')) ->
  0 < price /\ value (latest_price c') = price.
Proof.
  unfold price_from_ticker.
  destruct (ticker_field "bid" ticker) as [bid|]; [|discriminate].
  destruct (ticker_field "ask" ticker) as [ask|]; [|discriminate].
  destruct (ticker_field "last" ticker) as [last|]; [|discriminate].
  destruct bid as [b|], ask as [a|];
    try (intros H; injection H as H; now apply price_from_last_spec in H).
  destruct (positive (Some b) && positive (Some a)) eqn:E.
  - intros H. injection H as <- <-. split; [|reflexivity].
    apply andb_true_iff in E. destruct E as [Eb Ea].
    pose proof (positive_gt _ _ Eb eq_refl). pose proof (positive_gt _ _ Ea eq_refl).
    apply Qlt_shift_div_l; lra.
  - intros H; injection H as H; now apply price_from_last_spec in H.
Qed.

Lemma cached_price_spec c price :
  cached_price c = Some price -> 0 < price /\ value (latest_price c) = price.
Proof.
  unfold cached_price. destruct (Dec.gtb _ 0) eqn:E; [|discriminate].
  intros H. injection H as <-. split; [|reflexivity].
  now apply DecFacts.ltb_lt in E.
Qed.

Lemma cached_price_none c : cached_price c = None -> value (latest_price c) <= 0.
Proof.
  unfold cached_price. destruct (Dec.gtb _ 0) eqn:E; [discriminate|].
  intros _. now apply DecFacts.ltb_ge in E.
Qed.

Section WithExchange.
Context {W : Type} (E : Exchange W).

Lemma rest_price_spec n c w :
  match rest_price E n c w with
  | (Some price, s') => 0 < price /\ value (latest_price (fst s')) = price
  | (None, s') => fst s' = c
  end.
Proof.
  revert w. induction n as [|n IH]; intros w; simpl; [reflexivity|].
  destruct (fetch_ticker E w) as [ticker w1].
  assert (Hfall :
    match (match n with
           | O => (cached_price c, (c, w1))
           | S _ => rest_price E n c (sleep E 0.5 w1)
           end) with
    | (Some price, s') => 0 < price /\ value (latest_price (fst s')) = price
    | (None, s') => fst s' = c
    end).
  { destruct n as [|n'].
    - destruct (cached_price c) as [p|] eqn:Ec; [|reflexivity].
      now apply cached_price_spec.
    - apply IH. }
  destruct ticker as [ticker|]; [|exact Hfall].
  destruct (price_from_ticker ticker c) as [[[price c']|]|] eqn:Ep;
    [|exact Hfall|exact Hfall].
  now apply price_from_ticker_spec in Ep.
Qed.

Lemma get_mid_price_spec s :
  match get_mid_price E s with
  | (Some price, s') => 0 < price /\ value (latest_price (fst s')) = price
  | (None, s') => fst s' = fst s
  end.
Proof.
  destruct s as [c w]. unfold get_mid_price, is_connected, lift. cbn [fst snd].
  destruct (fetch_time E w) as [connected w1].
  destruct (connected && Dec.gtb (value (latest_price c)) 0) eqn:Eg.
  - apply andb_true_iff in Eg. destruct Eg as [_ Eg].
    apply DecFacts.ltb_lt in Eg. split; [exact Eg | reflexivity].
  - apply rest_price_spec.
Qed.

End WithExchange.
End ConnectorFacts2.

(** X12.  A price [get_mid_price] returns is positive and is the value the
    connector holds as [latest_price] afterwards; when it raises, the
    attributes of the connector are as before. *)
Theorem mid_price_is_positive_and_cached {W} (E : Exchange W) s :
  match Connector.get_mid_price E s with
  | (Some price, s') =>
      0 < price /\ Connector.value (Connector.latest_price (fst s')) = price
  | (None, s') => fst s' = fst s
  end.
Proof. apply ConnectorFacts2.get_mid_price_spec. Qed.

(** X13.  Once [get_mid_price] has returned a price, a later call made while
    [fetch_time] succeeds returns the price held in [latest_price] and changes
    nothing but what [fetch_time] does: the ticker is read only when the
    connectivity check fails. *)
Theorem a_cached_price_is_served_without_the_ticker {W} (E : Exchange W) s price s1 :
  Connector.get_mid_price E s = (Some price, s1) ->
  forall w w',
    fetch_time E w = (true, w') ->
    Connector.get_mid_price E (fst s1, w)
    = (Some (Connector.value (Connector.latest_price (fst s1))), (fst s1, w')).
Proof.
  intros H w w' Ht.
  pose proof (ConnectorFacts2.get_mid_price_spec E s) as Hs. rewrite H in Hs.
  destruct Hs as [Hpos Hval]. rewrite <- Hval in Hpos.
  unfold Connector.get_mid_price, Connector.is_connected, Connector.lift.
  cbn [fst snd]. rewrite Ht.
  apply DecFacts.ltb_lt in Hpos. unfold Dec.gtb. rewrite Hpos. reflexivity.
Qed.

(** A first call reads the ticker (mid 0.264); after the ticker has moved
    to 0.3, the next call still answers 0.264. *)
Lemma a_cached_price_is_served_without_the_ticker_witness :
  let s := (MockExchange.connector, MockExchange.start 1700000000 true) in
  let s1 := snd (Connector.get_mid_price MockExchange.exchange s) in
  let moved :=
    {| MockExchange.now := 1700000060; MockExchange.reachable := true;
       MockExchange.ticker := [("bid", PyNum 0.2999); ("ask", PyNum 0.3001)];
       MockExchange.positions := []; MockExchange.open_orders := [];
       MockExchange.balances := []; MockExchange.sent := [] |} in
  Qeq_bool (Connector.value (Connector.latest_price (fst s1))) 0.264 = true
  /\ Connector.get_mid_price MockExchange.exchange (fst s1, moved)
     = (Some (Connector.value (Connector.latest_price (fst s1))), (fst s1, moved)).
Proof.
  intros s s1 moved. split; [vm_compute; reflexivity|].
  apply (a_cached_price_is_served_without_the_ticker MockExchange.exchange s
           ((0.2639 + 0.2641) / 2) s1).
  - vm_compute. reflexivity.
  - reflexivity.
Defined.

Module PositionFacts.
Import Connector.

Section WithExchange.
Context {W : Type} (E : Exchange W).

Lemma get_positions_spec c w :
  let r := get_positions E (c, w) in
  fst r = (long_position (fst (snd r)), short_position (fst (snd r)))
  /\ snd (snd r) = snd (fetch_positions E w)
  /\ trading_pair (fst (snd r)) = trading_pair c
  /\ trading_rules (fst (snd r)) = trading_rules c
  /\ latest_price (fst (snd r)) = latest_price c
  /\ (fst (fetch_positions E w) = None -> fst (snd r) = c).
Proof.
  unfold get_positions.
  destruct (fetch_positions E w) as [[positions|] w1]; simpl.
  - destruct (scan_positions (trading_pair c) (0, 0) positions) as [[long short]|];
      simpl; repeat split; discriminate.
  - repeat split.
Qed.

End WithExchange.
End PositionFacts.

(** X14.  [get_positions] returns the pair it holds afterwards in [long_position]
    and [short_position].  When [fetch_positions] raises, or an entry cannot
    be read, the connector is unchanged (the stored pair is returned);
    otherwise the scanned pair is returned, and its short side is not
    negative. *)
Theorem positions_returned_are_the_ones_kept {W} (E : Exchange W) c w :
  let result := Connector.get_positions E (c, w) in
  let c' := fst (snd result) in
  fst result = (Connector.long_position c', Connector.short_position c')
  /\ (forall positions,
        fst (fetch_positions E w) = Some positions ->
        Connector.scan_positions (Connector.trading_pair c) (0, 0) positions = None ->
        c' = c)
  /\ (fst (fetch_positions E w) = None -> c' = c)
  /\ (forall positions long short,
        fst (fetch_positions E w) = Some positions ->
        Connector.scan_positions (Connector.trading_pair c) (0, 0) positions
        = Some (long, short) ->
        fst result = (long, short) /\ 0 <= short).
Proof.
  cbv zeta. unfold Connector.get_positions.
  destruct (fetch_positions E w) as [[positions|] w1]; simpl.
  - destruct (Connector.scan_positions (Connector.trading_pair c) (0, 0) positions)
      as [[long short]|] eqn:Es; simpl.
    + split; [reflexivity|]. split; [intros p Hp; injection Hp as <-; congruence|].
      split; [discriminate|].
      intros p l sh Hp Hs. injection Hp as <-. rewrite Es in Hs.
      inversion Hs; subst l sh; clear Hs.
      split; [reflexivity|].
      assert (Hgen : forall ps acc l sh,
                 0 <= snd acc ->
                 Connector.scan_positions (Connector.trading_pair c) acc ps = Some (l, sh) ->
                 0 <= sh).
      { induction ps as [|p0 ps IH]; intros acc l sh Hacc H; simpl in H.
        - inversion H; subst. exact Hacc.
        - destruct (Connector.scan_position (Connector.trading_pair c) acc p0)
            as [acc'|] eqn:E1; [|discriminate].
          apply (IH acc' l sh); [|exact H].
          unfold Connector.scan_position in E1.
          destruct (Py.lookup "symbol" p0) as [sym|]; [|discriminate].
          destruct (Connector.is_str sym (Connector.trading_pair c)).
          + destruct (Decimal_str (Py.get "contracts" (PyNum 0) p0)) as [q|];
              [|discriminate].
            destruct (Connector.is_str (Py.get "side" PyNone p0) "long").
            * injection E1 as <-. exact Hacc.
            * destruct (Connector.is_str (Py.get "side" PyNone p0) "short").
              -- injection E1 as <-. simpl. apply Qabs_nonneg.
              -- injection E1 as <-. exact Hacc.
          + injection E1 as <-. exact Hacc. }
      apply (Hgen positions (0, 0) long short); [simpl; lra | exact Es].
    + split; [reflexivity|]. split; [reflexivity|]. split; [discriminate|].
      intros p l sh Hp Hs. injection Hp as <-. congruence.
  - split; [reflexivity|]. split; [discriminate|]. split; [reflexivity|].
    discriminate.
Qed.

Module CleanupFacts.
Import Connector.

Section WithExchange.
Context {W : Type} (E : Exchange W).

(** Without an order to cancel, [cancel_all_orders] reports success. *)
Lemma cancel_all_orders_nothing_listed c w :
  fst (fetch_open_orders E w) = None \/ fst (fetch_open_orders E w) = Some [] ->
  cancel_all_orders E (c, w) = (true, (c, snd (fetch_open_orders E w))).
Proof.
  unfold cancel_all_orders, get_open_orders, lift. cbn [fst snd].
  destruct (fetch_open_orders E w) as [orders w1]. simpl.
  intros [->| ->]; reflexivity.
Qed.

Lemma get_open_orders_nothing_listed c w :
  fst (fetch_open_orders E w) = None \/ fst (fetch_open_orders E w) = Some [] ->
  get_open_orders E (c, w) = ([], (c, snd (fetch_open_orders E w))).
Proof.
  unfold get_open_orders, lift. cbn [fst snd].
  destruct (fetch_open_orders E w) as [orders w1]. simpl.
  intros [->| ->]; reflexivity.
Qed.

Lemma close_all_positions_flat s :
  fst (fst (get_positions E s)) <= 0 -> snd (fst (get_positions E s)) <= 0 ->
  close_all_positions E s = (true, snd (get_positions E s)).
Proof.
  unfold close_all_positions.
  destruct (get_positions E s) as [[long short] s1]. simpl.
  intros Hl Hs. apply DecFacts.ltb_ge in Hl, Hs. unfold Dec.gtb.
  rewrite Hl, Hs. reflexivity.
Qed.

End WithExchange.
End CleanupFacts.

(** X15.  When [fetch_open_orders] raises or lists nothing, [cancel_all_orders]
    of the connector reports success without cancelling anything, and
    [cancel_open_orders] of an executor on that connector clears every
    unfilled order from its levels. *)
Theorem unlisted_orders_are_forgotten {W} (E : Exchange W) ex c w :
  fst (fetch_open_orders E w) = None \/ fst (fetch_open_orders E w) = Some [] ->
  GridExecutor.cancel_open_orders (Connector.venue E) (ex, (c, w))
  = (Some tt,
     (GridExecutor.set_grid_levels (map GridExecutor.reset_unfilled) ex,
      (c, snd (fetch_open_orders E w)))).
Proof.
  intros H.
  unfold GridExecutor.cancel_open_orders, Exc.bind, GridExecutor.venue.
  cbn [fst snd cancel_all_orders Connector.venue].
  rewrite (CleanupFacts.cancel_all_orders_nothing_listed E c w H). reflexivity.
Qed.

(** An executor on a session on which every call raises. *)
Lemma unlisted_orders_are_forgotten_witness :
  fst (fetch_open_orders MockExchange.unreachable tt) = None
  /\ GridExecutor.cancel_open_orders (Connector.venue MockExchange.unreachable)
       (Desk.executor, (MockExchange.connector, tt))
     = (Some tt,
        (GridExecutor.set_grid_levels (map GridExecutor.reset_unfilled) Desk.executor,
         (MockExchange.connector,
          snd (fetch_open_orders MockExchange.unreachable tt)))).
Proof.
  split; [reflexivity|].
  apply (unlisted_orders_are_forgotten MockExchange.unreachable Desk.executor
           MockExchange.connector tt).
  left. reflexivity.
Defined.

(** X16.  [close_all_positions] returns [True], with nothing sent, when neither
    position is positive.  For a long position alone whose amount, quantized
    and raised to the minimum order size, is worth less than
    [min_notional_size] at the mid price, it returns [False] and the last
    thing it does is to read the mid price: no order is sent. *)
Theorem close_all_positions_needs_a_notional {W} (E : Exchange W) s :
  let positions := fst (Connector.get_positions E s) in
  let s1 := snd (Connector.get_positions E s) in
  (fst positions <= 0 -> snd positions <= 0 ->
   Connector.close_all_positions E s = (true, s1))
  /\ (forall amount price s2,
        0 < fst positions -> snd positions <= 0 ->
        BinanceConnector._quantize_amount (Connector.trading_rules (fst s1))
          (fst positions) = Some amount ->
        Connector.get_mid_price E s1 = (Some price, s2) ->
        BinanceConnector.clamp_amount (Connector.trading_rules (fst s1)) amount * price
        < min_notional_size (Connector.trading_rules (fst s1)) ->
        Connector.close_all_positions E s = (false, s2)).
Proof.
  cbv zeta. split.
  - apply CleanupFacts.close_all_positions_flat.
  - intros amount price s2 Hl Hs Hq Hm Hn.
    unfold Connector.close_all_positions.
    destruct (Connector.get_positions E s) as [[long short] s1]. cbn [fst snd] in *.
    apply DecFacts.ltb_lt in Hl. apply DecFacts.ltb_ge in Hs. unfold Dec.gtb.
    rewrite Hl, Hs.
    unfold Connector.place_order, BinanceConnector.place_order,
      BinanceConnector.prepare_order, BinanceConnector.order_notional,
      Connector.closing_candidate.
    cbn [OrderCandidate.price OrderCandidate.amount OrderCandidate.order_type
         BinanceConnector._quantize_price].
    rewrite Hq.
    change (get_mid_price (Connector.session E) s1) with (Connector.get_mid_price E s1).
    rewrite Hm. cbn [option_map].
    apply DecFacts.ltb_lt in Hn. rewrite Hn. reflexivity.
Qed.

(** A long position of 3 contracts at a mid price of 0.264, with a minimum
    notional of 5. *)
Lemma close_all_positions_needs_a_notional_witness :
  let dust := [("symbol", PyStr "DOGE/USDC:USDC"); ("contracts", PyNum 3);
               ("side", PyStr "long")] in
  let s := (MockExchange.connector,
            MockExchange.with_positions [dust]
              (MockExchange.start Scenario.epoch true)) in
  let s1 := snd (Connector.get_positions MockExchange.exchange s) in
  fst (Connector.get_positions MockExchange.exchange s) = (3, 0)
  /\ option_map (Qeq_bool 0.264)
       (fst (Connector.get_mid_price MockExchange.exchange s1)) = Some true
  /\ Connector.close_all_positions MockExchange.exchange s
     = (false, snd (Connector.get_mid_price MockExchange.exchange s1)).
Proof.
  intros dust s s1.
  split; [vm_compute; reflexivity|]. split; [vm_compute; reflexivity|].
  eapply (proj2 (close_all_positions_needs_a_notional MockExchange.exchange s)
            3 _ (snd (Connector.get_mid_price MockExchange.exchange s1))).
  - vm_compute. reflexivity.
  - vm_compute. discriminate.
  - vm_compute. reflexivity.
  - cbv. reflexivity.
  - vm_compute. reflexivity.
Defined.

(** X17.  If every [fetch_open_orders] and [fetch_positions] raises and the
    stored positions are not positive, [cleanup] returns [True] and leaves the
    connector as it is: what cannot be listed counts as nothing to clean. *)
Theorem cleanup_reports_success_on_a_silent_exchange {W} (E : Exchange W) c :
  (forall w, fst (fetch_open_orders E w) = None) ->
  (forall w, fst (fetch_positions E w) = None) ->
  Connector.long_position c <= 0 ->
  Connector.short_position c <= 0 ->
  forall w,
    fst (Connector.cleanup E (c, w)) = true
    /\ fst (snd (Connector.cleanup E (c, w))) = c.
Proof.
  intros Horders Hpositions Hlong Hshort w.
  assert (Hpos : forall w0,
             Connector.get_positions E (c, w0)
             = ((Connector.long_position c, Connector.short_position c),
                (c, snd (fetch_positions E w0)))).
  { intros w0. unfold Connector.get_positions.
    specialize (Hpositions w0).
    destruct (fetch_positions E w0) as [positions w1]. simpl in *.
    rewrite Hpositions. reflexivity. }
  assert (Hflat : forall w0,
             Connector.close_all_positions E (c, w0)
             = (true, (c, snd (fetch_positions E w0)))).
  { intros w0. rewrite CleanupFacts.close_all_positions_flat; rewrite Hpos; auto. }
  unfold Connector.cleanup.
  rewrite (CleanupFacts.cancel_all_orders_nothing_listed E c w) by (left; apply Horders).
  cbn [fst snd]. rewrite Hflat. cbn [fst snd].
  unfold Connector.verify_cleanup.
  rewrite CleanupFacts.get_open_orders_nothing_listed by (left; apply Horders).
  rewrite Hpos.
  apply DecFacts.ltb_ge in Hlong, Hshort. unfold Dec.gtb. rewrite Hlong, Hshort.
  split; reflexivity.
Qed.

Lemma cleanup_reports_success_on_a_silent_exchange_witness :
  fst (Connector.cleanup MockExchange.unreachable (MockExchange.connector, tt)) = true
  /\ fst (snd (Connector.cleanup MockExchange.unreachable (MockExchange.connector, tt)))
     = MockExchange.connector.
Proof.
  apply (cleanup_reports_success_on_a_silent_exchange MockExchange.unreachable
           MockExchange.connector); try reflexivity; discriminate.
Defined.

(** X18.  [verify_cleanup] returns [True] exactly when [get_open_orders] returns
    the empty list and [get_positions], called after it, returns no positive
    position; and [get_open_orders] returns the empty list when
    [fetch_open_orders] raises. *)
Theorem verify_cleanup_trusts_an_empty_listing {W} (E : Exchange W) s :
  let listed := Connector.get_open_orders E s in
  let positions := fst (Connector.get_positions E (snd listed)) in
  (fst (Connector.verify_cleanup E s) = true
   <-> fst listed = [] /\ fst positions <= 0 /\ snd positions <= 0)
  /\ (fst (fetch_open_orders E (snd s)) = None -> fst listed = []).
Proof.
  cbv zeta. split.
  - unfold Connector.verify_cleanup.
    destruct (Connector.get_open_orders E s) as [[|order orders] s1]; cbn [fst snd].
    + destruct (Connector.get_positions E s1) as [[long short] s2]. cbn [fst snd].
      unfold Dec.gtb. rewrite negb_true_iff, orb_false_iff, !DecFacts.ltb_ge.
      tauto.
    + split; [discriminate | intros [H _]; discriminate].
  - unfold Connector.get_open_orders, Connector.lift.
    destruct (fetch_open_orders E (snd s)) as [orders w1]. simpl.
    intros ->. reflexivity.
Qed.

(** X19.  [validate_dual_account_balance] returns normally exactly when the free
    balance times the leverage covers [total_amount_quote] on both accounts.
    A balance that cannot be fetched counts as 0, so that with a positive
    budget the validation raises as soon as one fetch fails. *)
Theorem both_accounts_must_cover_the_budget {WA WB} (EA : Exchange WA)
    (EB : Exchange WB) leverage total_amount_quote sa sb :
  let free_a := Connector.free (fst (Connector.get_balance EA None sa)) in
  let free_b := Connector.free (fst (Connector.get_balance EB None sb)) in
  (fst (StrategyController.validate_dual_account_balance EA EB leverage
          total_amount_quote sa sb) = Some tt
   <-> total_amount_quote <= free_a * inject_Z leverage
       /\ total_amount_quote <= free_b * inject_Z leverage)
  /\ (fst (fetch_balance EA (snd sa)) = None -> free_a = 0)
  /\ (fst (fetch_balance EB (snd sb)) = None -> free_b = 0)
  /\ (0 < total_amount_quote ->
      fst (fetch_balance EA (snd sa)) = None \/ fst (fetch_balance EB (snd sb)) = None ->
      fst (StrategyController.validate_dual_account_balance EA EB leverage
             total_amount_quote sa sb) = None).
Proof.
  cbv zeta.
  assert (Hzero : forall W (E : Exchange W) s,
             fst (fetch_balance E (snd s)) = None ->
             Connector.free (fst (Connector.get_balance E None s)) = 0).
  { intros W E s. unfold Connector.get_balance, Connector.lift.
    destruct (fetch_balance E (snd s)) as [fetched w1]. simpl.
    intros ->. reflexivity. }
  assert (Hiff :
    fst (StrategyController.validate_dual_account_balance EA EB leverage
           total_amount_quote sa sb) = Some tt
    <-> total_amount_quote
        <= Connector.free (fst (Connector.get_balance EA None sa)) * inject_Z leverage
        /\ total_amount_quote
           <= Connector.free (fst (Connector.get_balance EB None sb)) * inject_Z leverage).
  { unfold StrategyController.validate_dual_account_balance.
    destruct (Connector.get_balance EA None sa) as [balance_a sa1].
    destruct (Connector.get_balance EB None sb) as [balance_b sb1].
    cbn [fst snd].
    set (a := Connector.free balance_a * inject_Z leverage).
    set (b := Connector.free balance_b * inject_Z leverage).
    destruct (Dec.ltb b a) eqn:Eba.
    - apply DecFacts.ltb_lt in Eba.
      destruct (Dec.ltb b total_amount_quote) eqn:Et; simpl.
      + apply DecFacts.ltb_lt in Et. split; [discriminate | intros [_ H]; lra].
      + apply DecFacts.ltb_ge in Et. split; [intros _; split; lra | reflexivity].
    - apply DecFacts.ltb_ge in Eba.
      destruct (Dec.ltb a total_amount_quote) eqn:Et; simpl.
      + apply DecFacts.ltb_lt in Et. split; [discriminate | intros [H _]; lra].
      + apply DecFacts.ltb_ge in Et. split; [intros _; split; lra | reflexivity]. }
  split; [exact Hiff|].
  split; [apply Hzero|]. split; [apply Hzero|].
  intros Hreq Hfail.
  destruct (fst (StrategyController.validate_dual_account_balance EA EB leverage
                   total_amount_quote sa sb)) as [[]|] eqn:Ev; [|reflexivity].
  exfalso. destruct (proj1 Hiff eq_refl) as [Ha Hb].
  destruct Hfail as [Hf|Hf]; apply Hzero in Hf; rewrite Hf in *; lra.
Qed.

(** ** What a running executor sends *)

Module KeepsFacts.
Import Kept.

Section Generic.
Context {S : Type} (P : S -> Prop) (R : S -> S -> Prop).
Hypothesis R_refl : forall s, R s s.
Hypothesis R_trans : forall a b c, R a b -> R b c -> R a c.
Hypothesis P_kept : forall s s', P s -> R s s' -> P s'.

Lemma keeps_ret {A} (a : A) : keeps P R (Exc.ret a).
Proof. intros s _. apply R_refl. Qed.

Lemma keeps_raise {A} : keeps P R (@Exc.raise S A).
Proof. intros s _. apply R_refl. Qed.

Lemma keeps_of_option {A} (o : option A) : keeps P R (Exc.of_option o).
Proof. destruct o; [apply keeps_ret | apply keeps_raise]. Qed.

Lemma keeps_get : keeps P R Exc.get.
Proof. intros s _. apply R_refl. Qed.

Lemma keeps_bind {A B} (m : Exc.M S A) (f : A -> Exc.M S B) :
  keeps P R m -> (forall a, keeps P R (f a)) -> keeps P R (Exc.bind m f).
Proof.
  intros Hm Hf s Hs. unfold Exc.bind. specialize (Hm s Hs).
  destruct (m s) as [[a|] s1]; simpl in *; [|exact Hm].
  eapply R_trans; [exact Hm | apply Hf]. eapply P_kept; eassumption.
Qed.

Lemma keeps_try {A} (m h : Exc.M S A) :
  keeps P R m -> keeps P R h -> keeps P R (Exc.try_except m h).
Proof.
  intros Hm Hh s Hs. unfold Exc.try_except. specialize (Hm s Hs).
  destruct (m s) as [[a|] s1]; simpl in *; [exact Hm|].
  eapply R_trans; [exact Hm | apply Hh]. eapply P_kept; eassumption.
Qed.

Lemma keeps_for_each {A} (l : list A) (body : A -> Exc.M S unit) :
  (forall x, keeps P R (body x)) -> keeps P R (Exc.for_each l body).
Proof.
  intros Hb. induction l as [|x l IH]; simpl.
  - apply keeps_ret.
  - apply keeps_bind; [apply Hb | intros _; exact IH].
Qed.

Lemma keeps_filter_map_m {A B} (l : list A) (body : A -> Exc.M S (option B)) :
  (forall x, keeps P R (body x)) -> keeps P R (Exc.filter_map_m l body).
Proof.
  intros Hb. induction l as [|x l IH]; simpl.
  - apply keeps_ret.
  - apply keeps_bind; [apply Hb | intros r].
    apply keeps_bind; [exact IH | intros rs]. apply keeps_ret.
Qed.

End Generic.
End KeepsFacts.

Module SentFacts.
Import GridExecutor Kept KeepsFacts Recorded.

Lemma sends_refl {W} sd (s : St (W := world (W := W))) : sends_own_side sd s s.
Proof.
  split; [reflexivity|]. exists []. split; [now rewrite app_nil_r | constructor].
Qed.

Lemma sends_trans {W} sd (a b c : St (W := world (W := W))) :
  sends_own_side sd a b -> sends_own_side sd b c -> sends_own_side sd a c.
Proof.
  intros [H1 [l1 [E1 F1]]] [H2 [l2 [E2 F2]]]. split; [congruence|].
  exists (l1 ++ l2)%list. split.
  - rewrite E2, E1. now rewrite app_assoc.
  - apply Forall_app; split; assumption.
Qed.

Lemma of_side_kept {W} sd (s s' : St (W := world (W := W))) :
  of_side sd s -> sends_own_side sd s s' -> of_side sd s'.
Proof. unfold of_side. intros H [Hc _]. now rewrite Hc. Qed.

Section WithVenue.
Context {W : Type} (V : Venue W) (sd : TradeType).

Lemma keeps_ex_gets {A} (f : t -> A) : keeps (of_side (W := W) sd) (sends_own_side sd)
    (ex_gets f).
Proof. intros s _. apply sends_refl. Qed.

(** A call that is passed on to [V] notes nothing. *)
Lemma keeps_pass {A} (f : W -> A * W) : keeps (of_side (W := W) sd) (sends_own_side sd)
    (GridExecutor.venue (pass f)).
Proof.
  intros [ex [w log]] _. unfold GridExecutor.venue, pass. simpl.
  destruct (f w) as [a w1]. simpl. split; [reflexivity|].
  exists []. split; [now rewrite app_nil_r | constructor].
Qed.

Lemma keeps_time : keeps (of_side (W := W) sd) (sends_own_side sd)
    (GridExecutor.venue (fun w => (time (Recorded.venue V) w, w))).
Proof. intros [ex wl] _. apply sends_refl. Qed.

Lemma keeps_mid_price : keeps (of_side (W := W) sd) (sends_own_side sd)
    (mid_price (Recorded.venue V)).
Proof.
  unfold mid_price.
  apply keeps_bind; [apply sends_trans | apply of_side_kept | | intros p].
  - apply (keeps_pass (get_mid_price V)).
  - apply keeps_of_option. apply sends_refl.
Qed.

Lemma keeps_ex_modify f :
  (forall ex, config (f ex) = config ex) -> keeps (of_side (W := W) sd) (sends_own_side sd)
    (ex_modify f).
Proof.
  intros Hf [ex wl] _. unfold ex_modify. simpl. split; [apply Hf|].
  exists []. split; [now rewrite app_nil_r | constructor].
Qed.

Lemma keeps_modify_level i f : keeps (of_side (W := W) sd) (sends_own_side sd)
    (modify_level i f).
Proof. apply keeps_ex_modify. reflexivity. Qed.

Lemma keeps_cancel_order order_id : keeps (of_side (W := W) sd) (sends_own_side sd)
    (cancel_order (Recorded.venue V) order_id).
Proof.
  unfold cancel_order.
  apply keeps_bind; [apply sends_trans | apply of_side_kept | | intros [|]].
  - apply (keeps_pass (exchange_cancel_order V order_id)).
  - apply keeps_ex_modify. reflexivity.
  - apply keeps_ret. apply sends_refl.
Qed.

(** What [place] leaves: the executor as it was, and at most one request
    more, built from the candidate with its amount quantized and raised to
    the minimum size. *)
Lemma place_spec c (s : St (W := world (W := W))) :
  exists r w',
    place (Recorded.venue V) c s = (Some r, (fst s, w'))
    /\ (snd w' = snd (snd s)
        \/ exists price amount uuid,
             BinanceConnector._quantize_amount (trading_rules (fst s))
               (OrderCandidate.amount c) = Some amount
             /\ snd w' = (snd (snd s)
                          ++ [BinanceConnector.request_for c price
                                (BinanceConnector.clamp_amount (trading_rules (fst s)) amount)
                                uuid])%list).
Proof.
  destruct s as [ex [w log]].
  unfold place, Exc.bind, ex_gets, GridExecutor.venue. cbn [fst snd].
  unfold BinanceConnector.place_order, BinanceConnector.prepare_order.
  destruct (BinanceConnector._quantize_price (trading_rules ex) (OrderCandidate.price c))
    as [price|]; [|eexists _, _; split; [reflexivity | now left]].
  destruct (BinanceConnector._quantize_amount (trading_rules ex) (OrderCandidate.amount c))
    as [amount|] eqn:Ea; [|eexists _, _; split; [reflexivity | now left]].
  assert (Hn : exists n w1,
             BinanceConnector.order_notional (Recorded.venue V) c price
               (BinanceConnector.clamp_amount (trading_rules ex) amount) (w, log)
             = (n, (w1, log))).
  { unfold BinanceConnector.order_notional.
    destruct (OrderCandidate.order_type c); try (eexists _, _; reflexivity).
    cbn [get_mid_price Recorded.venue]. unfold pass. cbn [fst snd].
    destruct (get_mid_price V w) as [p w1]. eexists _, _; reflexivity. }
  destruct Hn as [n [w1 Hn]]. rewrite Hn.
  destruct n as [n|]; [|eexists _, _; split; [reflexivity | now left]].
  destruct (Dec.ltb n (min_notional_size (trading_rules ex)));
    [eexists _, _; split; [reflexivity | now left]|].
  cbn [new_uuid8 create_order Recorded.venue]. unfold pass. cbn [fst snd].
  destruct (new_uuid8 V w1) as [uuid w2]. cbn [fst snd].
  match goal with
  | |- context [create_order V ?req w2] =>
      destruct (create_order V req w2) as [[order|] w3]
  end;
    [|eexists _, _; split; [reflexivity | right; eexists _, _, _; split; reflexivity]].
  destruct (Py.contains "id" _);
    eexists _, _; (split; [reflexivity | right; eexists _, _, _; split; reflexivity]).
Qed.

Lemma keeps_place c : fits sd c -> keeps (of_side (W := W) sd) (sends_own_side sd)
    (place (Recorded.venue V) c).
Proof.
  intros Hc s _. destruct (place_spec c s) as [r [w' [E Hlog]]]. rewrite E.
  split; [reflexivity|]. unfold requests. cbn [fst snd].
  destruct Hlog as [->|[price [amount [uuid [_ ->]]]]].
  - exists []. split; [now rewrite app_nil_r | constructor].
  - eexists. split; [reflexivity|]. constructor; [apply Hc | constructor].
Qed.

Lemma fits_open ty amount price :
  fits sd {| OrderCandidate.order_type := ty; OrderCandidate.order_side := sd;
          OrderCandidate.amount := amount; OrderCandidate.price := price;
          OrderCandidate.position_action := OPEN |}.
Proof.
  intros p a u. unfold own_side, BinanceConnector.request_for. simpl.
  destruct sd; repeat split; try discriminate.
Qed.

Lemma fits_close amount price :
  fits sd {| OrderCandidate.order_type := LIMIT;
          OrderCandidate.order_side := match sd with BUY => SELL | SELL => BUY end;
          OrderCandidate.amount := amount; OrderCandidate.price := price;
          OrderCandidate.position_action := CLOSE |}.
Proof.
  intros p a u. unfold own_side, BinanceConnector.request_for. simpl.
  destruct sd; repeat split; try discriminate.
Qed.

Ltac side_step :=
  first
    [ apply keeps_ret; apply sends_refl
    | apply keeps_raise; apply sends_refl
    | apply keeps_of_option; apply sends_refl
    | apply keeps_get; apply sends_refl
    | apply keeps_ex_gets
    | apply keeps_mid_price
    | apply keeps_time
    | apply keeps_modify_level
    | apply keeps_cancel_order
    | apply keeps_ex_modify; reflexivity
    | apply keeps_bind; [apply sends_trans | apply of_side_kept | | intros ?]
    | apply keeps_try;
      [apply sends_trans | apply of_side_kept | | ]
    | apply keeps_for_each;
      [apply sends_refl | apply sends_trans | apply of_side_kept | intros ?]
    | apply keeps_filter_map_m;
      [apply sends_refl | apply sends_trans | apply of_side_kept | intros ?]
    | match goal with
      | |- keeps _ _ (match ?x with _ => _ end) => destruct x
      | |- keeps _ _ (let '(_, _) := ?x in _) => destruct x
      end ].

(** A value read from the executor comes from one of a grid of side [sd]. *)
Lemma keeps_gets_bind {A B} (f : t -> A)
    (k : A -> Exc.M (St (W := world (W := W))) B) :
  (forall ex, GridExecutorConfig.side (config ex) = sd -> keeps (of_side (W := W) sd) (sends_own_side sd)
    (k (f ex))) ->
  keeps (of_side (W := W) sd) (sends_own_side sd)
    (Exc.bind (ex_gets f) k).
Proof.
  intros Hk s Hs. unfold Exc.bind, ex_gets. apply (Hk (fst s) Hs s Hs).
Qed.

Lemma keeps_adjust_and_place_open_order i :
  keeps (of_side (W := W) sd) (sends_own_side sd)
    (adjust_and_place_open_order (Recorded.venue V) i).
Proof.
  unfold adjust_and_place_open_order.
  apply keeps_try; [apply sends_trans | apply of_side_kept | | side_step].
  apply keeps_bind;
    [apply sends_trans | apply of_side_kept | side_step | intros levels].
  destruct (levels !! i) as [level|]; [|side_step].
  apply keeps_bind;
    [apply sends_trans | apply of_side_kept | side_step | intros base_amount].
  apply keeps_gets_bind. intros ex Hex. rewrite Hex.
  apply keeps_bind;
    [apply sends_trans | apply of_side_kept
    | apply keeps_place, fits_open | intros order_result].
  repeat side_step.
Qed.

Lemma keeps_adjust_and_place_close_order i :
  keeps (of_side (W := W) sd) (sends_own_side sd)
    (adjust_and_place_close_order (Recorded.venue V) i).
Proof.
  unfold adjust_and_place_close_order.
  apply keeps_try; [apply sends_trans | apply of_side_kept | | side_step].
  apply keeps_bind;
    [apply sends_trans | apply of_side_kept | side_step | intros levels].
  destruct (levels !! i) as [level|]; [|side_step].
  destruct (GridLevel.active_open_order level) as [o|]; [|side_step].
  destruct (negb (TrackedOrder.is_filled o)); [side_step|].
  apply keeps_bind; [apply sends_trans | apply of_side_kept | | intros _].
  { destruct (GridLevel.active_close_order level); repeat side_step. }
  apply keeps_bind;
    [apply sends_trans | apply of_side_kept | side_step | intros current_price].
  apply keeps_gets_bind. intros ex Hex.
  apply keeps_bind;
    [apply sends_trans | apply of_side_kept | side_step | intros level1].
  apply keeps_bind;
    [apply sends_trans | apply of_side_kept | side_step | intros o1].
  cbv zeta. rewrite Hex.
  apply keeps_bind;
    [apply sends_trans | apply of_side_kept | side_step | intros close_price].
  apply keeps_bind;
    [apply sends_trans | apply of_side_kept | side_step | intros close_amount].
  destruct (Dec.ltb close_amount (min_order_size (trading_rules ex))); [side_step|].
  apply keeps_bind;
    [apply sends_trans | apply of_side_kept
    | apply keeps_place, fits_close | intros order_result].
  repeat side_step.
Qed.

Lemma keeps_place_open_orders to_create :
  keeps (of_side (W := W) sd) (sends_own_side sd)
    (place_open_orders (Recorded.venue V) to_create).
Proof.
  induction to_create as [|i rest IH]; simpl.
  - side_step.
  - apply keeps_bind; [apply sends_trans | apply of_side_kept | side_step | intros ex].
    destruct (_ <=? _)%Z; [side_step|].
    apply keeps_bind;
      [apply sends_trans | apply of_side_kept
      | apply keeps_adjust_and_place_open_order | intros _].
    exact IH.
Qed.

Lemma keeps_decide_and_act : keeps (of_side (W := W) sd) (sends_own_side sd)
    (decide_and_act (Recorded.venue V)).
Proof.
  unfold decide_and_act.
  apply keeps_bind; [apply sends_trans | apply of_side_kept | | intros to_create].
  { unfold get_open_orders_to_create, _filter_levels_by_activation_bounds,
      _sort_levels_by_proximity. repeat side_step. }
  apply keeps_bind; [apply sends_trans | apply of_side_kept | | intros to_close].
  { unfold get_close_orders_to_create, distance_to_mid. repeat side_step. }
  apply keeps_bind; [apply sends_trans | apply of_side_kept | | intros open_ids].
  { unfold get_open_order_ids_to_cancel, order_ids_to_cancel, distance_to_mid.
    repeat side_step. }
  apply keeps_bind; [apply sends_trans | apply of_side_kept | | intros close_ids].
  { unfold get_close_order_ids_to_cancel, order_ids_to_cancel, distance_to_mid.
    repeat side_step. }
  apply keeps_bind;
    [apply sends_trans | apply of_side_kept | apply keeps_place_open_orders | intros _].
  apply keeps_bind; [apply sends_trans | apply of_side_kept | | intros _].
  { apply keeps_for_each;
      [apply sends_refl | apply sends_trans | apply of_side_kept | intros i].
    apply keeps_adjust_and_place_close_order. }
  apply keeps_bind; [apply sends_trans | apply of_side_kept | | intros _].
  { apply keeps_for_each;
      [apply sends_refl | apply sends_trans | apply of_side_kept | intros oid].
    apply keeps_cancel_order. }
  apply keeps_for_each;
    [apply sends_refl | apply sends_trans | apply of_side_kept | intros oid].
  apply keeps_cancel_order.
Qed.

(** The refresh of a tick sends nothing. *)
Lemma update_all_order_status_sends_nothing (s : St (W := world (W := W))) :
  requests (snd (update_all_order_status (Recorded.venue V) s)) = requests s.
Proof.
  assert (Hm : forall ids results w log,
             snd (snd (BinanceConnector.get_multiple_order_status_loop
                         (Recorded.venue V) ids results (w, log))) = log).
  { induction ids as [|id ids IH]; intros results w log; simpl; [reflexivity|].
    unfold pass. cbn [fst snd]. destruct (fetch_order V id w) as [order w1].
    apply IH. }
  destruct s as [ex [w log]].
  unfold update_all_order_status, Exc.bind, ex_gets, ex_modify, GridExecutor.venue,
    Exc.ret. cbn [fst snd].
  destruct (collect_active 0 (grid_levels ex) ([], [])) as [[|order_id order_ids] order_map];
    [reflexivity|].
  cbn [fst snd].
  pose proof (Hm (order_id :: order_ids) [] w log) as Hl.
  change (BinanceConnector.get_multiple_order_status_loop (Recorded.venue V)
            (order_id :: order_ids) [] (w, log))
    with (BinanceConnector.get_multiple_order_status (Recorded.venue V)
            (order_id :: order_ids) (w, log)) in Hl.
  destruct (BinanceConnector.get_multiple_order_status (Recorded.venue V)
              (order_id :: order_ids) (w, log)) as [statuses [w1 log1]].
  unfold requests. cbn [fst snd] in *. exact Hl.
Qed.

Lemma poll_slot_sends_nothing sl level w log :
  snd (snd (poll_slot (Recorded.venue V) sl level (w, log))) = log.
Proof.
  unfold poll_slot.
  destruct (get_slot sl level) as [o|]; [|reflexivity].
  unfold BinanceConnector.get_order_status. cbn [fetch_order Recorded.venue].
  unfold pass. cbn [fst snd].
  destruct (fetch_order V (TrackedOrder.order_id o) w) as [[status|] w1];
    [destruct (Py.truthy (PyDict status))|]; reflexivity.
Qed.

Lemma refresh_levels_sends_nothing levels : forall i buckets w log,
  snd (snd (refresh_levels (Recorded.venue V) i levels buckets (w, log))) = log.
Proof.
  induction levels as [|level rest IH]; intros i buckets w log; simpl; [reflexivity|].
  pose proof (poll_slot_sends_nothing OpenSlot level w log) as Hp1.
  destruct (poll_slot (Recorded.venue V) OpenSlot level (w, log)) as [level1 [w1 log1]].
  simpl in Hp1. subst log1.
  pose proof (poll_slot_sends_nothing CloseSlot level1 w1 log) as Hp2.
  destruct (poll_slot (Recorded.venue V) CloseSlot level1 (w1, log)) as [level2 [w2 log2]].
  simpl in Hp2. subst log2.
  match goal with
  | |- context [refresh_levels ?v ?j rest ?b (w2, log)] =>
      pose proof (IH j b w2 log) as Hi;
      destruct (refresh_levels v j rest b (w2, log)) as [[rest' buckets'] [w3 log3]]
  end.
  simpl in *. exact Hi.
Qed.

Lemma update_grid_levels_sends_nothing (s : St (W := world (W := W))) :
  requests (snd (update_grid_levels (Recorded.venue V) s)) = requests s.
Proof.
  destruct s as [ex [w log]]. unfold update_grid_levels.
  pose proof (refresh_levels_sends_nothing (grid_levels ex) 0%nat empty_buckets w log) as Hr.
  destruct (refresh_levels (Recorded.venue V) 0 (grid_levels ex) empty_buckets (w, log))
    as [[levels buckets] [w1 log1]].
  simpl in *. exact Hr.
Qed.

Lemma update_basic_metrics_sends_nothing (s : St (W := world (W := W))) :
  requests (snd (update_basic_metrics (Recorded.venue V) s)) = requests s.
Proof.
  destruct s as [ex [w log]].
  unfold update_basic_metrics, Exc.bind, ex_gets, ex_modify, GridExecutor.venue.
  cbn [fst snd get_positions Recorded.venue]. unfold pass. cbn [fst snd].
  destruct (get_positions V w) as [p w1]. reflexivity.
Qed.

Lemma refresh_sends_nothing (s : St (W := world (W := W))) :
  config (fst (snd (refresh (Recorded.venue V) s))) = config (fst s)
  /\ requests (snd (refresh (Recorded.venue V) s)) = requests s.
Proof.
  destruct (TickFacts.refresh_returns (Recorded.venue V) s) as [_ Hc].
  split; [exact Hc|].
  unfold refresh, Exc.bind.
  pose proof (update_all_order_status_sends_nothing s) as H1.
  destruct (update_all_order_status (Recorded.venue V) s) as [r1 s1].
  cbn [snd] in H1. destruct r1 as [[]|]; [|exact H1].
  pose proof (update_grid_levels_sends_nothing s1) as H2.
  destruct (update_grid_levels (Recorded.venue V) s1) as [r2 s2].
  cbn [snd] in H2. destruct r2 as [[]|]; [|cbn [snd]; congruence].
  rewrite update_basic_metrics_sends_nothing. congruence.
Qed.

End WithVenue.
End SentFacts.

(** X20.  On any venue, every request a RUNNING tick sends to [create_order] is
    on the position side of the grid (LONG for a BUY grid, SHORT for a SELL
    grid): a request that opens is on the side of the grid, a request that
    reduces is a limit order on the other side.  A NOT_STARTED or TERMINATED
    tick sends none. *)
Theorem a_grid_trades_its_own_position_side {W} (V : Venue W)
    (s : GridExecutor.St (W := Recorded.world (W := W))) :
  let s' := snd (GridExecutor.control_task (Recorded.venue V) s) in
  (GridExecutor._status (fst s) = RUNNING ->
   exists sent,
     Recorded.requests s' = (Recorded.requests s ++ sent)%list
     /\ Forall (Recorded.own_side
                  (GridExecutorConfig.side (GridExecutor.config (fst s)))) sent)
  /\ (GridExecutor._status (fst s) = NOT_STARTED
      \/ GridExecutor._status (fst s) = TERMINATED ->
      Recorded.requests s' = Recorded.requests s).
Proof.
  cbv zeta.
  destruct (TickFacts.refresh_returns (Recorded.venue V) s) as [Hr _].
  destruct (SentFacts.refresh_sends_nothing V s) as [Hc Hq].
  pose proof (ControlFacts.same_control_refresh (Recorded.venue V) s) as [Hs _].
  remember (GridExecutor.control_task (Recorded.venue V) s) as res eqn:Eres.
  unfold GridExecutor.control_task, Exc.try_except in Eres.
  unfold Exc.bind at 1 in Eres.
  destruct (GridExecutor.refresh (Recorded.venue V) s) as [r s1].
  cbn [fst snd] in Hr, Hc, Hq, Hs. subst r.
  unfold Exc.bind at 1 in Eres. unfold GridExecutor.ex_gets at 1 in Eres.
  cbn beta iota in Eres. rewrite Hs in Eres.
  split.
  - intros Hrun. rewrite Hrun in Eres.
    pose proof (SentFacts.keeps_decide_and_act V
                  (GridExecutorConfig.side (GridExecutor.config (fst s))) s1) as Hd.
    assert (Hof : Recorded.of_side
                    (GridExecutorConfig.side (GridExecutor.config (fst s))) s1)
      by (unfold Recorded.of_side; now rewrite Hc).
    specialize (Hd Hof). destruct Hd as [Hc2 [sent [Esent Hsent]]].
    destruct (GridExecutor.decide_and_act (Recorded.venue V) s1) as [[[]|] s2];
      subst res; cbn [fst snd] in *.
    + exists sent. split; [congruence | exact Hsent].
    + exists sent. split; [|exact Hsent].
      unfold GridExecutor.on_error, GridExecutor.ex_modify, Recorded.requests in *.
      cbn [fst snd]. congruence.
  - intros [Hst|Hst]; rewrite Hst in Eres; subst res; cbn [fst snd]; exact Hq.
Qed.

(** ** The take-profit order of a level *)

Module TakeProfitFacts.
Import GridExecutor Recorded.

Lemma quantize_amount_spec rules x q :
  BinanceConnector._quantize_amount rules x = Some q ->
  (exists k, q = inject_Z k * min_base_amount_increment rules)
  /\ Qabs q <= Qabs x
  /\ BinanceConnector._quantize_amount rules q = Some q.
Proof.
  unfold BinanceConnector._quantize_amount, Dec.floordiv.
  destruct (Dec.is_zero (min_base_amount_increment rules)) eqn:Ez; [discriminate|].
  intros H. inversion H as [Hq]. clear H.
  apply DecFacts.is_zero_false in Ez.
  destruct (QuantFacts.quantized x _ Ez) as [_ [H2 [_ H4]]].
  split; [eexists; reflexivity|]. split; [exact H2|].
  unfold Dec.floordiv in H4.
  destruct (Dec.is_zero (min_base_amount_increment rules)); [discriminate|].
  inversion H4 as [H5]. rewrite H5. rewrite H5. reflexivity.
Qed.

Lemma open_order_kept_refl {W} i (s : St (W := world (W := W))) :
  open_order_kept i s s.
Proof.
  split; [reflexivity|]. split; [reflexivity|].
  intros level' H. exists level'. split; [exact H | now right].
Qed.

Lemma open_order_kept_trans {W} i (a b c : St (W := world (W := W))) :
  open_order_kept i a b -> open_order_kept i b c -> open_order_kept i a c.
Proof.
  intros [H1 [H2 H3]] [H4 [H5 H6]].
  split; [congruence|]. split; [congruence|].
  intros level' H. destruct (H6 _ H) as [l1 [Hl1 Ho1]].
  destruct (H3 _ Hl1) as [l0 [Hl0 Ho0]].
  exists l0. split; [exact Hl0|].
  destruct Ho1 as [Ho1|Ho1]; [now left|].
  destruct Ho0 as [Ho0|Ho0]; [left|right]; congruence.
Qed.

Section WithVenue.
Context {W : Type} (V : Venue W).

Lemma cancel_order_keeps_open_order i order_id (s : St (W := world (W := W))) :
  open_order_kept i s (snd (cancel_order (Recorded.venue V) order_id s)).
Proof.
  destruct s as [ex [w log]].
  unfold cancel_order, Exc.bind, GridExecutor.venue, BinanceConnector.cancel_order.
  cbn [fst snd exchange_cancel_order Recorded.venue]. unfold pass. cbn [fst snd].
  destruct (exchange_cancel_order V order_id w) as [[|] w1]; cbn [fst snd].
  - split; [reflexivity|]. split; [reflexivity|].
    intros level' H. cbn [fst snd grid_levels set_grid_levels ex_modify] in H.
    apply (ThrottleFacts.reset_cancelled_lookup _ _ _ _ H).
  - split; [reflexivity|]. split; [reflexivity|].
    intros level' H. exists level'. split; [exact H | now right].
Qed.

Lemma close_slot_keeps_open_order i (s : St (W := world (W := W))) :
  open_order_kept i s (snd (modify_level i (GridLevel.set_close None) s)).
Proof.
  destruct s as [ex wl]. unfold modify_level, ex_modify. cbn [fst snd].
  split; [reflexivity|]. split; [reflexivity|].
  intros level' H. simpl in H.
  rewrite list_lookup_alter_eq in H.
  destruct (grid_levels ex !! i) as [level|] eqn:E; [|discriminate].
  simpl in H. inversion H. exists level. split; [exact E | now right].
Qed.

Lemma mid_price_keeps_open_order i (s : St (W := world (W := W))) :
  open_order_kept i s (snd (mid_price (Recorded.venue V) s)).
Proof.
  destruct s as [ex [w log]].
  unfold mid_price, Exc.bind, GridExecutor.venue.
  cbn [fst snd get_mid_price Recorded.venue]. unfold pass. cbn [fst snd].
  destruct (get_mid_price V w) as [[p|] w1]; cbn [fst snd];
    (split; [reflexivity|]; split; [reflexivity|];
     intros level' H; exists level'; split; [exact H | now right]).
Qed.

End WithVenue.
End TakeProfitFacts.

(** X21.  [adjust_and_place_close_order] sends at most one request, and only for
    a level whose opening order is filled.  The request is a reduce-only limit
    order whose amount is a multiple of the amount increment, at least the
    minimum order size and, the executed amount of the opening order being
    non-negative, at most that amount. *)
Theorem a_take_profit_order_sells_what_was_bought {W} (V : Venue W) i
    (s : GridExecutor.St (W := Recorded.world (W := W))) :
  let s' := snd (GridExecutor.adjust_and_place_close_order (Recorded.venue V) i s) in
  let rules := GridExecutor.trading_rules (fst s) in
  Recorded.requests s' = Recorded.requests s
  \/ exists level o req,
       GridExecutor.grid_levels (fst s) !! i = Some level
       /\ GridLevel.active_open_order level = Some o
       /\ TrackedOrder.is_filled o = true
       /\ Recorded.requests s' = (Recorded.requests s ++ [req])%list
       /\ req_reduce_only req = true
       /\ req_type req = LIMIT
       /\ min_order_size rules <= req_amount req
       /\ (exists k, req_amount req = inject_Z k * min_base_amount_increment rules)
       /\ (0 <= TrackedOrder.executed_amount_base o ->
           req_amount req <= TrackedOrder.executed_amount_base o).
Proof.
  cbv zeta. destruct s as [ex wl].
  remember (GridExecutor.adjust_and_place_close_order (Recorded.venue V) i (ex, wl))
    as res eqn:Eres.
  unfold GridExecutor.adjust_and_place_close_order, Exc.try_except in Eres.
  unfold Exc.bind at 1 in Eres. unfold GridExecutor.ex_gets at 1 in Eres.
  cbn [fst snd] in Eres.
  destruct (GridExecutor.grid_levels ex !! i) as [level|] eqn:El;
    [|subst res; left; reflexivity].
  destruct (GridLevel.active_open_order level) as [o|] eqn:Eo;
    [|subst res; left; reflexivity].
  destruct (TrackedOrder.is_filled o) eqn:Ef; [|subst res; left; reflexivity].
  cbn [negb] in Eres.
  unfold Exc.bind at 1 in Eres.
  match type of Eres with
  | context [match ?m (ex, wl) with (a, s1) => _ end] => set (pre := m) in Eres
  end.
  assert (Hpre : Recorded.open_order_kept i (ex, wl) (snd (pre (ex, wl)))).
  { subst pre. destruct (GridLevel.active_close_order level) as [c|];
      [|apply TakeProfitFacts.open_order_kept_refl].
    unfold Exc.bind.
    pose proof (TakeProfitFacts.cancel_order_keeps_open_order V i
                  (TrackedOrder.order_id c) (ex, wl)) as Hc.
    destruct (GridExecutor.cancel_order (Recorded.venue V) (TrackedOrder.order_id c)
                (ex, wl)) as [[[]|] s1]; cbn [fst snd] in *; [|exact Hc].
    eapply TakeProfitFacts.open_order_kept_trans; [exact Hc|].
    apply TakeProfitFacts.close_slot_keeps_open_order. }
  destruct (pre (ex, wl)) as [[[]|] s1]; cbn [fst snd] in Hpre;
    [|subst res; left; apply Hpre].
  clear pre.
  unfold Exc.bind at 1 in Eres.
  pose proof (TakeProfitFacts.mid_price_keeps_open_order V i s1) as Hmid.
  destruct (GridExecutor.mid_price (Recorded.venue V) s1) as [[current_price|] s2];
    cbn [fst snd] in Hmid;
    pose proof (TakeProfitFacts.open_order_kept_trans i _ _ _ Hpre Hmid) as Hk;
    clear Hpre Hmid;
    [|subst res; left; apply Hk].
  unfold Exc.bind at 1 in Eres. unfold GridExecutor.ex_gets at 1 in Eres.
  cbn [fst snd] in Eres.
  destruct Hk as [Hreq [Hrules Hlev]].
  unfold Exc.bind at 1, Exc.of_option at 1 in Eres.
  destruct (GridExecutor.grid_levels (fst s2) !! i) as [level2|] eqn:El2;
    [|subst res; left; exact Hreq].
  destruct (Hlev _ eq_refl) as [level0 [El0 Ho2]]. cbn [fst snd] in El0.
  assert (level0 = level) by congruence. subst level0. clear El0 Hlev.
  unfold Exc.ret at 1 in Eres.
  unfold Exc.bind at 1, Exc.of_option at 1 in Eres.
  destruct (GridLevel.active_open_order level2) as [o2|] eqn:Eo2;
    [|subst res; left; exact Hreq].
  assert (o2 = o) by (destruct Ho2; congruence). subst o2. clear Ho2.
  unfold Exc.ret at 1 in Eres.
  unfold Exc.bind at 1, Exc.of_option at 1 in Eres.
  destruct (BinanceConnector._quantize_price _ _) as [close_price|];
    [|subst res; left; exact Hreq].
  unfold Exc.ret at 1 in Eres.
  unfold Exc.bind at 1, Exc.of_option at 1 in Eres.
  destruct (BinanceConnector._quantize_amount _ _) as [close_amount|] eqn:Eq;
    [|subst res; left; exact Hreq].
  unfold Exc.ret at 1 in Eres.
  destruct (Dec.ltb close_amount _) eqn:Elt; [subst res; left; exact Hreq|].
  unfold Exc.bind at 1 in Eres.
  match type of Eres with
  | context [GridExecutor.place _ ?c s2] => set (cand := c) in Eres
  end.
  destruct (SentFacts.place_spec V cand s2) as [r [w' [E Hlog]]].
  rewrite E in Eres.
  assert (Hfin : Recorded.requests (snd res) = snd w').
  { subst res. destruct r as [order_result|]; [|reflexivity].
    destruct (Py.truthy _); [|reflexivity].
    unfold Exc.bind, Exc.of_option.
    destruct (GridExecutor.result_order_id order_result); reflexivity. }
  rewrite Hfin. clear Eres Hfin E res.
  unfold Recorded.requests in Hreq. cbn [fst snd] in *.
  destruct Hlog as [Hlog | [price [amount [uuid [Ha Hlog]]]]].
  { left. rewrite Hlog. exact Hreq. }
  right.
  destruct (TakeProfitFacts.quantize_amount_spec _ _ _ Eq) as [[k Hk] [Hle Hidem]].
  subst cand. cbn [OrderCandidate.amount] in Ha.
  rewrite Hidem in Ha. inversion Ha. subst amount. clear Ha.
  unfold BinanceConnector.clamp_amount in Hlog. rewrite Elt in Hlog.
  rewrite Hrules in *.
  eexists level, o, _.
  split; [exact El|]. split; [exact Eo|]. split; [exact Ef|].
  split; [rewrite Hlog, Hreq; reflexivity|].
  cbn [BinanceConnector.request_for req_reduce_only req_type req_amount
       OrderCandidate.order_type OrderCandidate.position_action].
  split; [reflexivity|]. split; [reflexivity|].
  split; [now apply DecFacts.ltb_ge|].
  split; [exists k; exact Hk|].
  intros He.
  apply Qle_trans with (Qabs close_amount); [apply Qle_Qabs|].
  eapply Qle_trans; [exact Hle|].
  destruct (Dec.gtb (TrackedOrder.cum_fees_quote o) 0).
  - rewrite Qabs_pos; lra.
  - rewrite Qabs_pos; lra.
Qed.

(** ** Requests of a run on the mock venue *)

(** The first tick of the small grid opens the five levels closest to the
    mid price, each with a BUY on the LONG side.  Once the first of these
    orders is reported filled for its 99 units, the next tick opens the
    level that was left over and sends the take-profit order: a reduce-only
    SELL of 99 units on the LONG side, above the market. *)
Example requests_of_two_ticks_on_the_mock_venue :
  let first := Desk.tick Desk.start in
  let second := Desk.tick (Desk.then_report "1" "closed" 99 26.235 first) in
  map Desk.request_view (Recorded.requests first)
  = [(BUY, true, false, 99); (BUY, true, false, 101); (BUY, true, false, 97);
     (BUY, true, false, 103); (BUY, true, false, 96)]
  /\ map Desk.request_view (skipn 5 (Recorded.requests second))
     = [(BUY, true, false, 105); (SELL, true, true, 99)]
  /\ map (fun req => option_map (Qeq_bool 0.26526) (req_price req))
         (skipn 6 (Recorded.requests second))
     = [Some true].
Proof.
  cbv zeta. repeat split; vm_compute; reflexivity.
Qed.
